(** * wayvnc: the ext-screencopy capture session and the clipboard source

    A shallow embedding of [src/ext-screencopy.c] and of the sending half of
    [src/data-control.c].  Both files are event handlers that run on one
    thread; each handler is a function from the fields of its [struct] and
    from the world outside it (buffer pools, Wayland proxies, the requests
    sent to the compositor, file descriptors) to their new values.

    Pointers are object identities ([handle]); a pointer that may be [NULL]
    is an [option handle].  Dereferencing [NULL], a failed [assert] and the
    use of a pointer that names no live object all end the process: the
    handler returns [Abort] together with the world as it was left. *)

From Stdlib Require Import ZArith List Bool Lia.
From stdpp Require Import gmap strings list.

Open Scope Z_scope.

(** ** The execution monad: a world threaded through, or the process aborted *)
Module Exec.

Inductive res (A : Type) : Type :=
| Ok (a : A)
| Abort.
Arguments Ok {A} a.
Arguments Abort {A}.

Definition M (W A : Type) : Type := W -> res A * W.

Definition ret {W A : Type} (a : A) : M W A := fun w => (Ok a, w).

Definition bind {W A B : Type} (m : M W A) (k : A -> M W B) : M W B :=
  fun w => match m w with
           | (Ok a, w') => k a w'
           | (Abort, w') => (Abort, w')
           end.

Definition abort {W A : Type} : M W A := fun w => (Abort, w).

Definition gets {W A : Type} (f : W -> A) : M W A := fun w => (Ok (f w), w).

Definition modify {W : Type} (f : W -> W) : M W unit := fun w => (Ok tt, f w).

(** [p->field] for a pointer [p] that may be [NULL]. *)
Definition deref {W A : Type} (p : option A) : M W A :=
  match p with
  | Some a => ret a
  | None => abort
  end.

(** [for (i = 0; i < n; ++i) body(xs[i])] *)
Fixpoint for_each {W A : Type} (body : A -> M W unit) (xs : list A) : M W unit :=
  match xs with
  | [] => ret tt
  | x :: rest => bind (body x) (fun _ => for_each body rest)
  end.

End Exec.

Import Exec.

Declare Scope exec_scope.
Delimit Scope exec_scope with exec.
Notation "x <- m ;; k" := (bind m (fun x => k))
  (at level 100, m at next level, right associativity) : exec_scope.
Notation "m ;;; k" := (bind m (fun _ => k))
  (at level 100, right associativity) : exec_scope.
Open Scope exec_scope.

(** Object identities: Wayland proxies, pools, buffers, callbacks. *)
Abbreviation handle := positive.

(** ** Fixed-width integers *)
Module Int.

Definition to_u32 (z : Z) : Z := z mod 2 ^ 32.

(** Conversion to a 32-bit [int]: the value is reduced modulo [2^32] into
    the signed range, as GCC and Clang do. *)
Definition to_int (z : Z) : Z := (z + 2 ^ 31) mod 2 ^ 32 - 2 ^ 31.

End Int.

(** ** Damage regions *)
Module Pixman.

Record pixman_box16 : Type := Box { x1 : Z; y1 : Z; x2 : Z; y2 : Z }.

(** Modelled from the spec: pixman's region type, which is not part of the
    repository.  "Damage Region: a set of axis-aligned rectangles in
    buffer-local coordinates; union is the only combination operator;
    duplicates and overlaps are harmless; clearing resets it to empty."  A
    region is the list of its rectangles; what it denotes is the set of
    points [region_contains] accepts. *)
Definition pixman_region16 : Type := list pixman_box16.

Definition box_contains (b : pixman_box16) (px py : Z) : bool :=
  (x1 b <=? px) && (px <? x2 b) && (y1 b <=? py) && (py <? y2 b).

Definition region_contains (r : pixman_region16) (px py : Z) : bool :=
  existsb (fun b => box_contains b px py) r.

Definition pixman_region_union (a b : pixman_region16) : pixman_region16 := a ++ b.

Definition rect_box (x y width height : Z) : pixman_box16 :=
  Box x y (x + width) (y + height).

Definition pixman_region_union_rect (r : pixman_region16) (x y width height : Z)
  : pixman_region16 :=
  pixman_region_union r [rect_box x y width height].

Definition pixman_region_clear : pixman_region16 := [].

Definition pixman_region_not_empty (r : pixman_region16) : bool :=
  match r with
  | [] => false
  | _ :: _ => true
  end.

Definition pixman_region_rectangles (r : pixman_region16) : list pixman_box16 := r.

End Pixman.

Import Pixman.

(** ** The world around a capture session *)
Module Wayland.

Inductive screencopy_status : Type := SCREENCOPY_DONE | SCREENCOPY_FAILED.

(** What a session does to the outside, in the order it does it: the requests
    it sends on its surface proxy and the calls of the completion callback. *)
Inductive request : Type :=
| Surface_destroy (surface : handle)
| Capture_output (manager output new_surface : handle)
| Surface_add_listener (surface : handle)
| Attach_buffer (surface wl_buffer : handle)
| Damage_buffer (surface : handle) (x y width height : Z)
| Damage_cursor_buffer (surface : handle) (name : string)
| Attach_cursor_buffer (surface wl_buffer : handle) (name : string)
| Commit (surface : handle) (flags : Z)
| On_done (callback : handle) (status : screencopy_status)
    (buffer : option handle) (userdata : handle).

End Wayland.

Import Wayland.

Module Buffer.

Inductive wv_buffer_type : Type := WV_BUFFER_UNSPEC | WV_BUFFER_SHM | WV_BUFFER_DMABUF.

Inductive wv_buffer_domain : Type :=
| WV_BUFFER_DOMAIN_UNSPEC
| WV_BUFFER_DOMAIN_OUTPUT
| WV_BUFFER_DOMAIN_CURSOR.

Definition domain_eqb (a b : wv_buffer_domain) : bool :=
  match a, b with
  | WV_BUFFER_DOMAIN_UNSPEC, WV_BUFFER_DOMAIN_UNSPEC
  | WV_BUFFER_DOMAIN_OUTPUT, WV_BUFFER_DOMAIN_OUTPUT
  | WV_BUFFER_DOMAIN_CURSOR, WV_BUFFER_DOMAIN_CURSOR => true
  | _, _ => false
  end.

Definition type_eqb (a b : wv_buffer_type) : bool :=
  match a, b with
  | WV_BUFFER_UNSPEC, WV_BUFFER_UNSPEC
  | WV_BUFFER_SHM, WV_BUFFER_SHM
  | WV_BUFFER_DMABUF, WV_BUFFER_DMABUF => true
  | _, _ => false
  end.

(** Modelled from the spec: [struct wv_buffer] of buffer.h, which is not under
    src/.  The fields are those ext-screencopy.c reads and writes
    ([wl_buffer], [nvnc_fb], [domain], [frame_damage], [buffer_damage]) and
    the negotiated geometry of section 3, "memory-kind, pixel-format, width,
    height, stride".  [frame_damage] is "the damage region accumulated for
    that cycle", [buffer_damage] the buffer's "own pending-damage region,
    representing staleness relative to the last composited output". *)
Record wv_buffer : Type := {
  type : wv_buffer_type;
  width : Z;
  height : Z;
  stride : Z;
  format : Z;
  wl_buffer : handle;
  nvnc_fb_transform : Z;
  domain : wv_buffer_domain;
  frame_damage : pixman_region16;
  buffer_damage : pixman_region16
}.

Definition set_domain (d : wv_buffer_domain) (b : wv_buffer) : wv_buffer :=
  {| type := type b; width := width b; height := height b; stride := stride b;
     format := format b; wl_buffer := wl_buffer b;
     nvnc_fb_transform := nvnc_fb_transform b; domain := d;
     frame_damage := frame_damage b; buffer_damage := buffer_damage b |}.

Definition set_transform (t : Z) (b : wv_buffer) : wv_buffer :=
  {| type := type b; width := width b; height := height b; stride := stride b;
     format := format b; wl_buffer := wl_buffer b;
     nvnc_fb_transform := t; domain := domain b;
     frame_damage := frame_damage b; buffer_damage := buffer_damage b |}.

Definition set_frame_damage (r : pixman_region16) (b : wv_buffer) : wv_buffer :=
  {| type := type b; width := width b; height := height b; stride := stride b;
     format := format b; wl_buffer := wl_buffer b;
     nvnc_fb_transform := nvnc_fb_transform b; domain := domain b;
     frame_damage := r; buffer_damage := buffer_damage b |}.

Definition set_buffer_damage (r : pixman_region16) (b : wv_buffer) : wv_buffer :=
  {| type := type b; width := width b; height := height b; stride := stride b;
     format := format b; wl_buffer := wl_buffer b;
     nvnc_fb_transform := nvnc_fb_transform b; domain := domain b;
     frame_damage := frame_damage b; buffer_damage := r |}.

(** Modelled from the spec: [struct wv_buffer_pool] of buffer.h: the queue of
    buffers waiting for reuse and the "allocation template" that [resize]
    reconfigures. *)
Record wv_buffer_pool : Type := {
  queue : list handle;
  pool_type : wv_buffer_type;
  pool_width : Z;
  pool_height : Z;
  pool_stride : Z;
  pool_format : Z
}.

Definition set_queue (q : list handle) (p : wv_buffer_pool) : wv_buffer_pool :=
  {| queue := q; pool_type := pool_type p; pool_width := pool_width p;
     pool_height := pool_height p; pool_stride := pool_stride p;
     pool_format := pool_format p |}.

(** The process state a session works in. *)
Record world : Type := {
  next_handle : handle;               (* supply of fresh object identities *)
  alloc_plan : list bool;             (* outcome of the coming fallible
                                         allocations; all succeed once it is
                                         used up *)
  registry : gmap handle wv_buffer;   (* every live buffer *)
  pools : gmap handle wv_buffer_pool; (* every live pool *)
  proxies : gset handle;              (* live screencopy surfaces *)
  requests : list request             (* sent so far, oldest first *)
}.

Definition set_registry (f : gmap handle wv_buffer -> gmap handle wv_buffer)
    (w : world) : world :=
  {| next_handle := next_handle w; alloc_plan := alloc_plan w;
     registry := f (registry w); pools := pools w; proxies := proxies w;
     requests := requests w |}.

Definition set_pools (f : gmap handle wv_buffer_pool -> gmap handle wv_buffer_pool)
    (w : world) : world :=
  {| next_handle := next_handle w; alloc_plan := alloc_plan w;
     registry := registry w; pools := f (pools w); proxies := proxies w;
     requests := requests w |}.

Definition set_proxies (f : gset handle -> gset handle) (w : world) : world :=
  {| next_handle := next_handle w; alloc_plan := alloc_plan w;
     registry := registry w; pools := pools w; proxies := f (proxies w);
     requests := requests w |}.

Definition emit (r : request) : M world unit :=
  modify (fun w =>
    {| next_handle := next_handle w; alloc_plan := alloc_plan w;
       registry := registry w; pools := pools w; proxies := proxies w;
       requests := requests w ++ [r] |}).

Definition fresh : M world handle :=
  fun w => (Ok (next_handle w),
            {| next_handle := Pos.succ (next_handle w); alloc_plan := alloc_plan w;
               registry := registry w; pools := pools w; proxies := proxies w;
               requests := requests w |}).

(** One fallible allocation ([calloc], creating a pool, creating a proxy). *)
Definition alloc_succeeds : M world bool :=
  fun w => match alloc_plan w with
           | [] => (Ok true, w)
           | ok :: rest =>
               (Ok ok,
                {| next_handle := next_handle w; alloc_plan := rest;
                   registry := registry w; pools := pools w; proxies := proxies w;
                   requests := requests w |})
           end.

(** [*b] for a buffer pointer: a pointer to no live buffer ends the process. *)
Definition load_buffer (b : handle) : M world wv_buffer :=
  fun w => match registry w !! b with
           | Some buf => (Ok buf, w)
           | None => (Abort, w)
           end.

Definition update_buffer (b : handle) (f : wv_buffer -> wv_buffer) : M world unit :=
  buf <- load_buffer b ;;
  modify (set_registry (fun m => <[b := f buf]> m)).

Definition load_pool (p : handle) : M world wv_buffer_pool :=
  fun w => match pools w !! p with
           | Some pl => (Ok pl, w)
           | None => (Abort, w)
           end.

Definition matches (pl : wv_buffer_pool) (b : wv_buffer) : bool :=
  type_eqb (type b) (pool_type pl) && (width b =? pool_width pl)
  && (height b =? pool_height pl) && (stride b =? pool_stride pl)
  && (format b =? pool_format pl).

Definition new_buffer (pl : wv_buffer_pool) (wl : handle) : wv_buffer :=
  {| type := pool_type pl; width := pool_width pl; height := pool_height pl;
     stride := pool_stride pl; format := pool_format pl; wl_buffer := wl;
     nvnc_fb_transform := 0; domain := WV_BUFFER_DOMAIN_UNSPEC;
     frame_damage := pixman_region_clear; buffer_damage := pixman_region_clear |}.

(** Modelled from the spec: [wv_buffer_pool_create] of buffer.c.  Creating a
    pool is an allocation and can fail (section 7, "Allocation failure
    (session/pool/context)"); the new pool has an empty queue and the given
    template. *)
Definition wv_buffer_pool_create (t : wv_buffer_type) (w h s f : Z)
  : M world (option handle) :=
  ok <- alloc_succeeds ;;
  if ok : bool then
    p <- fresh ;;
    modify (set_pools (fun m =>
      <[p := {| queue := []; pool_type := t; pool_width := w; pool_height := h;
                pool_stride := s; pool_format := f |}]> m)) ;;;
    ret (Some p)
  else ret None.

(** Modelled from the spec: [wv_buffer_pool_destroy] of buffer.c, the
    counterpart of create: the pool and the buffers waiting in it cease to
    exist.  It reads its argument, so a [NULL] pool ends the process. *)
Definition wv_buffer_pool_destroy (p : option handle) : M world unit :=
  ph <- deref p ;;
  pl <- load_pool ph ;;
  modify (set_registry (fun m => foldr delete m (queue pl))) ;;;
  modify (set_pools (delete ph)).

(** Modelled from the spec: [wv_buffer_pool_resize] of buffer.c.
    "resize(pool, memory-kind, width, height, stride, format): reconfigures
    the pool's allocation template; buffers of stale geometry are invalidated
    lazily", that is when [acquire] meets them. *)
Definition wv_buffer_pool_resize (p : option handle) (t : wv_buffer_type)
    (w h s f : Z) : M world unit :=
  ph <- deref p ;;
  pl <- load_pool ph ;;
  modify (set_pools (fun m =>
    <[ph := {| queue := queue pl; pool_type := t; pool_width := w;
               pool_height := h; pool_stride := s; pool_format := f |}]> m)).

(** The first buffer of the queue that fits the template.  The stale ones met
    on the way are destroyed; an entry that names no live buffer is dropped. *)
Fixpoint take_reusable (pl : wv_buffer_pool) (q : list handle)
  : M world (option handle * list handle) :=
  match q with
  | [] => ret (None, [])
  | b :: rest =>
      entry <- gets (fun w => registry w !! b) ;;
      match entry with
      | Some buf =>
          if matches pl buf then ret (Some b, rest)
          else modify (set_registry (delete b)) ;;; take_reusable pl rest
      | None => take_reusable pl rest
      end
  end.

(** Modelled from the spec: [wv_buffer_pool_acquire] of buffer.c.
    "acquire(pool): non-blocking from the caller's perspective; returns a
    reusable or freshly allocated buffer." *)
Definition wv_buffer_pool_acquire (p : option handle) : M world handle :=
  ph <- deref p ;;
  pl <- load_pool ph ;;
  taken <- take_reusable pl (queue pl) ;;
  modify (set_pools (fun m => <[ph := set_queue (snd taken) pl]> m)) ;;;
  match fst taken with
  | Some b => ret b
  | None =>
      b <- fresh ;;
      wl <- fresh ;;
      modify (set_registry (fun m => <[b := new_buffer pl wl]> m)) ;;;
      ret b
  end.

(** Modelled from the spec: [wv_buffer_pool_release] of buffer.c.
    "release(pool, buffer): returns a buffer for reuse". *)
Definition wv_buffer_pool_release (p b : option handle) : M world unit :=
  ph <- deref p ;;
  bh <- deref b ;;
  pl <- load_pool ph ;;
  modify (set_pools (fun m => <[ph := set_queue (queue pl ++ [bh]) pl]> m)).

(** Modelled from the spec: [wv_buffer_damage_rect] of buffer.c.  "Damage
    signal (between commit and ready): union the reported rectangle into the
    in-flight buffer's" damage; the rectangle goes to the damage "accumulated
    for that cycle", [frame_damage], the region the ready handler then hands
    to the registry. *)
Definition wv_buffer_damage_rect (b : option handle) (x y width height : Z)
  : M world unit :=
  bh <- deref b ;;
  update_buffer bh (fun buf =>
    set_frame_damage (pixman_region_union_rect (frame_damage buf) x y width height) buf).

(** Modelled from the spec: [wv_buffer_damage_whole] of buffer.c: the whole
    surface of the buffer joins its frame damage. *)
Definition wv_buffer_damage_whole (b : option handle) : M world unit :=
  bh <- deref b ;;
  update_buffer bh (fun buf =>
    set_frame_damage
      (pixman_region_union_rect (frame_damage buf) 0 0 (width buf) (height buf)) buf).

(** Modelled from the spec: [wv_buffer_registry_damage_all] of buffer.c.
    "merge the ... accumulated damage into a cross-buffer damage registry for
    the OUTPUT domain (so other pooled buffers know this region changed since
    last use)": every live buffer of the domain adds the region to its own
    pending damage. *)
Definition wv_buffer_registry_damage_all (region : pixman_region16)
    (d : wv_buffer_domain) : M world unit :=
  modify (set_registry (fun m =>
    (fun buf => if domain_eqb (domain buf) d
                then set_buffer_damage (pixman_region_union (buffer_damage buf) region) buf
                else buf) <$> m)).

End Buffer.

Import Buffer.

(** ** ext-screencopy.c *)
Module ExtScreencopy.

(** What the source takes from files that are not under src/: whether
    config.h defines [ENABLE_SCREENCOPY_DMABUF], and the values the generated
    protocol header gives the [ZEXT_SCREENCOPY_SURFACE_V1_OPTIONS_] bits. *)
Record build : Type := {
  ENABLE_SCREENCOPY_DMABUF : bool;
  OPTIONS_NONE : Z;
  OPTIONS_IMMEDIATE : Z;
  OPTIONS_RENDER_CURSORS : Z
}.

(** [enum zext_screencopy_surface_v1_buffer_type] *)
Inductive buffer_type : Type := BUFFER_TYPE_WL_SHM | BUFFER_TYPE_DMABUF.

(** [enum zext_screencopy_surface_v1_failure_reason]: the source names one
    enumerator; every other value of the enumeration is [FAILURE_REASON_OTHER]
    with its number. *)
Inductive failure_reason : Type :=
| FAILURE_REASON_INVALID_BUFFER
| FAILURE_REASON_OTHER (code : Z).

(** The anonymous struct behind the fields [output] and [cursor]. *)
Record domain_info : Type := {
  wl_shm_width : Z;
  wl_shm_height : Z;
  wl_shm_stride : Z;
  wl_shm_format : Z;
  have_linux_dmabuf : bool;
  dmabuf_width : Z;
  dmabuf_height : Z;
  dmabuf_format : Z
}.

Definition with_wl_shm_width (v : Z) (s : domain_info) : domain_info :=
  {| wl_shm_width := v; wl_shm_height := wl_shm_height s; wl_shm_stride :=
     wl_shm_stride s; wl_shm_format := wl_shm_format s; have_linux_dmabuf :=
     have_linux_dmabuf s; dmabuf_width := dmabuf_width s; dmabuf_height :=
     dmabuf_height s; dmabuf_format := dmabuf_format s |}.

Definition with_wl_shm_height (v : Z) (s : domain_info) : domain_info :=
  {| wl_shm_width := wl_shm_width s; wl_shm_height := v; wl_shm_stride :=
     wl_shm_stride s; wl_shm_format := wl_shm_format s; have_linux_dmabuf :=
     have_linux_dmabuf s; dmabuf_width := dmabuf_width s; dmabuf_height :=
     dmabuf_height s; dmabuf_format := dmabuf_format s |}.

Definition with_wl_shm_stride (v : Z) (s : domain_info) : domain_info :=
  {| wl_shm_width := wl_shm_width s; wl_shm_height := wl_shm_height s;
     wl_shm_stride := v; wl_shm_format := wl_shm_format s; have_linux_dmabuf
     := have_linux_dmabuf s; dmabuf_width := dmabuf_width s; dmabuf_height
     := dmabuf_height s; dmabuf_format := dmabuf_format s |}.

Definition with_wl_shm_format (v : Z) (s : domain_info) : domain_info :=
  {| wl_shm_width := wl_shm_width s; wl_shm_height := wl_shm_height s;
     wl_shm_stride := wl_shm_stride s; wl_shm_format := v; have_linux_dmabuf
     := have_linux_dmabuf s; dmabuf_width := dmabuf_width s; dmabuf_height
     := dmabuf_height s; dmabuf_format := dmabuf_format s |}.

Definition with_have_linux_dmabuf (v : bool) (s : domain_info) : domain_info :=
  {| wl_shm_width := wl_shm_width s; wl_shm_height := wl_shm_height s;
     wl_shm_stride := wl_shm_stride s; wl_shm_format := wl_shm_format s;
     have_linux_dmabuf := v; dmabuf_width := dmabuf_width s; dmabuf_height
     := dmabuf_height s; dmabuf_format := dmabuf_format s |}.

Definition with_dmabuf_width (v : Z) (s : domain_info) : domain_info :=
  {| wl_shm_width := wl_shm_width s; wl_shm_height := wl_shm_height s;
     wl_shm_stride := wl_shm_stride s; wl_shm_format := wl_shm_format s;
     have_linux_dmabuf := have_linux_dmabuf s; dmabuf_width := v;
     dmabuf_height := dmabuf_height s; dmabuf_format := dmabuf_format s |}.

Definition with_dmabuf_height (v : Z) (s : domain_info) : domain_info :=
  {| wl_shm_width := wl_shm_width s; wl_shm_height := wl_shm_height s;
     wl_shm_stride := wl_shm_stride s; wl_shm_format := wl_shm_format s;
     have_linux_dmabuf := have_linux_dmabuf s; dmabuf_width := dmabuf_width
     s; dmabuf_height := v; dmabuf_format := dmabuf_format s |}.

Definition with_dmabuf_format (v : Z) (s : domain_info) : domain_info :=
  {| wl_shm_width := wl_shm_width s; wl_shm_height := wl_shm_height s;
     wl_shm_stride := wl_shm_stride s; wl_shm_format := wl_shm_format s;
     have_linux_dmabuf := have_linux_dmabuf s; dmabuf_width := dmabuf_width
     s; dmabuf_height := dmabuf_height s; dmabuf_format := v |}.

(** [struct ext_screencopy]; [rate_limit] is [parent.rate_limit]. *)
Record ext_screencopy : Type := {
  rate_limit : Z;
  manager : handle;
  wl_output : handle;
  surface : option handle;
  render_cursors : bool;
  pool : option handle;
  buffer : option handle;
  cursor_pool : option handle;
  cursor_buffer : option handle;
  have_buffer_info : bool;
  should_start : bool;
  shall_be_immediate : bool;
  have_cursor : bool;
  output : domain_info;
  cursor : domain_info;
  userdata : handle;
  on_done : handle
}.

Definition set_surface (v : option handle) (s : ext_screencopy) : ext_screencopy :=
  {| rate_limit := rate_limit s; manager := manager s; wl_output :=
     wl_output s; surface := v; render_cursors := render_cursors s; pool :=
     pool s; buffer := buffer s; cursor_pool := cursor_pool s; cursor_buffer
     := cursor_buffer s; have_buffer_info := have_buffer_info s;
     should_start := should_start s; shall_be_immediate :=
     shall_be_immediate s; have_cursor := have_cursor s; output := output s;
     cursor := cursor s; userdata := userdata s; on_done := on_done s |}.

Definition set_pool (v : option handle) (s : ext_screencopy) : ext_screencopy :=
  {| rate_limit := rate_limit s; manager := manager s; wl_output :=
     wl_output s; surface := surface s; render_cursors := render_cursors s;
     pool := v; buffer := buffer s; cursor_pool := cursor_pool s;
     cursor_buffer := cursor_buffer s; have_buffer_info := have_buffer_info
     s; should_start := should_start s; shall_be_immediate :=
     shall_be_immediate s; have_cursor := have_cursor s; output := output s;
     cursor := cursor s; userdata := userdata s; on_done := on_done s |}.

Definition set_buffer (v : option handle) (s : ext_screencopy) : ext_screencopy :=
  {| rate_limit := rate_limit s; manager := manager s; wl_output :=
     wl_output s; surface := surface s; render_cursors := render_cursors s;
     pool := pool s; buffer := v; cursor_pool := cursor_pool s;
     cursor_buffer := cursor_buffer s; have_buffer_info := have_buffer_info
     s; should_start := should_start s; shall_be_immediate :=
     shall_be_immediate s; have_cursor := have_cursor s; output := output s;
     cursor := cursor s; userdata := userdata s; on_done := on_done s |}.

Definition set_cursor_pool (v : option handle) (s : ext_screencopy) : ext_screencopy :=
  {| rate_limit := rate_limit s; manager := manager s; wl_output :=
     wl_output s; surface := surface s; render_cursors := render_cursors s;
     pool := pool s; buffer := buffer s; cursor_pool := v; cursor_buffer :=
     cursor_buffer s; have_buffer_info := have_buffer_info s; should_start
     := should_start s; shall_be_immediate := shall_be_immediate s;
     have_cursor := have_cursor s; output := output s; cursor := cursor s;
     userdata := userdata s; on_done := on_done s |}.

Definition set_cursor_buffer (v : option handle) (s : ext_screencopy) : ext_screencopy :=
  {| rate_limit := rate_limit s; manager := manager s; wl_output :=
     wl_output s; surface := surface s; render_cursors := render_cursors s;
     pool := pool s; buffer := buffer s; cursor_pool := cursor_pool s;
     cursor_buffer := v; have_buffer_info := have_buffer_info s;
     should_start := should_start s; shall_be_immediate :=
     shall_be_immediate s; have_cursor := have_cursor s; output := output s;
     cursor := cursor s; userdata := userdata s; on_done := on_done s |}.

Definition set_have_buffer_info (v : bool) (s : ext_screencopy) : ext_screencopy :=
  {| rate_limit := rate_limit s; manager := manager s; wl_output :=
     wl_output s; surface := surface s; render_cursors := render_cursors s;
     pool := pool s; buffer := buffer s; cursor_pool := cursor_pool s;
     cursor_buffer := cursor_buffer s; have_buffer_info := v; should_start
     := should_start s; shall_be_immediate := shall_be_immediate s;
     have_cursor := have_cursor s; output := output s; cursor := cursor s;
     userdata := userdata s; on_done := on_done s |}.

Definition set_should_start (v : bool) (s : ext_screencopy) : ext_screencopy :=
  {| rate_limit := rate_limit s; manager := manager s; wl_output :=
     wl_output s; surface := surface s; render_cursors := render_cursors s;
     pool := pool s; buffer := buffer s; cursor_pool := cursor_pool s;
     cursor_buffer := cursor_buffer s; have_buffer_info := have_buffer_info
     s; should_start := v; shall_be_immediate := shall_be_immediate s;
     have_cursor := have_cursor s; output := output s; cursor := cursor s;
     userdata := userdata s; on_done := on_done s |}.

Definition set_shall_be_immediate (v : bool) (s : ext_screencopy) : ext_screencopy :=
  {| rate_limit := rate_limit s; manager := manager s; wl_output :=
     wl_output s; surface := surface s; render_cursors := render_cursors s;
     pool := pool s; buffer := buffer s; cursor_pool := cursor_pool s;
     cursor_buffer := cursor_buffer s; have_buffer_info := have_buffer_info
     s; should_start := should_start s; shall_be_immediate := v; have_cursor
     := have_cursor s; output := output s; cursor := cursor s; userdata :=
     userdata s; on_done := on_done s |}.

Definition set_have_cursor (v : bool) (s : ext_screencopy) : ext_screencopy :=
  {| rate_limit := rate_limit s; manager := manager s; wl_output :=
     wl_output s; surface := surface s; render_cursors := render_cursors s;
     pool := pool s; buffer := buffer s; cursor_pool := cursor_pool s;
     cursor_buffer := cursor_buffer s; have_buffer_info := have_buffer_info
     s; should_start := should_start s; shall_be_immediate :=
     shall_be_immediate s; have_cursor := v; output := output s; cursor :=
     cursor s; userdata := userdata s; on_done := on_done s |}.

Definition set_output (v : domain_info) (s : ext_screencopy) : ext_screencopy :=
  {| rate_limit := rate_limit s; manager := manager s; wl_output :=
     wl_output s; surface := surface s; render_cursors := render_cursors s;
     pool := pool s; buffer := buffer s; cursor_pool := cursor_pool s;
     cursor_buffer := cursor_buffer s; have_buffer_info := have_buffer_info
     s; should_start := should_start s; shall_be_immediate :=
     shall_be_immediate s; have_cursor := have_cursor s; output := v; cursor
     := cursor s; userdata := userdata s; on_done := on_done s |}.

Definition set_cursor (v : domain_info) (s : ext_screencopy) : ext_screencopy :=
  {| rate_limit := rate_limit s; manager := manager s; wl_output :=
     wl_output s; surface := surface s; render_cursors := render_cursors s;
     pool := pool s; buffer := buffer s; cursor_pool := cursor_pool s;
     cursor_buffer := cursor_buffer s; have_buffer_info := have_buffer_info
     s; should_start := should_start s; shall_be_immediate :=
     shall_be_immediate s; have_cursor := have_cursor s; output := output s;
     cursor := v; userdata := userdata s; on_done := on_done s |}.

Section Handlers.

Variable cfg : build.

(** [ext_screencopy_init_surface]: the old proxy, if any, is destroyed; the
    manager is asked for a new one, which can fail. *)
Definition ext_screencopy_init_surface (self : ext_screencopy)
  : M world (ext_screencopy * Z) :=
  match surface self with
  | Some old => emit (Surface_destroy old) ;;; modify (set_proxies (fun live => live ∖ {[old]}))
  | None => ret tt
  end ;;;
  ok <- alloc_succeeds ;;
  if ok : bool then
    new <- fresh ;;
    modify (set_proxies (fun live => {[new]} ∪ live)) ;;;
    emit (Capture_output (manager self) (wl_output self) new) ;;;
    emit (Surface_add_listener new) ;;;
    ret (set_surface (Some new) self, 0)
  else ret (set_surface None self, -1).

(** The four arguments of one [damage_buffer] request, computed in
    [uint32_t] from a box of 16-bit coordinates. *)
Definition damage_hint (surf : handle) (box : pixman_box16) : request :=
  let x := Int.to_u32 (x1 box) in
  let y := Int.to_u32 (y1 box) in
  let width := Int.to_u32 (x2 box - x) in
  let height := Int.to_u32 (y2 box - y) in
  Damage_buffer surf x y width height.

Definition commit_flags (immediate render : bool) : Z :=
  let flags := OPTIONS_NONE cfg in
  let flags := if immediate then Z.lor flags (OPTIONS_IMMEDIATE cfg) else flags in
  if render then Z.lor flags (OPTIONS_RENDER_CURSORS cfg) else flags.

(** [ext_screencopy_schedule_capture] *)
Definition ext_screencopy_schedule_capture (self : ext_screencopy) (immediate : bool)
  : M world ext_screencopy :=
  b <- wv_buffer_pool_acquire (pool self) ;;
  let self := set_buffer (Some b) self in
  update_buffer b (set_domain WV_BUFFER_DOMAIN_OUTPUT) ;;;
  surf <- deref (surface self) ;;
  buf <- load_buffer b ;;
  emit (Attach_buffer surf (wl_buffer buf)) ;;;
  for_each (fun box => emit (damage_hint surf box))
    (pixman_region_rectangles (buffer_damage buf)) ;;;
  let flags := commit_flags immediate (render_cursors self) in
  self <- (if have_cursor self then
             c <- wv_buffer_pool_acquire (cursor_pool self) ;;
             let self := set_cursor_buffer (Some c) self in
             update_buffer c (set_domain WV_BUFFER_DOMAIN_CURSOR) ;;;
             cbuf <- load_buffer c ;;
             (if pixman_region_not_empty (buffer_damage cbuf)
              then emit (Damage_cursor_buffer surf "default")
              else ret tt) ;;;
             emit (Attach_cursor_buffer surf (wl_buffer cbuf) "default") ;;;
             ret self
           else ret self) ;;
  emit (Commit surf flags) ;;;
  ret self.

Definition surface_handle_reconfig (self : ext_screencopy) : ext_screencopy :=
  let self := set_have_buffer_info false self in
  set_output (with_have_linux_dmabuf false (output self)) self.

Definition store_buffer_info (ty : buffer_type) (fmt w h st : Z) (d : domain_info)
  : domain_info :=
  match ty with
  | BUFFER_TYPE_WL_SHM =>
      with_wl_shm_stride st (with_wl_shm_height h (with_wl_shm_width w
        (with_wl_shm_format fmt d)))
  | BUFFER_TYPE_DMABUF =>
      if ENABLE_SCREENCOPY_DMABUF cfg
      then with_dmabuf_height h (with_dmabuf_width w (with_dmabuf_format fmt d))
      else d
  end.

Definition surface_handle_buffer_info (self : ext_screencopy) (ty : buffer_type)
    (fmt w h st : Z) : ext_screencopy :=
  set_output (store_buffer_info ty fmt w h st (output self)) self.

Definition surface_handle_cursor_buffer_info (self : ext_screencopy) (name : string)
    (ty : buffer_type) (fmt w h st : Z) : ext_screencopy :=
  set_cursor (store_buffer_info ty fmt w h st (cursor self)) self.

(** The geometry [surface_handle_init_done] resizes a pool to. *)
Definition resize_to (p : option handle) (d : domain_info) : M world unit :=
  if ENABLE_SCREENCOPY_DMABUF cfg && have_linux_dmabuf d
  then wv_buffer_pool_resize p WV_BUFFER_DMABUF (dmabuf_width d) (dmabuf_height d)
         0 (dmabuf_format d)
  else wv_buffer_pool_resize p WV_BUFFER_SHM (wl_shm_width d) (wl_shm_height d)
         (wl_shm_stride d) (wl_shm_format d).

Definition surface_handle_init_done (self : ext_screencopy) : M world ext_screencopy :=
  resize_to (pool self) (output self) ;;;
  resize_to (cursor_pool self) (cursor self) ;;;
  self <- (if should_start self then
             self <- ext_screencopy_schedule_capture self (shall_be_immediate self) ;;
             ret (set_shall_be_immediate false (set_should_start false self))
           else ret self) ;;
  ret (set_have_buffer_info true self).

Definition surface_handle_transform (self : ext_screencopy) (transform : Z)
  : M world ext_screencopy :=
  b <- deref (buffer self) ;;            (* assert(self->buffer) *)
  update_buffer b (set_transform transform) ;;;
  ret self.

Definition surface_handle_ready (self : ext_screencopy) : M world ext_screencopy :=
  b <- deref (buffer self) ;;            (* assert(self->buffer) *)
  buf <- load_buffer b ;;
  wv_buffer_registry_damage_all (frame_damage buf) WV_BUFFER_DOMAIN_OUTPUT ;;;
  update_buffer b (set_buffer_damage pixman_region_clear) ;;;
  let self := set_buffer None self in
  emit (On_done (on_done self) SCREENCOPY_DONE (Some b) (userdata self)) ;;;
  ret self.

Definition surface_handle_failed (self : ext_screencopy) (reason : failure_reason)
  : M world ext_screencopy :=
  b <- deref (buffer self) ;;            (* assert(self->buffer) *)
  wv_buffer_pool_release (pool self) (Some b) ;;;
  let self := set_buffer None self in
  self <- match reason with
          | FAILURE_REASON_INVALID_BUFFER =>
              r <- ext_screencopy_init_surface self ;; ret (fst r)
          | FAILURE_REASON_OTHER _ => ret self
          end ;;
  emit (On_done (on_done self) SCREENCOPY_FAILED None (userdata self)) ;;;
  ret self.

Definition surface_handle_damage (self : ext_screencopy) (x y w h : Z)
  : M world ext_screencopy :=
  wv_buffer_damage_rect (buffer self) x y w h ;;;
  ret self.

Definition surface_handle_cursor_info (self : ext_screencopy) (name : string)
    (has_damage pos_x pos_y hotspot_x hotspot_y : Z) : M world ext_screencopy :=
  (if has_damage =? 0 then ret tt else wv_buffer_damage_whole (cursor_buffer self)) ;;;
  c <- deref (cursor_buffer self) ;;
  cbuf <- load_buffer c ;;
  wv_buffer_registry_damage_all (frame_damage cbuf) WV_BUFFER_DOMAIN_CURSOR ;;;
  update_buffer c (set_buffer_damage pixman_region_clear) ;;;
  wv_buffer_pool_release (cursor_pool self) (cursor_buffer self) ;;;
  ret self.

Definition surface_handle_cursor_enter (self : ext_screencopy) (name : string)
  : ext_screencopy :=
  set_have_cursor true self.

Definition surface_handle_cursor_leave (self : ext_screencopy) (name : string)
  : ext_screencopy :=
  set_have_cursor false self.

Definition surface_handle_commit_time (self : ext_screencopy) (sec_hi sec_lo nsec : Z)
  : ext_screencopy :=
  self.

(** [ext_screencopy_start]; the [int] it returns is always 0. *)
Definition ext_screencopy_start (self : ext_screencopy) (immediate : bool)
  : M world (ext_screencopy * Z) :=
  if negb (have_buffer_info self) then
    ret (set_shall_be_immediate immediate (set_should_start true self), 0)
  else
    self <- ext_screencopy_schedule_capture self immediate ;;
    ret (self, 0).

Definition ext_screencopy_stop (self : ext_screencopy) : ext_screencopy := self.

Definition zero_info : domain_info :=
  {| wl_shm_width := 0; wl_shm_height := 0; wl_shm_stride := 0; wl_shm_format := 0;
     have_linux_dmabuf := false; dmabuf_width := 0; dmabuf_height := 0;
     dmabuf_format := 0 |}.

(** The session as [ext_screencopy_create] has it after [calloc] and its
    six assignments; [render_cursor] is not among them. *)
Definition fresh_session (mgr out done_fn data : handle) : ext_screencopy :=
  {| rate_limit := 30; manager := mgr; wl_output := out; surface := None;
     render_cursors := false; pool := None; buffer := None; cursor_pool := None;
     cursor_buffer := None; have_buffer_info := false; should_start := false;
     shall_be_immediate := false; have_cursor := false; output := zero_info;
     cursor := zero_info; userdata := data; on_done := done_fn |}.

(** [ext_screencopy_create]; [None] is the [NULL] it returns on failure.  The
    labels [surface_failure], [cursor_failure] and [failure] fall through in
    that order. *)
Definition ext_screencopy_create (mgr out : handle) (render_cursor : bool)
    (done_fn data : handle) : M world (option ext_screencopy) :=
  ok <- alloc_succeeds ;;                (* calloc *)
  if negb ok then ret None else
  let self := fresh_session mgr out done_fn data in
  p <- wv_buffer_pool_create WV_BUFFER_UNSPEC 0 0 0 0 ;;
  let self := set_pool p self in
  match pool self with
  | None => ret None                                        (* failure *)
  | Some _ =>
      c <- wv_buffer_pool_create WV_BUFFER_UNSPEC 0 0 0 0 ;;
      let self := set_cursor_pool c self in
      match pool self with                                  (* if (!self->pool) *)
      | None => wv_buffer_pool_destroy (pool self) ;;; ret None   (* cursor_failure *)
      | Some _ =>
          r <- ext_screencopy_init_surface self ;;
          if snd r <? 0 then                                (* surface_failure *)
            wv_buffer_pool_destroy (cursor_pool (fst r)) ;;;
            wv_buffer_pool_destroy (pool (fst r)) ;;;
            ret None
          else ret (Some (fst r))
      end
  end.

(** [ext_screencopy_destroy]; after [free(self)] nothing of the session is left. *)
Definition ext_screencopy_destroy (self : ext_screencopy) : M world unit :=
  match surface self with
  | Some surf => emit (Surface_destroy surf) ;;; modify (set_proxies (fun live => live ∖ {[surf]}))
  | None => ret tt
  end ;;;
  match buffer self with
  | Some b => wv_buffer_pool_release (pool self) (Some b)
  | None => ret tt
  end.

(** ** The session driven by its caller and by the compositor *)
Inductive action : Type :=
| Start (immediate : bool)
| Stop
| Reconfig
| Buffer_info (ty : buffer_type) (fmt w h st : Z)
| Cursor_buffer_info (name : string) (ty : buffer_type) (fmt w h st : Z)
| Cursor_enter (name : string)
| Cursor_leave (name : string)
| Init_done
| Damage (x y w h : Z)
| Cursor_info (name : string) (has_damage pos_x pos_y hotspot_x hotspot_y : Z)
| Commit_time (sec_hi sec_lo nsec : Z)
| Transform (transform : Z)
| Ready
| Failed (reason : failure_reason).

(** [surface_listener] and [ext_screencopy_impl]: which function an event or
    a call reaches. *)
Definition step (self : ext_screencopy) (a : action) : M world ext_screencopy :=
  match a with
  | Start immediate => r <- ext_screencopy_start self immediate ;; ret (fst r)
  | Stop => ret (ext_screencopy_stop self)
  | Reconfig => ret (surface_handle_reconfig self)
  | Buffer_info ty fmt w h st => ret (surface_handle_buffer_info self ty fmt w h st)
  | Cursor_buffer_info name ty fmt w h st =>
      ret (surface_handle_cursor_buffer_info self name ty fmt w h st)
  | Cursor_enter name => ret (surface_handle_cursor_enter self name)
  | Cursor_leave name => ret (surface_handle_cursor_leave self name)
  | Init_done => surface_handle_init_done self
  | Damage x y w h => surface_handle_damage self x y w h
  | Cursor_info name d px py hx hy => surface_handle_cursor_info self name d px py hx hy
  | Commit_time hi lo ns => ret (surface_handle_commit_time self hi lo ns)
  | Transform t => surface_handle_transform self t
  | Ready => surface_handle_ready self
  | Failed reason => surface_handle_failed self reason
  end.

Fixpoint run (self : ext_screencopy) (acts : list action) : M world ext_screencopy :=
  match acts with
  | [] => ret self
  | a :: rest => self <- step self a ;; run self rest
  end.

End Handlers.

End ExtScreencopy.

Import ExtScreencopy.

(** ** data-control.c: the clipboard source *)
Module DataControl.

(** What the clipboard code does to the outside: log lines (without their
    final newline), system calls on descriptors, and requests on the
    data-control proxies. *)
Inductive event : Type :=
| Log_error (msg : string)
| Sys_write (fd len result : Z)
| Sys_close (fd : Z)
| Create_data_source (manager new_source : handle)
| Source_add_listener (source : handle)
| Source_offer (source : handle) (mime : string)
| Device_set_selection (device source : handle)
| Device_set_primary_selection (device source : handle).

Record os : Type := {
  os_next_handle : handle;
  os_alloc_plan : list bool;   (* outcome of the coming allocations *)
  os_write_plan : list Z;      (* what the coming calls of write(2) answer;
                                  complete writes once it is used up *)
  events : list event          (* oldest first *)
}.

Definition log_error (msg : string) : M os unit :=
  modify (fun w =>
    {| os_next_handle := os_next_handle w; os_alloc_plan := os_alloc_plan w;
       os_write_plan := os_write_plan w;
       events := events w ++ [Log_error msg] |}).

Definition send (e : event) : M os unit :=
  modify (fun w =>
    {| os_next_handle := os_next_handle w; os_alloc_plan := os_alloc_plan w;
       os_write_plan := os_write_plan w; events := events w ++ [e] |}).

(** write(2): the kernel answers -1 or a count between 0 and [len]. *)
Definition sys_write (fd len : Z) : M os Z :=
  fun w =>
    let answer := match os_write_plan w with
                  | [] => len
                  | r :: _ => if r <? 0 then -1 else Z.min r len
                  end in
    (Ok answer,
     {| os_next_handle := os_next_handle w; os_alloc_plan := os_alloc_plan w;
        os_write_plan := tl (os_write_plan w);
        events := events w ++ [Sys_write fd len answer] |}).

Definition sys_close (fd : Z) : M os unit := send (Sys_close fd).

Definition os_alloc_succeeds : M os bool :=
  fun w => match os_alloc_plan w with
           | [] => (Ok true, w)
           | ok :: rest =>
               (Ok ok,
                {| os_next_handle := os_next_handle w; os_alloc_plan := rest;
                   os_write_plan := os_write_plan w; events := events w |})
           end.

Definition os_fresh : M os handle :=
  fun w => (Ok (os_next_handle w),
            {| os_next_handle := Pos.succ (os_next_handle w);
               os_alloc_plan := os_alloc_plan w; os_write_plan := os_write_plan w;
               events := events w |}).

(** [struct data_control] of data-control.h, which is not under src/: the
    fields data-control.c uses.  [cb_data] is the block [malloc] returned
    with its contents, [cb_len] a [size_t]. *)
Record data_control : Type := {
  wl_display : handle;
  server : handle;
  manager : option handle;
  device : handle;
  selection : option handle;
  primary_selection : option handle;
  cb_data : option (list Byte.byte);
  cb_len : Z;
  mime_type : string;
  offer : option handle
}.

Definition set_cb_data (v : option (list Byte.byte)) (s : data_control) : data_control :=
  {| wl_display := wl_display s; server := server s; manager := manager s;
     device := device s; selection := selection s;
     primary_selection := primary_selection s; cb_data := v; cb_len := cb_len s;
     mime_type := mime_type s; offer := offer s |}.

Definition set_cb_len (v : Z) (s : data_control) : data_control :=
  {| wl_display := wl_display s; server := server s; manager := manager s;
     device := device s; selection := selection s;
     primary_selection := primary_selection s; cb_data := cb_data s; cb_len := v;
     mime_type := mime_type s; offer := offer s |}.

Definition set_selection_field (v : option handle) (s : data_control) : data_control :=
  {| wl_display := wl_display s; server := server s; manager := manager s;
     device := device s; selection := v;
     primary_selection := primary_selection s; cb_data := cb_data s;
     cb_len := cb_len s; mime_type := mime_type s; offer := offer s |}.

Definition set_primary_selection_field (v : option handle) (s : data_control)
  : data_control :=
  {| wl_display := wl_display s; server := server s; manager := manager s;
     device := device s; selection := selection s; primary_selection := v;
     cb_data := cb_data s; cb_len := cb_len s; mime_type := mime_type s;
     offer := offer s |}.

(** [data_control_source_send] *)
Definition data_control_source_send (self : data_control) (source : handle)
    (mime : string) (fd : Z) : M os data_control :=
  let len := cb_len self in
  d <- deref (cb_data self) ;;           (* assert(d) *)
  written <- sys_write fd len ;;
  let ret := Int.to_int written in       (* int ret = write(...) *)
  (if ret <? Int.to_int len              (* ret < (int)len *)
   then log_error "write from clipboard incomplete"
   else Exec.ret tt) ;;;
  sys_close fd ;;;
  Exec.ret self.

(** [set_selection] *)
Definition set_selection (self : data_control) (primary : bool)
  : M os (data_control * option handle) :=
  match manager self with
  | None => ret (self, None)
  | Some mgr =>
      ok <- os_alloc_succeeds ;;
      if negb ok then
        log_error "zwlr_data_control_manager_v1_create_data_source() failed" ;;;
        ret (set_cb_data None self, None)
      else
        sel <- os_fresh ;;
        send (Create_data_source mgr sel) ;;;
        send (Source_add_listener sel) ;;;
        send (Source_offer sel (mime_type self)) ;;;
        (if primary
         then send (Device_set_primary_selection (device self) sel)
         else send (Device_set_selection (device self) sel)) ;;;
        ret (self, Some sel)
  end.

(** [data_control_to_clipboard]; [text] is what the pointer leads to. *)
Definition data_control_to_clipboard (self : data_control) (text : list Byte.byte)
    (len : Z) : M os data_control :=
  if len =? 0 then
    log_error "data_control_to_clipboard called with 0 length" ;;;
    ret self
  else
    ok <- os_alloc_succeeds ;;           (* free(cb_data); cb_data = malloc(len) *)
    if negb ok then
      log_error "OOM: %m" ;;;
      ret (set_cb_data None self)
    else
      let self := set_cb_data (Some (firstn (Z.to_nat len) text)) self in
      let self := set_cb_len len self in
      r <- set_selection self false ;;
      let self := set_selection_field (snd r) (fst r) in
      r <- set_selection self true ;;
      ret (set_primary_selection_field (snd r) (fst r)).

End DataControl.

(** ** Vocabulary of the statements *)
Module Observe.

(** The commit requests among the requests sent, in order. *)
Definition commits (rs : list request) : list (handle * Z) :=
  flat_map (fun r => match r with Commit s f => [(s, f)] | _ => [] end) rs.

(** The calls of the completion callback, in order. *)
Definition completions (rs : list request)
  : list (screencopy_status * option handle) :=
  flat_map (fun r => match r with On_done _ st b _ => [(st, b)] | _ => [] end) rs.

(** The cursor buffers attached, in order. *)
Definition cursor_attachments (rs : list request) : list handle :=
  flat_map (fun r => match r with Attach_cursor_buffer _ b _ => [b] | _ => [] end) rs.

Definition live_pool (w : world) (p : option handle) : bool :=
  match p with
  | Some ph => match pools w !! ph with Some _ => true | None => false end
  | None => false
  end.

(** A capture can be scheduled: there is a surface to commit on and the
    pools the capture draws from exist. *)
Definition capture_ready (w : world) (self : ext_screencopy) : bool :=
  match surface self with Some _ => true | None => false end
  && live_pool w (pool self)
  && implb (have_cursor self) (live_pool w (cursor_pool self)).

(** Negotiation can complete: the surface and both pools exist. *)
Definition session_ready (w : world) (self : ext_screencopy) : bool :=
  match surface self with Some _ => true | None => false end
  && live_pool w (pool self) && live_pool w (cursor_pool self).

(** What a capture sends for the cursor, given the cursor buffer it drew. *)
Definition cursor_requests (surf : handle) (cur : option wv_buffer) : list request :=
  match cur with
  | None => []
  | Some cbuf =>
      (if pixman_region_not_empty (buffer_damage cbuf)
       then [Damage_cursor_buffer surf "default"] else [])
      ++ [Attach_cursor_buffer surf (wl_buffer cbuf) "default"]
  end.

(** A flag is set in a flags word. *)
Definition flag_set (flag flags : Z) : Prop := Z.land flags flag = flag.

(** The generated header's option bits form a bit field: no bit for NONE,
    and two different bits for the two options. *)
Definition bitfield (cfg : build) : Prop :=
  OPTIONS_NONE cfg = 0 /\ 0 < OPTIONS_IMMEDIATE cfg /\ 0 < OPTIONS_RENDER_CURSORS cfg
  /\ Z.land (OPTIONS_IMMEDIATE cfg) (OPTIONS_RENDER_CURSORS cfg) = 0.

(** The presence signal that came last, or [before] when none came. *)
Fixpoint last_presence (before : bool) (acts : list action) : bool :=
  match acts with
  | [] => before
  | Cursor_enter _ :: rest => last_presence true rest
  | Cursor_leave _ :: rest => last_presence false rest
  | _ :: rest => last_presence before rest
  end.

Definition is_init_done (a : action) : bool :=
  match a with Init_done => true | _ => false end.

(** The state a deferred start leaves behind. *)
Definition pending (immediate : bool) (self : ext_screencopy) : ext_screencopy :=
  set_shall_be_immediate immediate (set_should_start true self).

(** What the registry does to one buffer when a region is merged in. *)
Definition merged (region : pixman_region16) (d : wv_buffer_domain) (buf : wv_buffer)
  : wv_buffer :=
  if domain_eqb (domain buf) d
  then set_buffer_damage (pixman_region_union (buffer_damage buf) region) buf
  else buf.

(** Two worlds that differ in their registry only. *)
Definition registry_only (w w1 : world) : Prop :=
  next_handle w1 = next_handle w /\ alloc_plan w1 = alloc_plan w
  /\ pools w1 = pools w /\ proxies w1 = proxies w /\ requests w1 = requests w.

(** The world after some more requests were sent. *)
Definition sent (rs : list request) (w : world) : world :=
  {| next_handle := next_handle w; alloc_plan := alloc_plan w;
     registry := registry w; pools := pools w; proxies := proxies w;
     requests := requests w ++ rs |}.

(** Everything one capture sends: the output buffer [buf] is attached, its
    pending damage is hinted, the cursor buffer follows if one was drawn,
    and one commit ends the sequence. *)
Definition capture_requests (surf : handle) (buf : wv_buffer)
    (cur : option wv_buffer) (flags : Z) : list request :=
  Attach_buffer surf (wl_buffer buf)
  :: map (damage_hint surf) (buffer_damage buf)
  ++ cursor_requests surf cur ++ [Commit surf flags].

(** Whether the next fallible allocation succeeds. *)
Definition next_alloc (w : world) : bool :=
  match alloc_plan w with
  | [] => true
  | ok :: _ => ok
  end.

(** What replacing the surface of [self] sends, and the surface it leaves. *)
Definition old_surface_requests (self : ext_screencopy) : list request :=
  match surface self with
  | Some old => [Surface_destroy old]
  | None => []
  end.


Definition new_surface (w : world) : option handle :=
  if next_alloc w then Some (next_handle w) else None.

(** A damage signal with the rectangle it reports, and the box the
    rectangle covers. *)
Definition damage_signal (r : Z * Z * Z * Z) : action :=
  match r with (x, y, wd, ht) => Damage x y wd ht end.

Definition reported_box (r : Z * Z * Z * Z) : pixman_box16 :=
  match r with (x, y, wd, ht) => rect_box x y wd ht end.

(** Every value the computation can return satisfies [Q]. *)
Definition returns {A : Type} (m : M world A) (Q : A -> Prop) : Prop :=
  forall w a w', m w = (Ok a, w') -> Q a.

(** The computation sends no commit, whether it returns or aborts. *)
Definition silent {A : Type} (m : M world A) : Prop :=
  forall w r w', m w = (r, w') -> commits (requests w') = commits (requests w).

End Observe.

Import Observe.

(** ** Concrete sessions and worlds *)
Module Examples.

(** A build without dmabuf support, with the option bits 1 and 2. *)
Definition cfg0 : build :=
  {| ENABLE_SCREENCOPY_DMABUF := false; OPTIONS_NONE := 0;
     OPTIONS_IMMEDIATE := 1; OPTIONS_RENDER_CURSORS := 2 |}.

(** A 64x48 output buffer that went stale in its top-left 10x10 corner
    while it waited in the pool. *)
Definition stale_buffer : wv_buffer :=
  {| type := WV_BUFFER_SHM; width := 64; height := 48; stride := 256; format := 1;
     wl_buffer := 6; nvnc_fb_transform := 0; domain := WV_BUFFER_DOMAIN_OUTPUT;
     frame_damage := []; buffer_damage := [Box 0 0 10 10] |}.

Definition shm_pool (q : list handle) (w h s : Z) : wv_buffer_pool :=
  {| queue := q; pool_type := WV_BUFFER_SHM; pool_width := w; pool_height := h;
     pool_stride := s; pool_format := 1 |}.

Definition shm_info (w h s : Z) : domain_info :=
  {| wl_shm_width := w; wl_shm_height := h; wl_shm_stride := s; wl_shm_format := 1;
     have_linux_dmabuf := false; dmabuf_width := 0; dmabuf_height := 0;
     dmabuf_format := 0 |}.

(** The output pool 1 holds the stale buffer 5, the cursor pool 2 is empty,
    the surface 3 is live. *)
Definition world1 : world :=
  {| next_handle := 10; alloc_plan := [];
     registry := {[ 5%positive := stale_buffer ]};
     pools := <[ 1%positive := shm_pool [5%positive] 64 48 256 ]>
                {[ 2%positive := shm_pool [] 16 16 64 ]};
     proxies := {[ 3%positive ]};
     requests := [] |}.

(** A session on [world1] whose negotiation is complete and that has no
    capture in flight. *)
Definition negotiated : ext_screencopy :=
  {| rate_limit := 30; manager := 100; wl_output := 101; surface := Some 3%positive;
     render_cursors := false; pool := Some 1%positive; buffer := None;
     cursor_pool := Some 2%positive; cursor_buffer := None;
     have_buffer_info := true; should_start := false; shall_be_immediate := false;
     have_cursor := false; output := shm_info 64 48 256; cursor := shm_info 16 16 64;
     userdata := 103; on_done := 102 |}.

(** The same session before negotiation has completed. *)
Definition awaiting : ext_screencopy := set_have_buffer_info false negotiated.

(** The same session with the stale buffer in flight, and its world. *)
Definition committed : ext_screencopy := set_buffer (Some 5%positive) negotiated.

Definition world_committed : world :=
  set_pools (fun _ => <[ 1%positive := shm_pool [] 64 48 256 ]>
                        {[ 2%positive := shm_pool [] 16 16 64 ]}) world1.

(** A world with nothing in it. *)
Definition empty_world (plan : list bool) : world :=
  {| next_handle := 1; alloc_plan := plan; registry := ∅; pools := ∅;
     proxies := ∅; requests := [] |}.

End Examples.

(** ** Vocabulary for what a session keeps and counts *)
Module Accounting.

(** The computation leaves the projection [f] of the world as it was,
    whether it returns or aborts. *)
Definition keeps {A X : Type} (f : world -> X) (m : M world A) : Prop :=
  forall w r w', m w = (r, w') -> f w' = f w.

(** What the computation adds to the number of commits and of completion
    callbacks, with the result it gives. *)
Definition tally {A : Type} (m : M world A) (P : res A -> nat -> nat -> Prop) : Prop :=
  forall w r w', m w = (r, w') ->
    exists dk dc,
      length (commits (requests w')) = (length (commits (requests w)) + dk)%nat
      /\ length (completions (requests w')) = (length (completions (requests w)) + dc)%nat
      /\ P r dk dc.

(** How many commits and how many completion callbacks were sent so far. *)
Definition counts (w : world) : nat * nat :=
  (length (commits (requests w)), length (completions (requests w))).

(** 1 when the session holds an output buffer, 0 when it holds none. *)
Definition in_flight (self : ext_screencopy) : nat :=
  match buffer self with Some _ => 1%nat | None => 0%nat end.

Definition in_flight_after (r : res ext_screencopy) : nat :=
  match r with Ok self => in_flight self | Abort => 0%nat end.

(** The two handlers that end a capture add one completion when they
    return, which they do only when a buffer is held, and none when they
    abort; they add no commit, and afterwards no buffer is held. *)
Definition ends_capture (self : ext_screencopy) (r : res ext_screencopy)
    (dk dc : nat) : Prop :=
  dk = 0%nat
  /\ ((r = Abort /\ dc = 0%nat)
      \/ exists s, r = Ok s /\ in_flight s = 0%nat /\ dc = 1%nat
                   /\ in_flight self = 1%nat).

(** The allocation template of a pool, and the templates of all pools. *)
Definition template (pl : wv_buffer_pool) : wv_buffer_type * Z * Z * Z * Z :=
  (pool_type pl, pool_width pl, pool_height pl, pool_stride pl, pool_format pl).

Definition templates (w : world) : gmap handle (wv_buffer_type * Z * Z * Z * Z) :=
  template <$> pools w.

(** The shared-memory geometry a descriptor holds. *)
Definition shm_geometry (d : domain_info) : wv_buffer_type * Z * Z * Z * Z :=
  (WV_BUFFER_SHM, wl_shm_width d, wl_shm_height d, wl_shm_stride d, wl_shm_format d).

(** The parts of a session that negotiation reads. *)
Definition negotiation_view (s : ext_screencopy)
  : option handle * option handle * bool * bool
    * (wv_buffer_type * Z * Z * Z * Z) * (wv_buffer_type * Z * Z * Z * Z) :=
  (pool s, cursor_pool s, have_linux_dmabuf (output s), have_linux_dmabuf (cursor s),
   shm_geometry (output s), shm_geometry (cursor s)).

(** The geometry the last shared-memory [buffer_info] event announced for
    the output, or [before] when there was none. *)
Fixpoint last_output_shm (before : wv_buffer_type * Z * Z * Z * Z) (acts : list action)
  : wv_buffer_type * Z * Z * Z * Z :=
  match acts with
  | [] => before
  | Buffer_info BUFFER_TYPE_WL_SHM fmt w h st :: rest =>
      last_output_shm (WV_BUFFER_SHM, w, h, st, fmt) rest
  | _ :: rest => last_output_shm before rest
  end.

(** The same for the cursor. *)
Fixpoint last_cursor_shm (before : wv_buffer_type * Z * Z * Z * Z) (acts : list action)
  : wv_buffer_type * Z * Z * Z * Z :=
  match acts with
  | [] => before
  | Cursor_buffer_info _ BUFFER_TYPE_WL_SHM fmt w h st :: rest =>
      last_cursor_shm (WV_BUFFER_SHM, w, h, st, fmt) rest
  | _ :: rest => last_cursor_shm before rest
  end.

(** The orientation the last transform event gave, or [before]. *)
Fixpoint last_transform (before : Z) (acts : list action) : Z :=
  match acts with
  | [] => before
  | Transform t :: rest => last_transform t rest
  | _ :: rest => last_transform before rest
  end.

(** The rectangles the damage events of a cycle report, in order. *)
Fixpoint reported (acts : list action) : pixman_region16 :=
  match acts with
  | [] => []
  | Damage x y wd ht :: rest => rect_box x y wd ht :: reported rest
  | _ :: rest => reported rest
  end.

(** Events that concern the buffer in flight and do not end the cycle. *)
Definition is_cycle_event (a : action) : bool :=
  match a with
  | Damage _ _ _ _ | Transform _ | Commit_time _ _ _ => true
  | _ => false
  end.





Definition is_failed (a : action) : bool :=
  match a with Failed _ => true | _ => false end.

(** A commit that asks for no option or for IMMEDIATE alone, and so not for
    cursors to be rendered into the frame. *)
Definition plain (cfg : build) (c : handle * Z) : Prop :=
  (snd c = 0 \/ snd c = OPTIONS_IMMEDIATE cfg)
  /\ ~ flag_set (OPTIONS_RENDER_CURSORS cfg) (snd c).

(** Every commit the computation adds is [plain], whether it returns or
    aborts. *)
Definition only_plain (cfg : build) {A : Type} (m : M world A) : Prop :=
  forall w r w', m w = (r, w') ->
    exists cs, commits (requests w') = commits (requests w) ++ cs
               /\ Forall (plain cfg) cs.

End Accounting.

Import Accounting.

(** ** data-control.c: offers of the compositor, and reading a selection *)
Module DataDevice.

Import DataControl.

(** What read(2) answers on the read end of the pipe. *)
Inductive read_result : Type :=
| Read_chunk (data : list Byte.byte)
| Read_eof
| Read_error.

(** What this part of the clipboard code does to the outside, oldest
    first: what the source code of [DataControl] does, system calls, and
    calls of libwayland, of the event loop (aml) and of the VNC server. *)
Inductive effect : Type :=
| Os (e : event)
| Sys_pipe (read_end write_end : Z)
| Sys_read (fd result : Z)
| Offer_receive (offer_id : handle) (mime : string) (fd : Z)
| Display_flush (display : handle)
| Offer_add_listener (offer_id : handle)
| Offer_destroy (offer_id : handle)
| Send_cut_text (srv : handle) (text : list Byte.byte) (len : Z)
| Handler_new (handler : handle) (fd : Z) (ctx : handle)
| Loop_start (handler : handle)
| Handler_unref (handler : handle)
| Loop_stop (handler : handle)
| Source_destroy (source : handle)
| Device_destroy (dev : handle)
| Get_data_device (mgr seat dev : handle)
| Device_add_listener (dev : handle).

(** [struct receive_context], without its [data_control] pointer: there is
    one [struct data_control], and the functions that follow that pointer
    take the struct as [self]. *)
Record receive_context : Type := {
  ctx_offer : option handle;
  ctx_fd : Z;
  mem_fp : option handle;
  mem_size : Z;
  mem_data : option (list Byte.byte)
}.

(** A stream of [open_memstream]: the context whose [mem_data] and
    [mem_size] it fills in when it is closed, and the bytes written. *)
Record memstream : Type := {
  target : handle;
  written : list Byte.byte
}.

Record host : Type := {
  h_next_handle : handle;
  h_alloc_plan : list bool;      (* outcome of the coming fallible calls *)
  h_write_plan : list Z;
  next_fd : Z;                   (* the next descriptor pipe(2) hands out *)
  read_plan : list read_result;  (* what the coming calls of read(2) answer;
                                    end of file once it is used up *)
  contexts : gmap handle receive_context;   (* allocated and not freed *)
  streams : gmap handle memstream;          (* open *)
  handlers : gmap handle (Z * handle);      (* descriptor and userdata *)
  trace : list effect
}.

Definition set_trace (f : list effect -> list effect) (h : host) : host :=
  {| h_next_handle := h_next_handle h; h_alloc_plan := h_alloc_plan h;
     h_write_plan := h_write_plan h; next_fd := next_fd h; read_plan := read_plan h;
     contexts := contexts h; streams := streams h; handlers := handlers h;
     trace := f (trace h) |}.

Definition set_contexts
    (f : gmap handle receive_context -> gmap handle receive_context) (h : host) : host :=
  {| h_next_handle := h_next_handle h; h_alloc_plan := h_alloc_plan h;
     h_write_plan := h_write_plan h; next_fd := next_fd h; read_plan := read_plan h;
     contexts := f (contexts h); streams := streams h; handlers := handlers h;
     trace := trace h |}.

Definition set_streams (f : gmap handle memstream -> gmap handle memstream) (h : host)
  : host :=
  {| h_next_handle := h_next_handle h; h_alloc_plan := h_alloc_plan h;
     h_write_plan := h_write_plan h; next_fd := next_fd h; read_plan := read_plan h;
     contexts := contexts h; streams := f (streams h); handlers := handlers h;
     trace := trace h |}.

Definition set_handlers (f : gmap handle (Z * handle) -> gmap handle (Z * handle))
    (h : host) : host :=
  {| h_next_handle := h_next_handle h; h_alloc_plan := h_alloc_plan h;
     h_write_plan := h_write_plan h; next_fd := next_fd h; read_plan := read_plan h;
     contexts := contexts h; streams := streams h; handlers := f (handlers h);
     trace := trace h |}.

(** A computation of the source code of [DataControl], run here: its
    events join the trace in their order. *)
Definition lift {A : Type} (m : M os A) : M host A :=
  fun h =>
    match m {| os_next_handle := h_next_handle h; os_alloc_plan := h_alloc_plan h;
               os_write_plan := h_write_plan h; events := [] |} with
    | (r, out) =>
        (r,
         {| h_next_handle := os_next_handle out;
            h_alloc_plan := os_alloc_plan out;
            h_write_plan := os_write_plan out;
            next_fd := next_fd h; read_plan := read_plan h;
            contexts := contexts h; streams := streams h; handlers := handlers h;
            trace := trace h ++ map Os (events out) |})
    end.

Definition perform (e : effect) : M host unit := modify (set_trace (fun t => t ++ [e])).

(** pipe(2): two new descriptors, or -1. *)
Definition sys_pipe : M host (option (Z * Z)) :=
  ok <- lift os_alloc_succeeds ;;
  if ok : bool then
    fd <- gets next_fd ;;
    modify (fun h =>
      {| h_next_handle := h_next_handle h; h_alloc_plan := h_alloc_plan h;
         h_write_plan := h_write_plan h; next_fd := fd + 2; read_plan := read_plan h;
         contexts := contexts h; streams := streams h; handlers := handlers h;
         trace := trace h |}) ;;;
    perform (Sys_pipe fd (fd + 1)) ;;;
    ret (Some (fd, fd + 1))
  else ret None.

(** read(2) into a buffer of [size] bytes: the count, which is -1 on an
    error and 0 at the end of the file, and the bytes read. *)
Definition sys_read (fd size : Z) : M host (Z * list Byte.byte) :=
  fun h =>
    let answer := match read_plan h with
                  | Read_chunk data :: _ =>
                      let got := firstn (Z.to_nat size) data in
                      (Z.of_nat (length got), got)
                  | Read_error :: _ => (-1, [])
                  | Read_eof :: _ | [] => (0, [])
                  end in
    (Ok answer,
     {| h_next_handle := h_next_handle h; h_alloc_plan := h_alloc_plan h;
        h_write_plan := h_write_plan h; next_fd := next_fd h;
        read_plan := tl (read_plan h);
        contexts := contexts h; streams := streams h; handlers := handlers h;
        trace := trace h ++ [Sys_read fd (fst answer)] |}).

Definition load_context (c : handle) : M host receive_context :=
  fun h => match contexts h !! c with
           | Some ctx => (Ok ctx, h)
           | None => (Abort, h)
           end.

Definition update_context (c : handle) (f : receive_context -> receive_context)
  : M host unit :=
  ctx <- load_context c ;;
  modify (set_contexts (fun m => <[c := f ctx]> m)).

(** [calloc(1, sizeof(struct receive_context))] *)
Definition calloc_context : M host (option handle) :=
  ok <- lift os_alloc_succeeds ;;
  if ok : bool then
    c <- lift os_fresh ;;
    modify (set_contexts (fun m =>
      <[c := {| ctx_offer := None; ctx_fd := 0; mem_fp := None; mem_size := 0;
                mem_data := None |}]> m)) ;;;
    ret (Some c)
  else ret None.

Definition free_context (c : handle) : M host unit :=
  modify (set_contexts (fun m => delete c m)).

(** [open_memstream(&ctx->mem_data, &ctx->mem_size)] *)
Definition open_memstream (c : handle) : M host (option handle) :=
  ok <- lift os_alloc_succeeds ;;
  if ok : bool then
    s <- lift os_fresh ;;
    modify (set_streams (fun m => <[s := {| target := c; written := [] |}]> m)) ;;;
    ret (Some s)
  else ret None.

(** [fwrite] on an open stream; its result is what the code ignores. *)
Definition fwrite (s : handle) (data : list Byte.byte) : M host unit :=
  fun h => match streams h !! s with
           | Some st =>
               (Ok tt,
                set_streams (fun m =>
                  <[s := {| target := target st; written := written st ++ data |}]> m) h)
           | None => (Abort, h)
           end.

(** [fclose] on a stream of [open_memstream]: the bytes written and their
    number reach the two locations the stream was opened with. *)
Definition fclose (s : handle) : M host unit :=
  fun h => match streams h !! s with
           | Some st =>
               (update_context (target st)
                  (fun ctx =>
                     {| ctx_offer := ctx_offer ctx; ctx_fd := ctx_fd ctx;
                        mem_fp := mem_fp ctx;
                        mem_size := Z.of_nat (length (written st));
                        mem_data := Some (written st) |}) ;;;
                modify (set_streams (fun m => delete s m))) h
           | None => (Abort, h)
           end.

(** [aml_handler_new(fd, on_receive, ctx, destroy_receive_context)] *)
Definition aml_handler_new (fd : Z) (c : handle) : M host (option handle) :=
  ok <- lift os_alloc_succeeds ;;
  if ok : bool then
    a <- lift os_fresh ;;
    modify (set_handlers (fun m => <[a := (fd, c)]> m)) ;;;
    perform (Handler_new a fd c) ;;;
    ret (Some a)
  else ret None.

Definition load_handler (a : handle) : M host (Z * handle) :=
  fun h => match handlers h !! a with
           | Some x => (Ok x, h)
           | None => (Abort, h)
           end.

Definition set_offer_field (v : option handle) (s : data_control) : data_control :=
  {| wl_display := wl_display s; server := server s; manager := manager s;
     device := device s; selection := selection s;
     primary_selection := primary_selection s; cb_data := cb_data s;
     cb_len := cb_len s; mime_type := mime_type s; offer := v |}.

(** [destroy_receive_context]; the context goes with its [mem_data]. *)
Definition destroy_receive_context (c : handle) : M host unit :=
  ctx <- load_context c ;;
  let fd := ctx_fd ctx in
  match mem_fp ctx with
  | Some s => fclose s
  | None => ret tt
  end ;;;
  ctx <- load_context c ;;
  o <- deref (ctx_offer ctx) ;;
  perform (Offer_destroy o) ;;;
  lift (sys_close fd) ;;;
  free_context c.

(** [on_receive]; [self] is the struct [ctx->data_control] points to. *)
Definition on_receive (self : data_control) (a : handle) : M host unit :=
  hd <- load_handler a ;;
  let c := snd hd in                     (* aml_get_userdata(handler) *)
  let fd := fst hd in                    (* aml_get_fd(handler) *)
  ctx <- load_context c ;;
  if negb (ctx_fd ctx =? fd) then abort else   (* assert(ctx->fd == fd) *)
  r <- sys_read fd 4096 ;;
  if fst r >? 0 then
    s <- deref (mem_fp ctx) ;;
    fwrite s (snd r)
  else
    s <- deref (mem_fp ctx) ;;
    fclose s ;;;
    update_context c (fun ctx =>
      {| ctx_offer := ctx_offer ctx; ctx_fd := ctx_fd ctx; mem_fp := None;
         mem_size := mem_size ctx; mem_data := mem_data ctx |}) ;;;
    ctx <- load_context c ;;
    (if negb (mem_size ctx =? 0) then
       text <- deref (mem_data ctx) ;;
       perform (Send_cut_text (server self) text (mem_size ctx))
     else ret tt) ;;;
    perform (Loop_stop a).

(** [receive_data] *)
Definition receive_data (self : data_control) (offer_id : handle) : M host unit :=
  pipe_fd <- sys_pipe ;;
  match pipe_fd with
  | None => lift (log_error "pipe() failed: %m")
  | Some (fd0, fd1) =>
      c <- calloc_context ;;
      match c with
      | None =>
          lift (log_error "OOM") ;;;
          lift (sys_close fd0) ;;;
          lift (sys_close fd1)
      | Some c =>
          perform (Offer_receive offer_id (mime_type self) fd1) ;;;
          perform (Display_flush (wl_display self)) ;;;
          lift (sys_close fd1) ;;;
          update_context c (fun ctx =>
            {| ctx_offer := Some offer_id; ctx_fd := fd0; mem_fp := mem_fp ctx;
               mem_size := mem_size ctx; mem_data := mem_data ctx |}) ;;;
          s <- open_memstream c ;;
          update_context c (fun ctx =>
            {| ctx_offer := ctx_offer ctx; ctx_fd := ctx_fd ctx; mem_fp := s;
               mem_size := mem_size ctx; mem_data := mem_data ctx |}) ;;;
          match s with
          | None =>
              ctx <- load_context c ;;
              lift (sys_close (ctx_fd ctx)) ;;;
              free_context c ;;;
              lift (log_error "open_memstream() failed: %m")
          | Some _ =>
              ctx <- load_context c ;;
              a <- aml_handler_new (ctx_fd ctx) c ;;
              match a with
              | None =>
                  ctx <- load_context c ;;
                  lift (sys_close (ctx_fd ctx)) ;;;
                  free_context c
              | Some a =>
                  perform (Loop_start a) ;;;
                  perform (Handler_unref a)
              end
          end
      end
  end.

(** [data_control_offer] *)
Definition data_control_offer (self : data_control) (offer_id : handle)
    (mime : string) : data_control :=
  match offer self with
  | Some _ => self
  | None =>
      if negb (String.eqb mime (mime_type self)) then self
      else set_offer_field (Some offer_id) self
  end.

(** [data_control_device_offer] *)
Definition data_control_device_offer (self : data_control) (id : option handle)
  : M host unit :=
  match id with
  | None => ret tt
  | Some o => perform (Offer_add_listener o)
  end.

(** The test [id && self->offer == id]. *)
Definition is_pending_offer (self : data_control) (id : option handle) : bool :=
  match id, offer self with
  | Some o, Some mine => Pos.eqb mine o
  | _, _ => false
  end.

(** [data_control_device_selection] *)
Definition data_control_device_selection (self : data_control) (id : option handle)
  : M host data_control :=
  match id with
  | Some o =>
      if is_pending_offer self id then
        receive_data self o ;;;
        ret (set_offer_field None self)
      else ret self
  | None => ret self
  end.

(** [data_control_device_finished] *)
Definition data_control_device_finished (self : data_control) (dev : handle)
  : M host unit :=
  perform (Device_destroy dev).

(** [data_control_device_primary_selection] *)
Definition data_control_device_primary_selection (self : data_control)
    (id : option handle) : M host data_control :=
  match id with
  | Some o =>
      if is_pending_offer self id then
        receive_data self o ;;;
        ret (set_offer_field None self)
      else ret self
  | None => ret self
  end.

Definition names (p : option handle) (x : handle) : bool :=
  match p with
  | Some y => Pos.eqb y x
  | None => false
  end.

(** [data_control_source_cancelled] *)
Definition data_control_source_cancelled (self : data_control) (source : handle)
  : M host data_control :=
  let self := if names (selection self) source
              then set_selection_field None self else self in
  let self := if names (primary_selection self) source
              then set_primary_selection_field None self else self in
  perform (Source_destroy source) ;;;
  ret self.

(** [data_control_init]; binding the data device goes through the manager,
    which must not be [NULL], and so does listening on the device. *)
Definition data_control_init (self : data_control) (display srv seat : handle)
  : M host data_control :=
  mgr <- deref (manager self) ;;
  ok <- lift os_alloc_succeeds ;;
  if negb ok then abort else             (* add_listener on NULL *)
  dev <- lift os_fresh ;;
  perform (Get_data_device mgr seat dev) ;;;
  perform (Device_add_listener dev) ;;;
  ret {| wl_display := display; server := srv; manager := manager self;
         device := dev; selection := None; primary_selection := None;
         cb_data := None; cb_len := 0;
         mime_type := "text/plain;charset=utf-8"; offer := offer self |}.

(** [data_control_destroy]; [cb_data] is freed and the field keeps the
    pointer. *)
Definition data_control_destroy (self : data_control) : M host data_control :=
  self <- match selection self with
          | Some s =>
              perform (Source_destroy s) ;;;
              ret (set_selection_field None self)
          | None => ret self
          end ;;
  self <- match primary_selection self with
          | Some s =>
              perform (Source_destroy s) ;;;
              ret (set_primary_selection_field None self)
          | None => ret self
          end ;;
  perform (Device_destroy (device self)) ;;;
  ret self.

(** ** The clipboard driven by the compositor, by the event loop and by
    the VNC server *)
Inductive signal : Type :=
| Data_offer (id : option handle)
| Offer (offer_id : handle) (mime : string)
| Selection (id : option handle)
| Primary_selection (id : option handle)
| Finished (dev : handle)
| Send (source : handle) (mime : string) (fd : Z)
| Cancelled (source : handle)
| Readable (handler : handle)
| Released (ctx : handle)
| To_clipboard (text : list Byte.byte) (len : Z).

(** The listeners of data-control.c, the two callbacks given to the event
    loop, and the call of the VNC server: which function a signal
    reaches. *)
Definition react (self : data_control) (s : signal) : M host data_control :=
  match s with
  | Data_offer id => data_control_device_offer self id ;;; ret self
  | Offer o mime => ret (data_control_offer self o mime)
  | Selection id => data_control_device_selection self id
  | Primary_selection id => data_control_device_primary_selection self id
  | Finished dev => data_control_device_finished self dev ;;; ret self
  | Send source mime fd => lift (data_control_source_send self source mime fd)
  | Cancelled source => data_control_source_cancelled self source
  | Readable a => on_receive self a ;;; ret self
  | Released c => destroy_receive_context c ;;; ret self
  | To_clipboard text len => lift (data_control_to_clipboard self text len)
  end.

Fixpoint serve (self : data_control) (signals : list signal) : M host data_control :=
  match signals with
  | [] => ret self
  | s :: rest => self <- react self s ;; serve self rest
  end.

End DataDevice.

(** ** Vocabulary for what the clipboard code does with its resources *)
Module Ledger.

Import DataControl DataDevice.

(** How many effects of a trace pass the test [p]. *)
Definition occurrences (p : effect -> bool) (t : list effect) : nat :=
  length (List.filter p t).

Definition is_close (fd : Z) (e : effect) : bool :=
  match e with Os (Sys_close x) => x =? fd | _ => false end.

Definition is_pipe (e : effect) : bool :=
  match e with Sys_pipe _ _ => true | _ => false end.

Definition is_receive (e : effect) : bool :=
  match e with Offer_receive _ _ _ => true | _ => false end.

Definition is_loop_start (e : effect) : bool :=
  match e with Loop_start _ => true | _ => false end.

Definition is_offer_destroy (o : handle) (e : effect) : bool :=
  match e with Offer_destroy x => Pos.eqb x o | _ => false end.

Definition is_source_destroy (s : handle) (e : effect) : bool :=
  match e with Source_destroy x => Pos.eqb x s | _ => false end.

Definition is_device_destroy (d : handle) (e : effect) : bool :=
  match e with Device_destroy x => Pos.eqb x d | _ => false end.

(** The outcome of the [i]-th fallible call from now on. *)
Definition outcome (i : nat) (h : host) : bool := nth i (h_alloc_plan h) true.

(** A transfer in flight: the handler [a] watches the descriptor [fd] for
    the context [c], which belongs to the offer [o] and whose stream [s]
    is open and holds [got]. *)
Definition in_transfer (h : host) (a c s o : handle) (fd : Z)
    (got : list Byte.byte) : Prop :=
  handlers h !! a = Some (fd, c)
  /\ (exists size data,
        contexts h !! c
        = Some {| ctx_offer := Some o; ctx_fd := fd; mem_fp := Some s;
                  mem_size := size; mem_data := data |})
  /\ streams h !! s = Some {| target := c; written := got |}.

(** What the reads of a transfer look like in the trace. *)
Definition reads (fd : Z) (chunks : list (list Byte.byte)) : list effect :=
  map (fun d => Sys_read fd (Z.of_nat (length d))) chunks.

Definition final_answer (r : read_result) : Z :=
  match r with
  | Read_error => -1
  | _ => 0
  end.

(** The text handed to the VNC server, if any is. *)
Definition cut_text (srv : handle) (text : list Byte.byte) : list effect :=
  match text with
  | [] => []
  | _ => [Send_cut_text srv text (Z.of_nat (length text))]
  end.

(** The offer that advertises [mime] first. *)
Fixpoint first_offer (mime : string) (offers : list (handle * string)) : option handle :=
  match offers with
  | [] => None
  | (o, m) :: rest => if String.eqb m mime then Some o else first_offer mime rest
  end.

Definition advertise (om : handle * string) : signal := Offer (fst om) (snd om).

(** The signal asks for the data of the offer [a]. *)
Definition selects (a : handle) (s : signal) : bool :=
  match s with
  | Selection (Some o) | Primary_selection (Some o) => Pos.eqb o a
  | _ => false
  end.

(** The sources a state holds. *)
Definition holds (self : data_control) (x : handle) : bool :=
  names (selection self) x || names (primary_selection self) x.

(** Every effect the computation adds to the trace passes the test [p],
    whether the computation returns or aborts. *)
Definition confined {A : Type} (p : effect -> bool) (m : M host A) : Prop :=
  forall h r h', m h = (r, h') ->
    exists added, trace h' = trace h ++ added /\ forallb p added = true.

(** What the computation returns has the same [f] as [self]. *)
Definition steady {X : Type} (f : data_control -> X) (self : data_control)
    (m : M host data_control) : Prop :=
  forall h s h', m h = (Ok s, h') -> f s = f self.

Definition is_finished (d : handle) (s : signal) : bool :=
  match s with Finished x => Pos.eqb x d | _ => false end.

Definition is_cancelled (x : handle) (s : signal) : bool :=
  match s with Cancelled y => Pos.eqb y x | _ => false end.

(** How many signals of a list pass the test [p]. *)
Definition signalled (p : signal -> bool) (signals : list signal) : nat :=
  length (List.filter p signals).

End Ledger.

(** ** Clipboard states and hosts to try the statements on *)
Module ClipboardExamples.

Import DataControl DataDevice.

(** The state after [data_control_init], with nothing published. *)
Definition clip0 : data_control :=
  {| wl_display := 1; server := 2; manager := Some 3%positive; device := 4;
     selection := None; primary_selection := None; cb_data := None; cb_len := 0;
     mime_type := "text/plain;charset=utf-8"; offer := None |}.

(** A host with nothing in it. *)
Definition host0 (plan : list bool) (reads : list read_result) : host :=
  {| h_next_handle := 10; h_alloc_plan := plan; h_write_plan := []; next_fd := 5;
     read_plan := reads; contexts := ∅; streams := ∅; handlers := ∅; trace := [] |}.

(** A host in which the handler 12 reads the descriptor 5 for the context
    10 of the offer 20, into the stream 11; the words "hi" and "!" are on
    their way. *)
Definition host_in_transfer : host :=
  {| h_next_handle := 13; h_alloc_plan := []; h_write_plan := []; next_fd := 7;
     read_plan := [Read_chunk [Byte.x68; Byte.x69]; Read_chunk [Byte.x21]; Read_eof];
     contexts := {[ 10%positive := {| ctx_offer := Some 20%positive; ctx_fd := 5;
                                      mem_fp := Some 11%positive; mem_size := 0;
                                      mem_data := None |} ]};
     streams := {[ 11%positive := {| target := 10; written := [] |} ]};
     handlers := {[ 12%positive := (5, 10%positive) ]};
     trace := [] |}.

End ClipboardExamples.

(** * Properties *)

(** ** Running a sequence of two steps *)
Section ExecLaws.

Context {W A B : Type}.

Lemma bind_ok (m : M W A) (k : A -> M W B) (w w1 : W) (a : A) :
  m w = (Ok a, w1) -> bind m k w = k a w1.
Proof. intros H. unfold bind. now rewrite H. Qed.

Lemma bind_abort (m : M W A) (k : A -> M W B) (w w1 : W) :
  m w = (Abort, w1) -> bind m k w = (Abort, w1).
Proof. intros H. unfold bind. now rewrite H. Qed.

Lemma bind_cases (m : M W A) (k : A -> M W B) (w w' : W) (r : res B) :
  bind m k w = (r, w') ->
  (exists a w1, m w = (Ok a, w1) /\ k a w1 = (r, w'))
  \/ (m w = (Abort, w') /\ r = Abort).
Proof.
  unfold bind. destruct (m w) as [[a|] w1]; intros H.
  - left. now exists a, w1.
  - right. now inversion H.
Qed.

Lemma bind_ok_inv (m : M W A) (k : A -> M W B) (w w' : W) (b : B) :
  bind m k w = (Ok b, w') ->
  exists a w1, m w = (Ok a, w1) /\ k a w1 = (Ok b, w').
Proof.
  intros H. destruct (bind_cases _ _ _ _ _ H) as [?|[_ ?]]; [assumption|discriminate].
Qed.

End ExecLaws.

(** ** The pool *)
Section PoolFacts.

Lemma take_reusable_total (pl : wv_buffer_pool) (q : list handle) (w : world) :
  exists found rest w1,
    take_reusable pl q w = (Ok (found, rest), w1)
    /\ registry_only w w1
    /\ forall b, found = Some b -> is_Some (registry w1 !! b).
Proof.
  revert w. induction q as [|b q IH]; intros w; simpl.
  - exists None, [], w. unfold registry_only. repeat split; intros; discriminate.
  - unfold bind at 1, gets. destruct (registry w !! b) as [buf|] eqn:Hb.
    + destruct (matches pl buf).
      * exists (Some b), q, w. unfold registry_only, ret. repeat split.
        intros ? [= <-]. rewrite Hb. eauto.
      * unfold bind, modify.
        destruct (IH (set_registry (delete b) w)) as (f & r & w1 & E & (?&?&?&?&?) & L).
        exists f, r, w1. rewrite E. unfold registry_only. repeat split; try assumption.
    + apply IH.
Qed.

(** [acquire] always hands out a live buffer when the pool exists. *)
Lemma acquire_total (w : world) (p : option handle) :
  live_pool w p = true ->
  exists b buf0 w1,
    wv_buffer_pool_acquire p w = (Ok b, w1)
    /\ registry w1 !! b = Some buf0
    /\ requests w1 = requests w /\ proxies w1 = proxies w
    /\ alloc_plan w1 = alloc_plan w
    /\ forall q, live_pool w q = true -> live_pool w1 q = true.
Proof.
  unfold live_pool. destruct p as [ph|]; [|discriminate].
  destruct (pools w !! ph) as [pl|] eqn:Hp; [intros _|discriminate].
  unfold wv_buffer_pool_acquire, deref.
  rewrite (bind_ok _ _ w w ph) by reflexivity.
  rewrite (bind_ok _ _ w w pl) by (unfold load_pool; now rewrite Hp).
  destruct (take_reusable_total pl (queue pl) w) as (f & r & w1 & E & (Hn&Ha&Hpo&Hpr&Hr) & L).
  rewrite (bind_ok _ _ _ _ _ E). unfold bind at 1, modify. simpl.
  assert (Hlive : forall (m : gmap handle wv_buffer_pool) v q,
            match q with Some qh => match pools w !! qh with Some _ => true | None => false end
                       | None => false end = true ->
            m = pools w ->
            match q with Some qh => match <[ph := v]> m !! qh with Some _ => true | None => false end
                       | None => false end = true).
  { intros m v [qh|] Hq ->; [|discriminate].
    destruct (decide (ph = qh)) as [->|Hne].
    - now rewrite lookup_insert_eq.
    - now rewrite lookup_insert_ne. }
  destruct f as [b|].
  - destruct (L b eq_refl) as [buf0 Hb].
    exists b, buf0, (set_pools (fun m => <[ph := set_queue r pl]> m) w1).
    unfold ret. simpl. repeat split; try assumption.
    intros q Hq. eapply Hlive; eauto.
  - unfold bind, fresh, modify, ret. simpl.
    eexists _, _, _. split; [reflexivity|]. simpl.
    rewrite lookup_insert_eq. repeat split; try assumption.
    intros q Hq. eapply Hlive; eauto.
Qed.

End PoolFacts.

(** ** Sending requests *)
Section Sending.

Lemma emit_sent (r : request) (w : world) : emit r w = (Ok tt, sent [r] w).
Proof. reflexivity. Qed.

Lemma sent_sent (a b : list request) (w : world) :
  sent b (sent a w) = sent (a ++ b) w.
Proof. unfold sent. simpl. now rewrite app_assoc. Qed.

Lemma for_each_emit (f : pixman_box16 -> request) (boxes : list pixman_box16) (w : world) :
  for_each (fun box => emit (f box)) boxes w = (Ok tt, sent (map f boxes) w).
Proof.
  revert w. induction boxes as [|box boxes IH]; intros w; simpl.
  - unfold ret, sent. rewrite app_nil_r. now destruct w.
  - rewrite (bind_ok _ _ _ _ _ (emit_sent _ _)). rewrite IH. now rewrite sent_sent.
Qed.

Lemma emit_when (c : bool) (r : request) (w : world) :
  (if c then emit r else ret tt) w = (Ok tt, sent (if c then [r] else []) w).
Proof.
  destruct c; [reflexivity|]. unfold ret, sent. rewrite app_nil_r. now destruct w.
Qed.

Lemma update_buffer_ok (b : handle) (f : wv_buffer -> wv_buffer) (w : world)
    (buf : wv_buffer) :
  registry w !! b = Some buf ->
  update_buffer b f w = (Ok tt, set_registry (fun m => <[b := f buf]> m) w).
Proof.
  intros H. unfold update_buffer, bind, load_buffer, modify. now rewrite H.
Qed.

Lemma load_buffer_ok (b : handle) (w : world) (buf : wv_buffer) :
  registry w !! b = Some buf -> load_buffer b w = (Ok buf, w).
Proof. intros H. unfold load_buffer. now rewrite H. Qed.

Lemma commits_app (a b : list request) : commits (a ++ b) = commits a ++ commits b.
Proof. unfold commits. apply flat_map_app. Qed.

Lemma commits_hints (f : pixman_box16 -> request) (boxes : list pixman_box16) :
  (forall box, commits [f box] = []) -> commits (map f boxes) = [].
Proof.
  intros H. induction boxes as [|box boxes IH]; [reflexivity|].
  change (map f (box :: boxes)) with ([f box] ++ map f boxes).
  now rewrite commits_app, H, IH.
Qed.


End Sending.

(** ** One capture *)
Section Capture.

Variable cfg : build.


End Capture.

(** ** What a handler returns and what it sends *)
Section Triples.

Context {A B : Type}.

Lemma returns_ret (a : A) (Q : A -> Prop) : Q a -> returns (ret a) Q.
Proof. intros H w a' w' [= <- _]. exact H. Qed.

Lemma returns_bind (m : M world A) (k : A -> M world B) (R : A -> Prop)
    (Q : B -> Prop) :
  returns m R -> (forall a, R a -> returns (k a) Q) -> returns (bind m k) Q.
Proof.
  intros Hm Hk w b w' H. apply bind_ok_inv in H as (a & w1 & E1 & E2).
  exact (Hk a (Hm _ _ _ E1) _ _ _ E2).
Qed.

Lemma returns_then (m : M world A) (k : A -> M world B) (Q : B -> Prop) :
  (forall a, returns (k a) Q) -> returns (bind m k) Q.
Proof.
  intros Hk. apply (returns_bind m k (fun _ => True)); [easy|]. intros a _. apply Hk.
Qed.

Lemma silent_ret (a : A) : silent (ret a).
Proof. intros w r w' [= _ <-]. reflexivity. Qed.

Lemma silent_abort : silent (@abort world A).
Proof. intros w r w' [= _ <-]. reflexivity. Qed.

Lemma silent_bind (m : M world A) (k : A -> M world B) :
  silent m -> (forall a, silent (k a)) -> silent (bind m k).
Proof.
  intros Hm Hk w r w' H. destruct (bind_cases _ _ _ _ _ H) as [(a & w1 & E1 & E2)|[E _]].
  - rewrite (Hk a _ _ _ E2). exact (Hm _ _ _ E1).
  - exact (Hm _ _ _ E).
Qed.

Lemma silent_deref (p : option A) : silent (@deref world A p).
Proof. destruct p; [apply silent_ret|apply silent_abort]. Qed.

End Triples.

Section SilentPrimitives.

Lemma silent_modify (f : world -> world) :
  (forall w, requests (f w) = requests w) -> silent (modify f).
Proof. intros Hf w r w' [= _ <-]. now rewrite Hf. Qed.

Lemma silent_emit (r : request) : commits [r] = [] -> silent (emit r).
Proof.
  intros Hr w r' w' [= _ <-]. simpl. rewrite commits_app, Hr. apply app_nil_r.
Qed.

Lemma silent_load_buffer (b : handle) : silent (load_buffer b).
Proof.
  intros w r w'. unfold load_buffer. destruct (registry w !! b); intros [= _ <-]; reflexivity.
Qed.

Lemma silent_load_pool (p : handle) : silent (load_pool p).
Proof.
  intros w r w'. unfold load_pool. destruct (pools w !! p); intros [= _ <-]; reflexivity.
Qed.

Lemma silent_update_buffer (b : handle) (f : wv_buffer -> wv_buffer) :
  silent (update_buffer b f).
Proof.
  apply silent_bind; [apply silent_load_buffer|]. intros buf. now apply silent_modify.
Qed.

Lemma silent_release (p b : option handle) : silent (wv_buffer_pool_release p b).
Proof.
  unfold wv_buffer_pool_release.
  repeat (apply silent_bind; [first [apply silent_deref | apply silent_load_pool]|intros ?]).
  now apply silent_modify.
Qed.

Lemma silent_damage_rect (b : option handle) (x y w h : Z) :
  silent (wv_buffer_damage_rect b x y w h).
Proof.
  apply silent_bind; [apply silent_deref|]. intros ?. apply silent_update_buffer.
Qed.

Lemma silent_damage_whole (b : option handle) : silent (wv_buffer_damage_whole b).
Proof.
  apply silent_bind; [apply silent_deref|]. intros ?. apply silent_update_buffer.
Qed.

Lemma silent_damage_all (r : pixman_region16) (d : wv_buffer_domain) :
  silent (wv_buffer_registry_damage_all r d).
Proof. now apply silent_modify. Qed.

Lemma silent_alloc : silent alloc_succeeds.
Proof.
  intros w r w'. unfold alloc_succeeds. destruct (alloc_plan w); intros [= _ <-]; reflexivity.
Qed.

Lemma silent_fresh : silent fresh.
Proof. intros w r w' [= _ <-]. reflexivity. Qed.

Lemma silent_init_surface (self : ext_screencopy) :
  silent (ext_screencopy_init_surface self).
Proof.
  unfold ext_screencopy_init_surface. apply silent_bind.
  - destruct (surface self).
    + apply silent_bind; [now apply silent_emit|]. intros _. now apply silent_modify.
    + apply silent_ret.
  - intros _. apply silent_bind; [apply silent_alloc|]. intros [|]; [|apply silent_ret].
    apply silent_bind; [apply silent_fresh|]. intros new.
    apply silent_bind; [now apply silent_modify|]. intros _.
    apply silent_bind; [now apply silent_emit|]. intros _.
    apply silent_bind; [now apply silent_emit|]. intros _. apply silent_ret.
Qed.

End SilentPrimitives.

Ltac quiet :=
  repeat first
    [ apply silent_ret | apply silent_abort | apply silent_deref
    | apply silent_load_buffer | apply silent_update_buffer | apply silent_release
    | apply silent_damage_rect | apply silent_damage_whole | apply silent_damage_all
    | apply silent_init_surface
    | apply silent_emit; reflexivity
    | apply silent_bind; [|intros ?] ].

(** ** Fields the handlers leave alone *)
Section Frames.

Variable cfg : build.

Lemma returns_init_surface (self : ext_screencopy) (P : ext_screencopy -> Prop) :
  (forall v, P (set_surface v self)) ->
  returns (ext_screencopy_init_surface self) (fun r => P (fst r)).
Proof.
  intros HP. unfold ext_screencopy_init_surface.
  apply returns_then. intros _. apply returns_then. intros [|].
  - repeat (apply returns_then; intros ?). apply returns_ret. apply HP.
  - apply returns_ret. apply HP.
Qed.

(** A capture changes the two buffer fields of the session and no other. *)
Lemma returns_schedule_capture (self : ext_screencopy) (immediate : bool)
    (P : ext_screencopy -> Prop) :
  (forall b, P (set_buffer b self)) ->
  (forall b c, P (set_cursor_buffer c (set_buffer b self))) ->
  returns (ext_screencopy_schedule_capture cfg self immediate) P.
Proof.
  intros H1 H2. unfold ext_screencopy_schedule_capture.
  apply returns_then. intros b.
  do 5 (apply returns_then; intros ?).
  apply (returns_bind _ _ P).
  - simpl have_cursor. destruct (have_cursor self).
    + do 5 (apply returns_then; intros ?). apply returns_ret. apply H2.
    + apply returns_ret. apply H1.
  - intros s Hs. apply returns_then. intros _. now apply returns_ret.
Qed.

Lemma step_have_cursor (self : ext_screencopy) (a : action) :
  returns (step cfg self a)
    (fun s => have_cursor s = last_presence (have_cursor self) [a]).
Proof.
  destruct a; simpl; try (apply returns_ret; reflexivity).
  - (* start *)
    apply (returns_bind _ _ (fun r => have_cursor (fst r) = have_cursor self)).
    + unfold ext_screencopy_start. destruct (negb (have_buffer_info self)).
      * now apply returns_ret.
      * apply (returns_bind _ _ (fun s => have_cursor s = have_cursor self)).
        -- now apply returns_schedule_capture.
        -- intros s Hs. now apply returns_ret.
    + intros r Hr. now apply returns_ret.
  - (* init_done *)
    unfold surface_handle_init_done. do 2 (apply returns_then; intros ?).
    apply (returns_bind _ _ (fun s => have_cursor s = have_cursor self)).
    + destruct (should_start self); [|now apply returns_ret].
      apply (returns_bind _ _ (fun s => have_cursor s = have_cursor self)).
      * now apply returns_schedule_capture.
      * intros s Hs. now apply returns_ret.
    + intros s Hs. now apply returns_ret.
  - (* damage *)
    unfold surface_handle_damage. apply returns_then. intros _. now apply returns_ret.
  - (* cursor_info *)
    unfold surface_handle_cursor_info. do 6 (apply returns_then; intros ?).
    now apply returns_ret.
  - (* transform *)
    unfold surface_handle_transform. do 2 (apply returns_then; intros ?).
    now apply returns_ret.
  - (* ready *)
    unfold surface_handle_ready. do 5 (apply returns_then; intros ?).
    now apply returns_ret.
  - (* failed *)
    unfold surface_handle_failed. do 2 (apply returns_then; intros ?).
    apply (returns_bind _ _ (fun s => have_cursor s = have_cursor self)).
    + destruct reason; [|now apply returns_ret].
      apply (returns_bind _ _ (fun r => have_cursor (fst r) = have_cursor self)).
      * now apply (returns_init_surface _ (fun s => have_cursor s = have_cursor self)).
      * intros r Hr. now apply returns_ret.
    + intros s Hs. apply returns_then. intros _. now apply returns_ret.
Qed.

Lemma last_presence_cons (before : bool) (a : action) (rest : list action) :
  last_presence before (a :: rest) = last_presence (last_presence before [a]) rest.
Proof. now destruct a. Qed.

Lemma run_have_cursor (acts : list action) (self : ext_screencopy) :
  returns (run cfg self acts)
    (fun s => have_cursor s = last_presence (have_cursor self) acts).
Proof.
  revert self. induction acts as [|a rest IH]; intros self; simpl run.
  - now apply returns_ret.
  - eapply returns_bind; [apply step_have_cursor|].
    intros s Hs. rewrite last_presence_cons, <- Hs. apply IH.
Qed.

(** Before negotiation is complete a handler other than the one for
    negotiation-complete sends no commit and leaves negotiation incomplete. *)
Lemma step_before_negotiation (self : ext_screencopy) (a : action) :
  have_buffer_info self = false -> is_init_done a = false ->
  silent (step cfg self a)
  /\ returns (step cfg self a) (fun s => have_buffer_info s = false).
Proof.
  intros Hinfo Ha. destruct a; simpl; try discriminate;
    try (split; [apply silent_ret|now apply returns_ret]).
  - (* start *)
    unfold ext_screencopy_start. rewrite Hinfo. simpl. split.
    + quiet.
    + apply (returns_bind _ _ (fun r => have_buffer_info (fst r) = false)).
      * now apply returns_ret.
      * intros r Hr. now apply returns_ret.
  - (* damage *)
    unfold surface_handle_damage. split; [quiet|].
    apply returns_then. intros _. now apply returns_ret.
  - (* cursor_info *)
    unfold surface_handle_cursor_info. split.
    + apply silent_bind; [destruct (has_damage =? 0); quiet|]. intros _. quiet.
    + do 6 (apply returns_then; intros ?). now apply returns_ret.
  - (* transform *)
    unfold surface_handle_transform. split; [quiet|].
    do 2 (apply returns_then; intros ?). now apply returns_ret.
  - (* ready *)
    unfold surface_handle_ready. split; [quiet|].
    do 5 (apply returns_then; intros ?). now apply returns_ret.
  - (* failed *)
    unfold surface_handle_failed. split.
    + apply silent_bind; [quiet|]. intros b. apply silent_bind; [quiet|]. intros _.
      apply silent_bind; [destruct reason; quiet|]. intros s. quiet.
    + do 2 (apply returns_then; intros ?).
      apply (returns_bind _ _ (fun s => have_buffer_info s = false)).
      * destruct reason; [|now apply returns_ret].
        apply (returns_bind _ _ (fun r => have_buffer_info (fst r) = false)).
        -- now apply (returns_init_surface _ (fun s => have_buffer_info s = false)).
        -- intros r Hr. now apply returns_ret.
      * intros s Hs. apply returns_then. intros _. now apply returns_ret.
Qed.

(** The same for a whole sequence of calls and events. *)
Lemma run_before_negotiation (acts : list action) (self : ext_screencopy) :
  have_buffer_info self = false ->
  forallb (fun a => negb (is_init_done a)) acts = true ->
  silent (run cfg self acts)
  /\ returns (run cfg self acts) (fun s => have_buffer_info s = false).
Proof.
  revert self. induction acts as [|a rest IH]; intros self Hinfo Hacts; simpl run.
  - split; [apply silent_ret|now apply returns_ret].
  - simpl in Hacts. apply andb_prop in Hacts as [Ha Hrest].
    apply negb_true_iff in Ha.
    destruct (step_before_negotiation self a Hinfo Ha) as [Hs Hr]. split.
    + intros w r w' H. destruct (bind_cases _ _ _ _ _ H) as [(s & w1 & E1 & E2)|[E _]].
      * destruct (IH s (Hr _ _ _ E1) Hrest) as [Hs' _].
        rewrite (Hs' _ _ _ E2). exact (Hs _ _ _ E1).
      * exact (Hs _ _ _ E).
    + eapply returns_bind; [exact Hr|]. intros s Hs'. now apply IH.
Qed.

End Frames.

(** ** The commit algorithm *)
Section CommitAlgorithm.

Variable cfg : build.




End CommitAlgorithm.

(** ** The cursor option of a created session *)
Section Configured.

Variable cfg : build.

(** C4, on the code.  A session is created with [render_cursor] set, its
    negotiation completes and a capture is started.  The capture attaches
    the buffer it drew and commits once, and the options of that commit are
    IMMEDIATE or none: RENDER_CURSORS is not among them, although the
    session was configured to render cursors.  [ext_screencopy_create]
    never stores its argument: in every world it does what it does with
    [render_cursor] clear, and the field [render_cursors] of the session
    stays as [calloc] left it.  The option bits of the header are taken to
    form a bit field. *)
Theorem create_drops_render_cursor (mgr out done_fn data : handle) (immediate : bool) :
  bitfield cfg ->
  let negotiation := [Buffer_info BUFFER_TYPE_WL_SHM 1 64 48 256; Init_done] in
  let flags := if immediate then OPTIONS_IMMEDIATE cfg else OPTIONS_NONE cfg in
  exists s0 w0 s1 w1 surf wl,
    ext_screencopy_create mgr out true done_fn data (Examples.empty_world [])
      = (Ok (Some s0), w0)
    /\ render_cursors s0 = false
    /\ run cfg s0 (negotiation ++ [Start immediate]) w0 = (Ok s1, w1)
    /\ requests w1 = requests w0 ++ [Attach_buffer surf wl; Commit surf flags]
    /\ commits (requests w1) = [(surf, flags)]
    /\ ~ flag_set (OPTIONS_RENDER_CURSORS cfg) flags
    /\ (flag_set (OPTIONS_IMMEDIATE cfg) flags <-> immediate = true)
    /\ forall w : world,
         ext_screencopy_create mgr out true done_fn data w
         = ext_screencopy_create mgr out false done_fn data w.
Proof.
  intros (Hnone & Hi & Hr & Hdisj) negotiation flags.
  assert (Hclear : ~ flag_set (OPTIONS_RENDER_CURSORS cfg) flags).
  { unfold flag_set, flags. destruct immediate.
    - rewrite Hdisj. lia.
    - rewrite Hnone, Z.land_0_l. lia. }
  assert (Himm : flag_set (OPTIONS_IMMEDIATE cfg) flags <-> immediate = true).
  { unfold flag_set, flags. destruct immediate.
    - rewrite Z.land_diag. tauto.
    - rewrite Hnone, Z.land_0_l. split; [lia|discriminate]. }
  assert (Hflags : flags = if immediate then OPTIONS_IMMEDIATE cfg else 0)
    by (unfold flags; now rewrite Hnone).
  clearbody flags. subst negotiation. clear Hi Hr Hdisj.
  revert flags Hnone Hclear Himm Hflags.
  destruct cfg as [[|] none imm rc], immediate; simpl;
    intros flags -> Hclear Himm ->;
    (eexists _, _, _, _, _, _; split; [vm_compute; reflexivity|]);
    (split; [reflexivity|]);
    (split; [vm_compute; reflexivity|]);
    (split; [vm_compute; reflexivity|]);
    (split; [vm_compute; reflexivity|]);
    (split; [exact Hclear|split; [exact Himm|reflexivity]]).
Qed.

End Configured.

Lemma create_drops_render_cursor_witness :
  exists s0 w0 s1 w1 surf wl,
    ext_screencopy_create 100 101 true 102 103 (Examples.empty_world [])
      = (Ok (Some s0), w0)
    /\ render_cursors s0 = false
    /\ run Examples.cfg0 s0
         ([Buffer_info BUFFER_TYPE_WL_SHM 1 64 48 256; Init_done] ++ [Start true]) w0
       = (Ok s1, w1)
    /\ requests w1 = requests w0 ++ [Attach_buffer surf wl; Commit surf 1]
    /\ commits (requests w1) = [(surf, 1)]
    /\ ~ flag_set 2 1
    /\ (flag_set 1 1 <-> true = true)
    /\ forall w : world,
         ext_screencopy_create 100 101 true 102 103 w
         = ext_screencopy_create 100 101 false 102 103 w.
Proof.
  apply (create_drops_render_cursor Examples.cfg0 100 101 102 103 true).
  unfold bitfield. simpl. repeat split; lia.
Defined.

(** ** Starting before and after negotiation *)
Section Negotiation.

Variable cfg : build.




Lemma start_deferred (self : ext_screencopy) (immediate : bool) (w : world) :
  have_buffer_info self = false ->
  ext_screencopy_start cfg self immediate w = (Ok (pending immediate self, 0), w).
Proof. intros H. unfold ext_screencopy_start. now rewrite H. Qed.


Lemma run_app (a b : list action) (self : ext_screencopy) (w : world) :
  run cfg self (a ++ b) w = bind (run cfg self a) (fun s => run cfg s b) w.
Proof.
  revert self w. induction a as [|x a IH]; intros self w; simpl; [reflexivity|].
  unfold bind. destruct (step cfg self x w) as [[s|] w1]; [|reflexivity].
  apply IH.
Qed.



End Negotiation.


(** ** Reconfiguration *)
Section Reconfiguration.

Variable cfg : build.

(** C5.  A reconfiguration signal marks negotiation as incomplete and drops
    the output domain's dmabuf descriptor.  From then on, through any calls
    and events that do not include the negotiation-complete signal, no commit
    is sent (even by a run that aborts), negotiation stays incomplete, and a
    start call made at any such point is deferred: it records the request
    and sends nothing. *)
Theorem reconfig_defers_until_negotiated (self : ext_screencopy)
    (acts : list action) (w : world) :
  forallb (fun a => negb (is_init_done a)) acts = true ->
  let s0 := surface_handle_reconfig self in
  let after := run cfg s0 acts w in
  have_buffer_info s0 = false
  /\ have_linux_dmabuf (output s0) = false
  /\ commits (requests (snd after)) = commits (requests w)
  /\ forall s1, fst after = Ok s1 ->
       have_buffer_info s1 = false
       /\ forall imm,
            ext_screencopy_start cfg s1 imm (snd after)
            = (Ok (pending imm s1, 0), snd after).
Proof.
  intros Hacts s0 after.
  destruct (run_before_negotiation cfg acts s0 eq_refl Hacts) as [Hsilent Hret].
  split; [reflexivity|]. split; [reflexivity|].
  unfold after. destruct (run cfg s0 acts w) as [r w'] eqn:E. simpl. split.
  - exact (Hsilent _ _ _ E).
  - intros s1 ->. assert (H1 := Hret _ _ _ E). split; [exact H1|].
    intros imm. now apply start_deferred.
Qed.

End Reconfiguration.

Lemma reconfig_defers_until_negotiated_witness :
  let acts := [Start true; Buffer_info BUFFER_TYPE_WL_SHM 1 80 60 320;
               Cursor_enter "default"; Start false] in
  let s0 := surface_handle_reconfig Examples.negotiated in
  let after := run Examples.cfg0 s0 acts Examples.world1 in
  have_buffer_info s0 = false
  /\ have_linux_dmabuf (output s0) = false
  /\ commits (requests (snd after)) = commits (requests Examples.world1)
  /\ forall s1, fst after = Ok s1 ->
       have_buffer_info s1 = false
       /\ forall imm,
            ext_screencopy_start Examples.cfg0 s1 imm (snd after)
            = (Ok (pending imm s1, 0), snd after).
Proof.
  apply (reconfig_defers_until_negotiated Examples.cfg0 Examples.negotiated
           [Start true; Buffer_info BUFFER_TYPE_WL_SHM 1 80 60 320;
            Cursor_enter "default"; Start false] Examples.world1).
  reflexivity.
Defined.

(** ** A capture, step by step *)
Section ExactCapture.

Variable cfg : build.

(** A capture that can be scheduled, step by step: the output buffer is
    what [wv_buffer_pool_acquire] gives on the output pool in the world
    [w]; the cursor buffer, if a cursor is present, is what it gives on the
    cursor pool in the world reached when the output buffer is tagged and
    its attachment and hints are sent; the world at the end is that world
    with the cursor buffer tagged and the rest sent. *)
Lemma schedule_capture_exact (self : ext_screencopy) (immediate : bool) (w : world)
    (surf : handle) :
  capture_ready w self = true ->
  surface self = Some surf ->
  exists b buf0 w1,
    wv_buffer_pool_acquire (pool self) w = (Ok b, w1)
    /\ registry w1 !! b = Some buf0
    /\ requests w1 = requests w
    /\ let w2 := sent (Attach_buffer surf (wl_buffer buf0)
                       :: map (damage_hint surf)
                            (pixman_region_rectangles (buffer_damage buf0)))
                   (set_registry
                      (fun m => <[b := set_domain WV_BUFFER_DOMAIN_OUTPUT buf0]> m) w1) in
       let flags := commit_flags cfg immediate (render_cursors self) in
       if have_cursor self then
         exists c cbuf0 w3,
           wv_buffer_pool_acquire (cursor_pool self) w2 = (Ok c, w3)
           /\ registry w3 !! c = Some cbuf0
           /\ requests w3 = requests w2
           /\ ext_screencopy_schedule_capture cfg self immediate w
              = (Ok (set_cursor_buffer (Some c) (set_buffer (Some b) self)),
                 sent (cursor_requests surf
                         (Some (set_domain WV_BUFFER_DOMAIN_CURSOR cbuf0))
                       ++ [Commit surf flags])
                   (set_registry
                      (fun m => <[c := set_domain WV_BUFFER_DOMAIN_CURSOR cbuf0]> m) w3))
       else
         ext_screencopy_schedule_capture cfg self immediate w
         = (Ok (set_buffer (Some b) self), sent [Commit surf flags] w2).
Proof.
  unfold capture_ready. intros Hready Hsurf. rewrite Hsurf in Hready.
  apply andb_prop in Hready as [Hpool Hcur]. simpl in Hpool.
  destruct (acquire_total w (pool self) Hpool)
    as (b & buf0 & w1 & Eacq & Hb & Hr1 & Hp1 & _ & Hl1).
  exists b, buf0, w1. split; [exact Eacq|]. split; [exact Hb|]. split; [exact Hr1|].
  cbn zeta.
  set (w2 := set_registry
               (fun m => <[b := set_domain WV_BUFFER_DOMAIN_OUTPUT buf0]> m) w1).
  assert (Hb2 : registry w2 !! b = Some (set_domain WV_BUFFER_DOMAIN_OUTPUT buf0))
    by (unfold w2; simpl; apply lookup_insert_eq).
  set (w4 := sent (Attach_buffer surf (wl_buffer buf0)
                   :: map (damage_hint surf)
                        (pixman_region_rectangles (buffer_damage buf0))) w2).
  destruct (have_cursor self) eqn:Hhc.
  - simpl in Hcur.
    assert (Hl4 : forall q, live_pool w q = true -> live_pool w4 q = true)
      by (intros q Hq; apply (Hl1 q Hq)).
    destruct (acquire_total w4 (cursor_pool self) (Hl4 _ Hcur))
      as (c & cbuf0 & w5 & Eacq' & Hc & Hr5 & _).
    exists c, cbuf0, w5. split; [exact Eacq'|]. split; [exact Hc|].
    split; [exact Hr5|].
    assert (Hc5 : registry (set_registry
                              (fun m => <[c := set_domain WV_BUFFER_DOMAIN_CURSOR cbuf0]> m)
                              w5) !! c
                  = Some (set_domain WV_BUFFER_DOMAIN_CURSOR cbuf0))
      by (simpl; apply lookup_insert_eq).
    unfold ext_screencopy_schedule_capture.
    rewrite (bind_ok _ _ _ _ _ Eacq).
    rewrite (bind_ok _ _ _ _ _ (update_buffer_ok _ _ _ _ Hb)). fold w2.
    simpl surface. rewrite Hsurf. unfold deref at 1.
    rewrite (bind_ok _ _ w2 w2 surf) by reflexivity.
    rewrite (bind_ok _ _ _ _ _ (load_buffer_ok _ _ _ Hb2)).
    rewrite (bind_ok _ _ _ _ _ (emit_sent _ _)).
    rewrite (bind_ok _ _ _ _ _ (for_each_emit _ _ _)). rewrite sent_sent.
    simpl have_cursor. rewrite Hhc. simpl cursor_pool. simpl app. fold w4.
    erewrite (bind_ok _ _ w4).
    2:{ rewrite (bind_ok _ _ _ _ _ Eacq').
        rewrite (bind_ok _ _ _ _ _ (update_buffer_ok _ _ _ _ Hc)).
        rewrite (bind_ok _ _ _ _ _ (load_buffer_ok _ _ _ Hc5)).
        rewrite (bind_ok _ _ _ _ _ (emit_when _ _ _)).
        rewrite (bind_ok _ _ _ _ _ (emit_sent _ _)).
        rewrite sent_sent. reflexivity. }
    rewrite (bind_ok _ _ _ _ _ (emit_sent _ _)). rewrite sent_sent.
    unfold ret, cursor_requests. simpl. rewrite <- app_assoc. reflexivity.
  - unfold ext_screencopy_schedule_capture.
    rewrite (bind_ok _ _ _ _ _ Eacq).
    rewrite (bind_ok _ _ _ _ _ (update_buffer_ok _ _ _ _ Hb)). fold w2.
    simpl surface. rewrite Hsurf. unfold deref at 1.
    rewrite (bind_ok _ _ w2 w2 surf) by reflexivity.
    rewrite (bind_ok _ _ _ _ _ (load_buffer_ok _ _ _ Hb2)).
    rewrite (bind_ok _ _ _ _ _ (emit_sent _ _)).
    rewrite (bind_ok _ _ _ _ _ (for_each_emit _ _ _)). rewrite sent_sent.
    simpl have_cursor. rewrite Hhc. reflexivity.
Qed.

(** Drawing a buffer from one pool leaves every other pool as it is. *)
Lemma acquire_other_pools (p : option handle) (w w1 : world) (r : res handle)
    (q : handle) :
  wv_buffer_pool_acquire p w = (r, w1) ->
  p <> Some q ->
  pools w1 !! q = pools w !! q.
Proof.
  intros E Hq. unfold wv_buffer_pool_acquire in E.
  destruct p as [ph|]; [|now injection E as _ <-].
  unfold deref in E. rewrite (bind_ok _ _ w w ph) in E by reflexivity.
  unfold bind at 1, load_pool in E.
  destruct (pools w !! ph) as [pl|] eqn:Hp; [|now injection E as _ <-].
  destruct (take_reusable_total pl (queue pl) w) as (found & rest & w0 & E0 & Hw0 & _).
  rewrite (bind_ok _ _ _ _ _ E0) in E.
  destruct Hw0 as (_ & _ & Hpools & _ & _).
  unfold bind at 1, modify in E. simpl in E.
  assert (Hne : ph <> q) by congruence.
  destruct found as [b|].
  - injection E as _ <-. simpl. rewrite lookup_insert_ne by exact Hne. now rewrite Hpools.
  - unfold bind, fresh, modify, ret in E. simpl in E. injection E as _ <-. simpl.
    rewrite lookup_insert_ne by exact Hne. now rewrite Hpools.
Qed.

End ExactCapture.

(** ** The cursor *)
Section Cursor.

Variable cfg : build.

Lemma cursor_attachments_app (a b : list request) :
  cursor_attachments (a ++ b) = cursor_attachments a ++ cursor_attachments b.
Proof. unfold cursor_attachments. apply flat_map_app. Qed.

Lemma cursor_attachments_hints (surf : handle) (boxes : list pixman_box16) :
  cursor_attachments (map (damage_hint surf) boxes) = [].
Proof. induction boxes as [|box boxes IH]; [reflexivity|exact IH]. Qed.

Lemma cursor_attachments_capture (surf : handle) (buf : wv_buffer)
    (cur : option wv_buffer) (flags : Z) :
  cursor_attachments (capture_requests surf buf cur flags)
  = match cur with Some cbuf => [wl_buffer cbuf] | None => [] end.
Proof.
  unfold capture_requests.
  change (Attach_buffer surf (wl_buffer buf) :: ?l) with ([Attach_buffer surf (wl_buffer buf)] ++ l).
  rewrite !cursor_attachments_app, cursor_attachments_hints.
  destruct cur as [cbuf|]; simpl; [|reflexivity].
  now destruct (pixman_region_not_empty (buffer_damage cbuf)).
Qed.

(** C6.  Whatever calls and events a session has been through, its
    [have_cursor] is what the last enter or leave signal among them said (or
    what it was before, when there was none): no other call or event changes
    it.  A capture scheduled in that state, whatever the output buffer field
    holds, first draws its output buffer [b] and sends what concerns it.
    If that last signal was enter, the capture then draws a buffer from the
    cursor pool, in the world it has reached by then, keeps it as the
    session's cursor buffer, tags it CURSOR and attaches it, once, before
    the one commit.  If it was leave, the capture goes on to the commit: it
    draws nothing more, leaves every pool but the output pool and the
    session's cursor buffer as they were, and attaches no cursor buffer. *)
Theorem cursor_follows_presence (self : ext_screencopy) (acts : list action)
    (w : world) (s1 : ext_screencopy) (w1 : world) (surf : handle)
    (immediate : bool) :
  run cfg self acts w = (Ok s1, w1) ->
  capture_ready w1 s1 = true ->
  surface s1 = Some surf ->
  let present := last_presence (have_cursor self) acts in
  have_cursor s1 = present
  /\ exists b buf0 wb before,
       wv_buffer_pool_acquire (pool s1) w1 = (Ok b, wb)
       /\ registry wb !! b = Some buf0
       /\ commits before = [] /\ cursor_attachments before = []
       /\ let w2 := sent before
                      (set_registry
                         (fun m => <[b := set_domain WV_BUFFER_DOMAIN_OUTPUT buf0]> m)
                         wb) in
          let flags := commit_flags cfg immediate (render_cursors s1) in
          if present then
            exists c cbuf0 w3,
              wv_buffer_pool_acquire (cursor_pool s1) w2 = (Ok c, w3)
              /\ registry w3 !! c = Some cbuf0
              /\ ext_screencopy_schedule_capture cfg s1 immediate w1
                 = (Ok (set_cursor_buffer (Some c) (set_buffer (Some b) s1)),
                    sent ((if pixman_region_not_empty (buffer_damage cbuf0)
                           then [Damage_cursor_buffer surf "default"] else [])
                          ++ [Attach_cursor_buffer surf (wl_buffer cbuf0) "default";
                              Commit surf flags])
                      (set_registry
                         (fun m => <[c := set_domain WV_BUFFER_DOMAIN_CURSOR cbuf0]> m)
                         w3))
          else
            exists s2 w',
              ext_screencopy_schedule_capture cfg s1 immediate w1 = (Ok s2, w')
              /\ s2 = set_buffer (Some b) s1
              /\ w' = sent [Commit surf flags] w2
              /\ cursor_buffer s2 = cursor_buffer s1
              /\ cursor_attachments (before ++ [Commit surf flags]) = []
              /\ registry w' = <[b := set_domain WV_BUFFER_DOMAIN_OUTPUT buf0]> (registry wb)
              /\ pools w' = pools wb
              /\ forall q, pool s1 <> Some q -> pools w' !! q = pools w1 !! q.
Proof.
  intros Hrun Hready Hsurf present.
  assert (Hhc : have_cursor s1 = present) by exact (run_have_cursor cfg acts self _ _ _ Hrun).
  split; [exact Hhc|].
  destruct (schedule_capture_exact cfg s1 immediate w1 surf Hready Hsurf)
    as (b & buf0 & wb & Eacq & Hb & _ & Hrest).
  exists b, buf0, wb.
  exists (Attach_buffer surf (wl_buffer buf0)
          :: map (damage_hint surf) (pixman_region_rectangles (buffer_damage buf0))).
  split; [exact Eacq|]. split; [exact Hb|].
  split; [exact (commits_hints (damage_hint surf) _ (fun _ => eq_refl))|].
  split; [exact (cursor_attachments_hints surf _)|].
  cbn zeta in Hrest |- *. rewrite <- Hhc.
  destruct (have_cursor s1).
  - destruct Hrest as (c & cbuf0 & w3 & Eacq' & Hc & _ & E).
    exists c, cbuf0, w3. split; [exact Eacq'|]. split; [exact Hc|].
    rewrite E. unfold cursor_requests. simpl. now rewrite <- app_assoc.
  - eexists _, _. split; [exact Hrest|]. split; [reflexivity|]. split; [reflexivity|].
    split; [reflexivity|].
    split.
    { change (Attach_buffer surf (wl_buffer buf0) :: ?l)
        with ([Attach_buffer surf (wl_buffer buf0)] ++ l).
      now rewrite !cursor_attachments_app, cursor_attachments_hints. }
    split; [reflexivity|]. split; [reflexivity|].
    intros q Hq. simpl. exact (acquire_other_pools _ _ _ _ _ Eacq Hq).
Qed.

End Cursor.

Lemma cursor_follows_presence_witness :
  let acts := [Cursor_enter "default"; Start false; Ready; Cursor_leave "default";
               Cursor_enter "default"] in
  let after := run Examples.cfg0 Examples.negotiated acts Examples.world1 in
  exists s1 w1, after = (Ok s1, w1)
  /\ have_cursor s1 = true
  /\ exists b buf0 wb before,
       wv_buffer_pool_acquire (pool s1) w1 = (Ok b, wb)
       /\ registry wb !! b = Some buf0
       /\ commits before = [] /\ cursor_attachments before = []
       /\ exists c cbuf0 w3,
            wv_buffer_pool_acquire (cursor_pool s1)
              (sent before
                 (set_registry
                    (fun m => <[b := set_domain WV_BUFFER_DOMAIN_OUTPUT buf0]> m) wb))
            = (Ok c, w3)
            /\ registry w3 !! c = Some cbuf0
            /\ ext_screencopy_schedule_capture Examples.cfg0 s1 true w1
               = (Ok (set_cursor_buffer (Some c) (set_buffer (Some b) s1)),
                  sent ((if pixman_region_not_empty (buffer_damage cbuf0)
                         then [Damage_cursor_buffer 3 "default"] else [])
                        ++ [Attach_cursor_buffer 3 (wl_buffer cbuf0) "default";
                            Commit 3 (commit_flags Examples.cfg0 true (render_cursors s1))])
                    (set_registry
                       (fun m => <[c := set_domain WV_BUFFER_DOMAIN_CURSOR cbuf0]> m) w3)).
Proof.
  eexists _, _. split; [vm_compute; reflexivity|].
  eapply (cursor_follows_presence Examples.cfg0 Examples.negotiated
           [Cursor_enter "default"; Start false; Ready; Cursor_leave "default";
            Cursor_enter "default"] Examples.world1 _ _ 3 true).
  - vm_compute. reflexivity.
  - vm_compute. reflexivity.
  - reflexivity.
Defined.

(** ** Failure of a capture *)
Section Failure.

Variable cfg : build.

Lemma release_ok (p b : handle) (pl : wv_buffer_pool) (w : world) :
  pools w !! p = Some pl ->
  wv_buffer_pool_release (Some p) (Some b) w
  = (Ok tt, set_pools (fun m => <[p := set_queue (queue pl ++ [b]) pl]> m) w).
Proof.
  intros H. unfold wv_buffer_pool_release, deref, bind, ret, load_pool, modify.
  now rewrite H.
Qed.



End Failure.



(** ** Completion of a capture *)
Section Completion.

Variable cfg : build.

(** The damage signals of one cycle add their rectangles, in order, to the
    frame damage of the buffer in flight and change nothing else. *)
Lemma damage_signals_accumulate (rects : list (Z * Z * Z * Z)) (self : ext_screencopy)
    (w : world) (b : handle) (buf : wv_buffer) :
  buffer self = Some b ->
  registry w !! b = Some buf ->
  exists w1,
    run cfg self (map damage_signal rects) w = (Ok self, w1)
    /\ registry w1
       = <[b := set_frame_damage (frame_damage buf ++ map reported_box rects) buf]>
           (registry w)
    /\ requests w1 = requests w /\ pools w1 = pools w /\ proxies w1 = proxies w.
Proof.
  intros Hb. revert w buf. induction rects as [|[[[x y] wd] ht] rects IH];
    intros w buf Hbuf; simpl.
  - exists w. split; [reflexivity|]. rewrite app_nil_r. split; [|auto].
    symmetry. apply insert_id. rewrite Hbuf. now destruct buf.
  - set (buf1 := set_frame_damage
                   (pixman_region_union_rect (frame_damage buf) x y wd ht) buf).
    set (w0 := set_registry (fun m => <[b := buf1]> m) w).
    assert (Estep : surface_handle_damage self x y wd ht w = (Ok self, w0)).
    { unfold surface_handle_damage, wv_buffer_damage_rect. rewrite Hb.
      unfold deref at 1. rewrite (bind_ok _ _ w w0 tt); [reflexivity|].
      rewrite (bind_ok _ _ w w b) by reflexivity.
      now rewrite (update_buffer_ok _ _ _ _ Hbuf). }
    rewrite (bind_ok _ _ _ _ _ Estep).
    assert (H0 : registry w0 !! b = Some buf1) by (unfold w0; simpl; apply lookup_insert_eq).
    destruct (IH w0 buf1 H0) as (w1 & E & Hreg & Hreq & Hpools & Hprox).
    exists w1. split; [exact E|]. split; [|auto].
    rewrite Hreg. unfold w0. simpl. rewrite insert_insert_eq.
    unfold pixman_region_union_rect, pixman_region_union. rewrite <- app_assoc.
    reflexivity.
Qed.

(** C3, as the code has it.  When the ready signal is handled after the
    damage signals of its cycle, the buffer handed to the callback carries as
    frame damage the frame damage it had when the cycle began followed by the
    reported rectangles, and its own pending damage is empty: what was
    pending there before is dropped, not added to the frame damage.  Every
    other buffer of the OUTPUT domain has the frame damage added to its
    pending damage, buffers of other domains are unchanged, the session holds
    no buffer, and the callback is called exactly once, with DONE and the
    buffer. *)
Theorem ready_delivers_frame_damage (self : ext_screencopy) (w : world)
    (b : handle) (buf : wv_buffer) (rects : list (Z * Z * Z * Z)) :
  buffer self = Some b ->
  registry w !! b = Some buf ->
  let frame := pixman_region_union (frame_damage buf) (map reported_box rects) in
  exists w',
    run cfg self (map damage_signal rects ++ [Ready]) w = (Ok (set_buffer None self), w')
    /\ requests w'
       = requests w ++ [On_done (on_done self) SCREENCOPY_DONE (Some b) (userdata self)]
    /\ registry w' !! b
       = Some (set_buffer_damage pixman_region_clear (set_frame_damage frame buf))
    /\ (forall b', b' <> b ->
          registry w' !! b' = merged frame WV_BUFFER_DOMAIN_OUTPUT <$> registry w !! b')
    /\ pools w' = pools w.
Proof.
  intros Hb Hbuf frame.
  destruct (damage_signals_accumulate rects self w b buf Hb Hbuf)
    as (w1 & E1 & Hreg & Hreq & Hpools & _).
  fold (pixman_region_union (frame_damage buf) (map reported_box rects)) in Hreg.
  fold frame in Hreg. set (buf1 := set_frame_damage frame buf) in *.
  assert (H1 : registry w1 !! b = Some buf1) by (rewrite Hreg; apply lookup_insert_eq).
  set (w2 := set_registry
               (fun m => merged (frame_damage buf1) WV_BUFFER_DOMAIN_OUTPUT <$> m) w1).
  assert (H2 : registry w2 !! b = Some (merged frame WV_BUFFER_DOMAIN_OUTPUT buf1)).
  { unfold w2. simpl. now rewrite lookup_fmap, H1. }
  set (w3 := sent [On_done (on_done self) SCREENCOPY_DONE (Some b) (userdata self)]
               (set_registry
                  (fun m => <[b := set_buffer_damage pixman_region_clear
                                     (merged frame WV_BUFFER_DOMAIN_OUTPUT buf1)]> m) w2)).
  assert (Eready : surface_handle_ready self w1 = (Ok (set_buffer None self), w3)).
  { unfold surface_handle_ready. rewrite Hb. unfold deref at 1.
    rewrite (bind_ok _ _ w1 w1 b) by reflexivity.
    rewrite (bind_ok _ _ _ _ _ (load_buffer_ok _ _ _ H1)).
    rewrite (bind_ok _ _ w1 w2 tt) by reflexivity.
    rewrite (bind_ok _ _ _ _ _ (update_buffer_ok _ _ _ _ H2)).
    now rewrite (bind_ok _ _ _ _ _ (emit_sent _ _)). }
  exists w3. split.
  - rewrite run_app, (bind_ok _ _ _ _ _ E1). simpl run. unfold step.
    now rewrite (bind_ok _ _ _ _ _ Eready).
  - simpl. rewrite Hreq, Hpools. split; [reflexivity|]. split; [|split; [|reflexivity]].
    + rewrite lookup_insert_eq. f_equal. unfold merged, buf1.
      now destruct (domain_eqb _ _).
    + intros b' Hne. rewrite lookup_insert_ne by congruence.
      rewrite lookup_fmap, Hreg. rewrite lookup_insert_ne by congruence. reflexivity.
Qed.

End Completion.

Lemma ready_delivers_frame_damage_witness :
  let self := Examples.committed in
  let w := Examples.world_committed in
  let frame := [Box 0 0 10 10; Box 5 5 15 15] in
  exists w',
    run Examples.cfg0 self [Damage 0 0 10 10; Damage 5 5 10 10; Ready] w
      = (Ok (set_buffer None self), w')
    /\ requests w' = requests w ++ [On_done 102 SCREENCOPY_DONE (Some 5%positive) 103]
    /\ registry w' !! 5%positive
       = Some (set_buffer_damage pixman_region_clear
                 (set_frame_damage frame Examples.stale_buffer))
    /\ (forall b', b' <> 5%positive ->
          registry w' !! b' = merged frame WV_BUFFER_DOMAIN_OUTPUT <$> registry w !! b')
    /\ pools w' = pools w.
Proof.
  apply (ready_delivers_frame_damage Examples.cfg0 Examples.committed
           Examples.world_committed 5 Examples.stale_buffer
           [(0, 0, 10, 10); (5, 5, 10, 10)]); reflexivity.
Defined.

(** C3 as stated fails: a buffer that waited in the pool with the corner
    (0,0)-(10,10) pending is drawn, one rectangle elsewhere is reported, and
    the ready signal delivers it.  The point (5,5) lies in the union of the
    reported damage with what was pending, but in neither damage region of
    the delivered buffer. *)
Lemma ready_damage_omits_staleness :
  exists s' w' delivered,
    run Examples.cfg0 Examples.negotiated [Start false; Damage 20 20 5 5; Ready]
      Examples.world1 = (Ok s', w')
    /\ wv_buffer_pool_acquire (pool Examples.negotiated) Examples.world1
       = (Ok 5%positive, Examples.world_committed)
    /\ registry Examples.world_committed !! 5%positive = Some Examples.stale_buffer
    /\ completions (requests w') = [(SCREENCOPY_DONE, Some 5%positive)]
    /\ registry w' !! 5%positive = Some delivered
    /\ region_contains
         (pixman_region_union [rect_box 20 20 5 5] (buffer_damage Examples.stale_buffer))
         5 5 = true
    /\ region_contains (frame_damage delivered) 5 5 = false
    /\ region_contains (buffer_damage delivered) 5 5 = false
    /\ frame_damage delivered = [rect_box 20 20 5 5].
Proof.
  eexists _, _, _. split; [vm_compute; reflexivity|].
  split; [vm_compute; reflexivity|]. split; [reflexivity|]. split; [reflexivity|].
  split; [vm_compute; reflexivity|]. repeat split.
Qed.

(** ** Creation and destruction *)
Section Lifecycle.

(** With every allocation succeeding, creation gives a session that awaits
    negotiation, holds no buffer, and has its surface and both pools. *)
Lemma create_ready (mgr out done_fn data : handle) (render_cursor : bool) (w : world) :
  alloc_plan w = [] ->
  exists s w',
    ext_screencopy_create mgr out render_cursor done_fn data w = (Ok (Some s), w')
    /\ session_ready w' s = true
    /\ have_buffer_info s = false /\ should_start s = false
    /\ buffer s = None /\ have_cursor s = false /\ render_cursors s = false
    /\ commits (requests w') = commits (requests w).
Proof.
  intros Hplan.
  unfold ext_screencopy_create, wv_buffer_pool_create, ext_screencopy_init_surface,
    bind, ret, modify, emit, fresh, alloc_succeeds.
  rewrite Hplan. simpl. rewrite Hplan. simpl. rewrite Hplan. simpl.
  eexists _, _. split; [reflexivity|]. unfold session_ready, live_pool. simpl.
  rewrite lookup_insert_eq.
  assert (Hne : Pos.succ (next_handle w) <> next_handle w) by lia.
  rewrite lookup_insert_ne by exact Hne. rewrite lookup_insert_eq.
  repeat split. rewrite !commits_app. simpl. now rewrite !app_nil_r.
Qed.

(** C8, on the code.  The calls of [calloc] and of the first pool creation
    succeed and the creation of the cursor pool fails: the test after it
    looks at [pool] again, so the failure goes unnoticed and the caller gets
    a session whose [cursor_pool] is [NULL].  If creating the surface then
    fails as well, the failure path hands that [NULL] to
    [wv_buffer_pool_destroy] and the process ends there, with the output
    pool still alive. *)
Theorem create_misses_cursor_pool_failure (mgr out done_fn data : handle)
    (render_cursor : bool) :
  (exists s w,
     ext_screencopy_create mgr out render_cursor done_fn data
       (Examples.empty_world [true; true; false]) = (Ok (Some s), w)
     /\ cursor_pool s = None
     /\ pool s = Some 1%positive
     /\ surface s = Some 2%positive)
  /\ (exists w,
        ext_screencopy_create mgr out render_cursor done_fn data
          (Examples.empty_world [true; true; false; false]) = (Abort, w)
        /\ live_pool w (Some 1%positive) = true).
Proof.
  split.
  - eexists _, _. split; [vm_compute; reflexivity|]. repeat split.
  - eexists. split; [vm_compute; reflexivity|]. reflexivity.
Qed.

(** The failures [ext_screencopy_create] does notice leave nothing behind. *)
Lemma create_failure_paths (mgr out done_fn data : handle) (render_cursor : bool) :
  ext_screencopy_create mgr out render_cursor done_fn data (Examples.empty_world [false])
  = (Ok None, Examples.empty_world [])
  /\ ext_screencopy_create mgr out render_cursor done_fn data
       (Examples.empty_world [true; false])
     = (Ok None, Examples.empty_world [])
  /\ exists w,
       ext_screencopy_create mgr out render_cursor done_fn data
         (Examples.empty_world [true; true; true; false]) = (Ok None, w)
       /\ pools w = ∅ /\ proxies w = ∅.
Proof.
  split; [reflexivity|]. split; [reflexivity|].
  eexists. split; [vm_compute; reflexivity|]. split; reflexivity.
Qed.

(** C7, on the code.  A session is created, a cursor enters, negotiation
    completes and a capture is started, so that an output buffer and a
    cursor buffer are in flight.  Destroying the session then destroys the
    surface and puts the output buffer back into the output pool, but the
    cursor buffer stays out: it is alive and in no pool. *)
Theorem destroy_leaves_cursor_buffer (mgr out done_fn data : handle) :
  exists s0 w0 s1 w1 b c w2,
    ext_screencopy_create mgr out false done_fn data (Examples.empty_world [])
      = (Ok (Some s0), w0)
    /\ run Examples.cfg0 s0
         [Cursor_enter "default"; Buffer_info BUFFER_TYPE_WL_SHM 1 64 48 256;
          Cursor_buffer_info "default" BUFFER_TYPE_WL_SHM 1 16 16 64; Init_done;
          Start false] w0 = (Ok s1, w1)
    /\ buffer s1 = Some b /\ cursor_buffer s1 = Some c /\ b <> c
    /\ pool s1 = Some 1%positive /\ cursor_pool s1 = Some 2%positive
    /\ ext_screencopy_destroy s1 w1 = (Ok tt, w2)
    /\ proxies w2 = ∅
    /\ queue <$> pools w2 !! 1%positive = Some [b]
    /\ queue <$> pools w2 !! 2%positive = Some []
    /\ is_Some (registry w2 !! c)
    /\ pools w2 = <[1%positive := Examples.shm_pool [b] 64 48 256]>
                     {[2%positive := Examples.shm_pool [] 16 16 64]}
    /\ map_Forall (fun _ pl => c ∉ queue pl) (pools w2).
Proof.
  eexists _, _, _, _, _, _, _. split; [vm_compute; reflexivity|].
  split; [vm_compute; reflexivity|].
  split; [reflexivity|]. split; [reflexivity|]. split; [discriminate|].
  split; [reflexivity|]. split; [reflexivity|].
  split; [vm_compute; reflexivity|].
  split; [reflexivity|]. split; [reflexivity|]. split; [reflexivity|].
  split; [eexists; reflexivity|].
  split; [vm_compute; reflexivity|].
  change (map_Forall (fun _ pl => 6%positive ∉ queue pl)
            (<[1%positive := Examples.shm_pool [4%positive] 64 48 256]>
               ({[2%positive := Examples.shm_pool [] 16 16 64]} : gmap handle wv_buffer_pool))).
  apply map_Forall_insert_2; [apply not_elem_of_cons; split; [discriminate|apply not_elem_of_nil]|].
  apply map_Forall_singleton. apply not_elem_of_nil.
Qed.

End Lifecycle.

(** ** The clipboard source *)
Section Clipboard.

Import DataControl.

(** C10.  Called with length zero, [data_control_to_clipboard] writes one
    line to the log and returns: every field of the state, among them the
    stored clipboard data, its length and both selection handles, is as it
    was, and nothing else happens outside. *)
Theorem to_clipboard_zero_length (self : data_control) (text : list Byte.byte)
    (w : os) :
  exists self' w',
    data_control_to_clipboard self text 0 w = (Ok self', w')
    /\ self' = self
    /\ cb_data self' = cb_data self /\ cb_len self' = cb_len self
    /\ selection self' = selection self
    /\ primary_selection self' = primary_selection self
    /\ events w' = events w ++ [Log_error "data_control_to_clipboard called with 0 length"]
    /\ os_alloc_plan w' = os_alloc_plan w /\ os_next_handle w' = os_next_handle w.
Proof.
  eexists _, _. split; [reflexivity|]. simpl. repeat split.
Qed.

(** A partial write of a clipboard shorter than 2 GiB is logged, is not
    tried again, and the descriptor is closed once. *)
Lemma source_send_partial (self : data_control) (d : list Byte.byte)
    (source : handle) (mime : string) (fd answer : Z) (plan : list Z) (w : os) :
  cb_data self = Some d ->
  0 <= cb_len self < 2 ^ 31 ->
  os_write_plan w = answer :: plan ->
  0 <= answer < cb_len self ->
  exists w',
    data_control_source_send self source mime fd w = (Ok self, w')
    /\ events w' = events w ++ [Sys_write fd (cb_len self) answer;
                                Log_error "write from clipboard incomplete";
                                Sys_close fd].
Proof.
  intros Hd Hlen Hplan Hans.
  unfold data_control_source_send, bind, deref, ret, sys_write, sys_close, send,
    log_error, modify.
  rewrite Hd, Hplan. simpl.
  assert (Ha : (answer <? 0) = false) by (apply Z.ltb_ge; lia). rewrite Ha.
  rewrite Z.min_l by lia.
  assert (Hlt : (Int.to_int answer <? Int.to_int (cb_len self)) = true).
  { apply Z.ltb_lt. unfold Int.to_int.
    rewrite !Z.mod_small by lia. lia. }
  rewrite Hlt. simpl. eexists. split; [reflexivity|]. simpl.
  now rewrite <- !app_assoc.
Qed.

(** C9, on the code.  The stored clipboard is 2 GiB long, and write(2)
    transfers 0x7ffff000 bytes of it, the most Linux transfers in one call:
    a partial write.  [(int)len] is negative, so the test [ret < (int)len]
    fails, nothing is logged, and the descriptor is closed. *)
Theorem source_send_partial_unlogged (self : data_control) (d : list Byte.byte)
    (source : handle) (mime : string) (fd : Z) :
  let len := 2147483648 in
  let written := 2147479552 in
  let self := set_cb_len len (set_cb_data (Some d) self) in
  let w := {| os_next_handle := 1; os_alloc_plan := []; os_write_plan := [written];
              events := [] |} in
  written < len
  /\ Int.to_int len = -2147483648
  /\ data_control_source_send self source mime fd w
     = (Ok self,
        {| os_next_handle := 1; os_alloc_plan := []; os_write_plan := [];
           events := [Sys_write fd len written; Sys_close fd] |}).
Proof.
  split; [reflexivity|]. split; reflexivity.
Qed.

End Clipboard.

(** ** What the primitives keep *)
Section Keeping.

Context {X : Type} (f : world -> X).

Lemma keeps_ret {A : Type} (a : A) : keeps f (ret a).
Proof. intros w r w' [= _ <-]. reflexivity. Qed.

Lemma keeps_abort {A : Type} : keeps f (@abort world A).
Proof. intros w r w' [= _ <-]. reflexivity. Qed.

Lemma keeps_bind {A B : Type} (m : M world A) (k : A -> M world B) :
  keeps f m -> (forall a, keeps f (k a)) -> keeps f (bind m k).
Proof.
  intros Hm Hk w r w' H. destruct (bind_cases _ _ _ _ _ H) as [(a & w1 & E1 & E2)|[E _]].
  - rewrite (Hk a _ _ _ E2). exact (Hm _ _ _ E1).
  - exact (Hm _ _ _ E).
Qed.

Lemma keeps_deref {A : Type} (p : option A) : keeps f (@deref world A p).
Proof. destruct p; [apply keeps_ret|apply keeps_abort]. Qed.

Lemma keeps_gets {A : Type} (g : world -> A) : keeps f (gets g).
Proof. intros w r w' [= _ <-]. reflexivity. Qed.

Lemma keeps_modify (g : world -> world) :
  (forall w, f (g w) = f w) -> keeps f (modify g).
Proof. intros Hg w r w' [= _ <-]. apply Hg. Qed.

Lemma keeps_load_buffer (b : handle) : keeps f (load_buffer b).
Proof.
  intros w r w'. unfold load_buffer. destruct (registry w !! b); intros [= _ <-]; reflexivity.
Qed.

Lemma keeps_load_pool (p : handle) : keeps f (load_pool p).
Proof.
  intros w r w'. unfold load_pool. destruct (pools w !! p); intros [= _ <-]; reflexivity.
Qed.

(** [f] does not look at the registry. *)
Hypothesis f_registry : forall g w, f (set_registry g w) = f w.

Lemma keeps_update_buffer (b : handle) (g : wv_buffer -> wv_buffer) :
  keeps f (update_buffer b g).
Proof.
  apply keeps_bind; [apply keeps_load_buffer|]. intros buf. apply keeps_modify.
  intros w. apply f_registry.
Qed.

Lemma keeps_damage_rect (b : option handle) (x y w h : Z) :
  keeps f (wv_buffer_damage_rect b x y w h).
Proof.
  apply keeps_bind; [apply keeps_deref|]. intros ?. apply keeps_update_buffer.
Qed.

Lemma keeps_damage_whole (b : option handle) : keeps f (wv_buffer_damage_whole b).
Proof.
  apply keeps_bind; [apply keeps_deref|]. intros ?. apply keeps_update_buffer.
Qed.

Lemma keeps_damage_all (r : pixman_region16) (d : wv_buffer_domain) :
  keeps f (wv_buffer_registry_damage_all r d).
Proof. apply keeps_modify. intros w. apply f_registry. Qed.

Lemma keeps_take_reusable (pl : wv_buffer_pool) (q : list handle) :
  keeps f (take_reusable pl q).
Proof.
  induction q as [|b q IH]; simpl; [apply keeps_ret|].
  apply keeps_bind; [apply keeps_gets|]. intros [buf|]; [|exact IH].
  destruct (matches pl buf); [apply keeps_ret|].
  apply keeps_bind; [|intros _; exact IH].
  apply keeps_modify. intros w. apply f_registry.
Qed.

(** [f] does not look at the supply of handles, and not at the queue of a
    pool. *)
Hypothesis f_fresh : forall w, f (snd (fresh w)) = f w.
Hypothesis f_queue : forall w ph pl q,
  pools w !! ph = Some pl ->
  f (set_pools (fun m => <[ph := set_queue q pl]> m) w) = f w.

Lemma keeps_fresh : keeps f fresh.
Proof. intros w r w' E. rewrite <- (f_fresh w). now rewrite E. Qed.

Lemma keeps_release (p b : option handle) : keeps f (wv_buffer_pool_release p b).
Proof.
  unfold wv_buffer_pool_release.
  apply keeps_bind; [apply keeps_deref|]. intros ph.
  apply keeps_bind; [apply keeps_deref|]. intros bh.
  intros w r w' H. unfold bind, load_pool, modify in H.
  destruct (pools w !! ph) as [pl|] eqn:Hp; injection H as _ <-; [|reflexivity].
  now apply f_queue.
Qed.

Lemma keeps_acquire (p : option handle) : keeps f (wv_buffer_pool_acquire p).
Proof.
  unfold wv_buffer_pool_acquire.
  apply keeps_bind; [apply keeps_deref|]. intros ph.
  intros w r w' H. unfold bind at 1, load_pool in H.
  destruct (pools w !! ph) as [pl|] eqn:Hp; [|now injection H as _ <-].
  destruct (take_reusable_total pl (queue pl) w) as (found & rest & w1 & E & Hw1 & _).
  rewrite (bind_ok _ _ _ _ _ E) in H.
  assert (Hf1 : f w1 = f w) by exact (keeps_take_reusable pl (queue pl) _ _ _ E).
  destruct Hw1 as (_ & _ & Hpools & _ & _).
  unfold bind at 1, modify in H. simpl in H.
  assert (Hf2 : f (set_pools (fun m => <[ph := set_queue rest pl]> m) w1) = f w).
  { rewrite <- Hf1. apply f_queue. now rewrite Hpools. }
  destruct found as [b|].
  - injection H as _ <-. exact Hf2.
  - unfold bind, fresh, modify, ret in H. simpl in H. injection H as _ <-.
    rewrite f_registry. rewrite <- Hf2.
    set (wq := set_pools _ w1).
    transitivity (f (snd (fresh (snd (fresh wq))))); [reflexivity|].
    now rewrite !f_fresh.
Qed.

End Keeping.

(** ** What the handlers keep *)
Section KeepingHandlers.

Context {X : Type} (f : world -> X).

(** [f] looks at the pools only, and not at their queues. *)
Hypothesis f_registry : forall g w, f (set_registry g w) = f w.
Hypothesis f_fresh : forall w, f (snd (fresh w)) = f w.
Hypothesis f_queue : forall w ph pl q,
  pools w !! ph = Some pl ->
  f (set_pools (fun m => <[ph := set_queue q pl]> m) w) = f w.
Hypothesis f_sent : forall rs w, f (sent rs w) = f w.
Hypothesis f_alloc : forall w, f (snd (alloc_succeeds w)) = f w.
Hypothesis f_proxies : forall g w, f (set_proxies g w) = f w.

Lemma keeps_emit (r : request) : keeps f (emit r).
Proof. intros w res w' [= _ <-]. apply (f_sent [r]). Qed.

Lemma keeps_for_each_emit (g : pixman_box16 -> request) (boxes : list pixman_box16) :
  keeps f (for_each (fun box => emit (g box)) boxes).
Proof. intros w r w' E. rewrite for_each_emit in E. injection E as _ <-. apply f_sent. Qed.

Lemma keeps_alloc : keeps f alloc_succeeds.
Proof. intros w r w' E. rewrite <- (f_alloc w). now rewrite E. Qed.

Ltac keep :=
  repeat first
    [ apply keeps_ret | apply keeps_abort | apply keeps_deref
    | apply keeps_load_buffer | apply keeps_load_pool
    | apply keeps_update_buffer; assumption
    | apply keeps_damage_rect; assumption
    | apply keeps_damage_whole; assumption
    | apply keeps_damage_all; assumption
    | apply keeps_release; assumption
    | apply keeps_acquire; assumption
    | apply keeps_fresh; assumption
    | apply keeps_alloc | apply keeps_emit | apply keeps_for_each_emit
    | apply keeps_modify; intros ?; apply f_proxies
    | apply keeps_bind; [|intros ?] ].

Lemma keeps_init_surface (self : ext_screencopy) :
  keeps f (ext_screencopy_init_surface self).
Proof.
  unfold ext_screencopy_init_surface. apply keeps_bind.
  - destruct (surface self); keep.
  - intros _. apply keeps_bind; [keep|]. intros [|]; keep.
Qed.

Lemma keeps_schedule_capture (cfg : build) (self : ext_screencopy) (immediate : bool) :
  keeps f (ext_screencopy_schedule_capture cfg self immediate).
Proof.
  unfold ext_screencopy_schedule_capture.
  apply keeps_bind; [keep|]. intros b.
  do 5 (apply keeps_bind; [keep|intros ?]).
  apply keeps_bind; [|intros ?; keep].
  simpl have_cursor. destruct (have_cursor self); [|keep].
  apply keeps_bind; [keep|]. intros c.
  do 2 (apply keeps_bind; [keep|intros ?]).
  apply keeps_bind; [|intros ?; keep].
  destruct (pixman_region_not_empty _); keep.
Qed.

Lemma keeps_start (cfg : build) (self : ext_screencopy) (immediate : bool) :
  keeps f (ext_screencopy_start cfg self immediate).
Proof.
  unfold ext_screencopy_start. destruct (negb (have_buffer_info self)); [keep|].
  apply keeps_bind; [apply keeps_schedule_capture|]. intros ?. keep.
Qed.

Lemma keeps_ready (self : ext_screencopy) : keeps f (surface_handle_ready self).
Proof. unfold surface_handle_ready. keep. Qed.

Lemma keeps_failed (self : ext_screencopy) (reason : failure_reason) :
  keeps f (surface_handle_failed self reason).
Proof.
  unfold surface_handle_failed.
  do 2 (apply keeps_bind; [keep|intros ?]).
  apply keeps_bind; [|intros ?; keep].
  destruct reason; [|keep].
  apply keeps_bind; [apply keeps_init_surface|]. intros ?. keep.
Qed.

Lemma keeps_cursor_info (self : ext_screencopy) (name : string)
    (has_damage px py hx hy : Z) :
  keeps f (surface_handle_cursor_info self name has_damage px py hx hy).
Proof.
  unfold surface_handle_cursor_info. apply keeps_bind; [|intros ?; keep].
  destruct (has_damage =? 0); keep.
Qed.

Lemma keeps_destroy (self : ext_screencopy) : keeps f (ext_screencopy_destroy self).
Proof.
  unfold ext_screencopy_destroy. apply keeps_bind.
  - destruct (surface self); keep.
  - intros _. destruct (buffer self); keep.
Qed.

(** Every call and event but the negotiation-complete signal. *)
Lemma keeps_step (cfg : build) (self : ext_screencopy) (a : action) :
  is_init_done a = false -> keeps f (step cfg self a).
Proof.
  intros Ha. destruct a; simpl; try discriminate; try apply keeps_ret.
  - apply keeps_bind; [apply keeps_start|]. intros ?. keep.
  - unfold surface_handle_damage. keep.
  - apply keeps_cursor_info.
  - unfold surface_handle_transform. keep.
  - apply keeps_ready.
  - apply keeps_failed.
Qed.

Lemma keeps_run_unnegotiated (cfg : build) (acts : list action) (self : ext_screencopy) :
  forallb (fun a => negb (is_init_done a)) acts = true ->
  keeps f (run cfg self acts).
Proof.
  revert self. induction acts as [|a rest IH]; intros self Hacts; simpl;
    [apply keeps_ret|].
  simpl in Hacts. apply andb_prop in Hacts as [Ha Hrest].
  apply keeps_bind; [|intros s; now apply IH].
  apply keeps_step. now apply negb_true_iff.
Qed.

(** [f] does not change when a pool is given a new template either. *)
Hypothesis f_resize : forall w ph pl pl',
  pools w !! ph = Some pl -> f (set_pools (fun m => <[ph := pl']> m) w) = f w.

Lemma keeps_resize (p : option handle) (t : wv_buffer_type) (x y s fm : Z) :
  keeps f (wv_buffer_pool_resize p t x y s fm).
Proof.
  unfold wv_buffer_pool_resize. apply keeps_bind; [apply keeps_deref|]. intros ph.
  intros w r w' H. unfold bind, load_pool, modify in H.
  destruct (pools w !! ph) as [pl|] eqn:Hp; injection H as _ <-; [|reflexivity].
  now apply (f_resize w ph pl).
Qed.

Lemma keeps_init_done (cfg : build) (self : ext_screencopy) :
  keeps f (surface_handle_init_done cfg self).
Proof.
  unfold surface_handle_init_done, resize_to.
  apply keeps_bind; [destruct (_ && _); apply keeps_resize|]. intros _.
  apply keeps_bind; [destruct (_ && _); apply keeps_resize|]. intros _.
  apply keeps_bind; [|intros ?; keep].
  destruct (should_start self); [|keep].
  apply keeps_bind; [apply keeps_schedule_capture|]. intros ?. keep.
Qed.

Lemma keeps_run (cfg : build) (acts : list action) (self : ext_screencopy) :
  keeps f (run cfg self acts).
Proof.
  revert self. induction acts as [|a rest IH]; intros self; simpl; [apply keeps_ret|].
  apply keeps_bind; [|intros s; apply IH].
  destruct (is_init_done a) eqn:Ha; [|now apply keeps_step].
  destruct a; try discriminate. apply keeps_init_done.
Qed.

End KeepingHandlers.

(** ** The pools of a session *)
Section PoolProjections.

Lemma dom_pools_insert (w : world) (ph : handle) (pl pl' : wv_buffer_pool) :
  pools w !! ph = Some pl ->
  dom (pools (set_pools (fun m => <[ph := pl']> m) w)) = dom (pools w).
Proof.
  intros Hp. simpl. rewrite dom_insert_L.
  assert (ph ∈ dom (pools w)) by (apply elem_of_dom; eauto).
  apply subseteq_union_1_L. now apply singleton_subseteq_l.
Qed.

Lemma templates_queue (w : world) (ph : handle) (pl : wv_buffer_pool) (q : list handle) :
  pools w !! ph = Some pl ->
  templates (set_pools (fun m => <[ph := set_queue q pl]> m) w) = templates w.
Proof.
  intros Hp. unfold templates. simpl. rewrite fmap_insert.
  apply insert_id. now rewrite lookup_fmap, Hp.
Qed.

Lemma alloc_keeps_pools (w : world) : pools (snd (alloc_succeeds w)) = pools w.
Proof. unfold alloc_succeeds. now destruct (alloc_plan w). Qed.

End PoolProjections.

Ltac pool_side :=
  first
    [ reflexivity
    | intros; unfold templates; now rewrite alloc_keeps_pools
    | intros; now apply templates_queue
    | intros; eapply dom_pools_insert; eassumption ].

Section Pools.

Variable cfg : build.

(** X1.  After creation a session never creates and never destroys a pool:
    through any calls and events, whether the run returns or aborts, the set
    of live pools is the one it started with, and destroying the session
    leaves it so too.  The allocation template of a pool changes only when
    the negotiation-complete signal is handled. *)
Theorem pools_outlive_session (self : ext_screencopy) (acts : list action) (w : world) :
  let after := run cfg self acts w in
  dom (pools (snd after)) = dom (pools w)
  /\ (forallb (fun a => negb (is_init_done a)) acts = true ->
      templates (snd after) = templates w)
  /\ forall s1, fst after = Ok s1 ->
       let gone := ext_screencopy_destroy s1 (snd after) in
       dom (pools (snd gone)) = dom (pools w)
       /\ templates (snd gone) = templates (snd after).
Proof.
  intros after. unfold after.
  destruct (run cfg self acts w) as [r w1] eqn:E. simpl.
  assert (Hdom : dom (pools w1) = dom (pools w)).
  { eapply (keeps_run (fun w => dom (pools w))); [..|exact E]; pool_side. }
  split; [exact Hdom|]. split.
  - intros Hacts.
    eapply (keeps_run_unnegotiated templates); [..|exact Hacts|exact E]; pool_side.
  - intros s1 ->. destruct (ext_screencopy_destroy s1 w1) as [r2 w2] eqn:E2. simpl. split.
    + rewrite <- Hdom.
      eapply (keeps_destroy (fun w => dom (pools w))); [..|exact E2]; pool_side.
    + eapply (keeps_destroy templates); [..|exact E2]; pool_side.
Qed.

End Pools.

(** ** Counting commits and completions *)
Section Tallies.

Context {A : Type}.

Lemma tally_abort (Q : res A -> nat -> nat -> Prop) :
  Q Abort 0%nat 0%nat -> tally abort Q.
Proof.
  intros HQ w r w' [= <- <-]. exists 0%nat, 0%nat. now rewrite !Nat.add_0_r.
Qed.

Lemma tally_ret (a : A) (Q : res A -> nat -> nat -> Prop) :
  Q (Ok a) 0%nat 0%nat -> tally (ret a) Q.
Proof.
  intros HQ w r w' [= <- <-]. exists 0%nat, 0%nat. now rewrite !Nat.add_0_r.
Qed.

(** A step that does not count, followed by one that does. *)
Lemma tally_after {B : Type} (m : M world B) (k : B -> M world A)
    (R : B -> Prop) (Q : res A -> nat -> nat -> Prop) :
  keeps counts m -> returns m R -> Q Abort 0%nat 0%nat ->
  (forall b, R b -> tally (k b) Q) -> tally (bind m k) Q.
Proof.
  intros Hm HR HQ Hk w r w' H.
  destruct (bind_cases _ _ _ _ _ H) as [(b & w1 & E1 & E2)|[E ->]].
  - destruct (Hk b (HR _ _ _ E1) _ _ _ E2) as (dk & dc & Hk1 & Hc1 & HP).
    assert (Hc := Hm _ _ _ E1). unfold counts in Hc. injection Hc as Hck Hcc.
    exists dk, dc. now rewrite Hk1, Hc1, Hck, Hcc.
  - assert (Hc := Hm _ _ _ E). unfold counts in Hc. injection Hc as Hck Hcc.
    exists 0%nat, 0%nat. now rewrite Hck, Hcc, !Nat.add_0_r.
Qed.

(** A request is sent, and the rest follows. *)
Lemma tally_emit (rq : request) (k : unit -> M world A)
    (Q : res A -> nat -> nat -> Prop) :
  tally (k tt)
    (fun r dk dc => Q r (length (commits [rq]) + dk)%nat (length (completions [rq]) + dc)%nat) ->
  tally (bind (emit rq) k) Q.
Proof.
  intros Hk w r w' H. rewrite (bind_ok _ _ _ _ _ (emit_sent rq w)) in H.
  destruct (Hk _ _ _ H) as (dk & dc & Hk1 & Hc1 & HP).
  eexists _, _. split; [|split; [|exact HP]].
  - rewrite Hk1. simpl. unfold commits. rewrite flat_map_app, length_app. simpl. lia.
  - rewrite Hc1. simpl. unfold completions. rewrite flat_map_app, length_app. simpl. lia.
Qed.

(** The result is passed on through a function. *)
Lemma tally_map {B : Type} (m : M world B) (g : B -> A)
    (P : res B -> nat -> nat -> Prop) (Q : res A -> nat -> nat -> Prop) :
  tally m P ->
  (forall b dk dc, P (Ok b) dk dc -> Q (Ok (g b)) dk dc) ->
  (forall dk dc, P Abort dk dc -> Q Abort dk dc) ->
  tally (bind m (fun b => ret (g b))) Q.
Proof.
  intros Hm Hok Hab w r w' H.
  destruct (bind_cases _ _ _ _ _ H) as [(b & w1 & E1 & E2)|[E ->]].
  - injection E2 as <- <-. destruct (Hm _ _ _ E1) as (dk & dc & ? & ? & HP).
    exists dk, dc. auto.
  - destruct (Hm _ _ _ E) as (dk & dc & ? & ? & HP). exists dk, dc. auto.
Qed.

End Tallies.

Section CountingPrimitives.

Lemma counts_registry (g : gmap handle wv_buffer -> gmap handle wv_buffer) (w : world) :
  counts (set_registry g w) = counts w.
Proof. reflexivity. Qed.

Lemma counts_fresh (w : world) : counts (snd (fresh w)) = counts w.
Proof. reflexivity. Qed.

Lemma counts_queue (w : world) (ph : handle) (pl : wv_buffer_pool) (q : list handle) :
  pools w !! ph = Some pl ->
  counts (set_pools (fun m => <[ph := set_queue q pl]> m) w) = counts w.
Proof. reflexivity. Qed.

Lemma counts_hints (surf : handle) (boxes : list pixman_box16) :
  keeps counts (for_each (fun box => emit (damage_hint surf box)) boxes).
Proof.
  intros w r w' E. rewrite for_each_emit in E. injection E as _ <-.
  unfold counts, sent. simpl. unfold commits, completions. rewrite !flat_map_app.
  fold (commits (map (damage_hint surf) boxes)).
  rewrite commits_hints by reflexivity. rewrite !length_app. simpl. f_equal; [lia|].
  assert (Hc : flat_map (fun r => match r with On_done _ st b _ => [(st, b)] | _ => [] end)
                 (map (damage_hint surf) boxes) = []).
  { induction boxes as [|box boxes IH]; [reflexivity|exact IH]. }
  rewrite Hc. simpl. lia.
Qed.

Lemma counts_resize (p : option handle) (t : wv_buffer_type) (x y s fm : Z) :
  keeps counts (wv_buffer_pool_resize p t x y s fm).
Proof.
  unfold wv_buffer_pool_resize. apply keeps_bind; [apply keeps_deref|]. intros ph.
  apply keeps_bind; [apply keeps_load_pool|]. intros pl. now apply keeps_modify.
Qed.

End CountingPrimitives.

Section CountingHandlers.

Variable cfg : build.

Lemma counts_emit (rq : request) :
  commits [rq] = [] -> completions [rq] = [] -> keeps counts (emit rq).
Proof.
  intros Hk Hc w r w' [= _ <-]. unfold counts. simpl.
  unfold commits, completions in *. rewrite !flat_map_app, !length_app.
  simpl in Hk, Hc. rewrite app_nil_r in Hk, Hc. simpl. rewrite Hk, Hc. simpl.
  f_equal; lia.
Qed.

Lemma tally_of_keeps {A : Type} (m : M world A) (R : A -> Prop) :
  keeps counts m -> returns m R ->
  tally m (fun r dk dc => dk = 0%nat /\ dc = 0%nat /\ forall a, r = Ok a -> R a).
Proof.
  intros Hm HR w r w' E. assert (Hc := Hm _ _ _ E). injection Hc as Hk Hc.
  exists 0%nat, 0%nat. rewrite Hk, Hc, !Nat.add_0_r. repeat split.
  intros x Hx. subst r. exact (HR _ _ _ E).
Qed.

Lemma returns_deref {A : Type} (p : option A) : returns (@deref world A p) (fun a => p = Some a).
Proof. destruct p as [x|]; intros w y w' [= <- _]; reflexivity. Qed.

Ltac count :=
  repeat first
    [ apply keeps_ret | apply keeps_abort | apply keeps_deref
    | apply keeps_load_buffer | apply keeps_load_pool
    | apply keeps_update_buffer; exact counts_registry
    | apply keeps_damage_rect; exact counts_registry
    | apply keeps_damage_whole; exact counts_registry
    | apply keeps_damage_all; exact counts_registry
    | apply keeps_release; exact counts_queue
    | apply keeps_acquire; [exact counts_registry|exact counts_fresh|exact counts_queue]
    | apply keeps_fresh; exact counts_fresh
    | apply counts_hints
    | apply counts_emit; reflexivity
    | apply keeps_modify; intros ?; reflexivity
    | apply keeps_bind; [|intros ?] ].

Lemma counts_alloc : keeps counts alloc_succeeds.
Proof.
  intros w r w' E. unfold alloc_succeeds in E.
  destruct (alloc_plan w); injection E as _ <-; reflexivity.
Qed.

Lemma counts_init_surface (self : ext_screencopy) :
  keeps counts (ext_screencopy_init_surface self).
Proof.
  unfold ext_screencopy_init_surface. apply keeps_bind.
  - destruct (surface self); count.
  - intros _. apply keeps_bind; [apply counts_alloc|]. intros [|]; count.
Qed.

(** A capture adds one commit when it returns, none when it aborts, and no
    completion; afterwards the session holds a buffer. *)
Lemma schedule_capture_tally (self : ext_screencopy) (immediate : bool) :
  tally (ext_screencopy_schedule_capture cfg self immediate)
    (fun r dk dc =>
       dc = 0%nat
       /\ ((r = Abort /\ dk = 0%nat)
           \/ exists s, r = Ok s /\ in_flight s = 1%nat /\ dk = 1%nat)).
Proof.
  unfold ext_screencopy_schedule_capture.
  apply (tally_after _ _ (fun _ => True)); [count|easy|auto|]. intros b _.
  apply (tally_after _ _ (fun _ => True)); [count|easy|auto|]. intros _ _.
  apply (tally_after _ _ (fun _ => True)); [count|easy|auto|]. intros surf _.
  apply (tally_after _ _ (fun _ => True)); [count|easy|auto|]. intros buf _.
  apply tally_emit. simpl.
  apply (tally_after _ _ (fun _ => True)); [count|easy|auto|]. intros _ _.
  apply (tally_after _ _ (fun s => in_flight s = 1%nat)); [| |auto|].
  - simpl have_cursor. destruct (have_cursor self); [|count].
    apply keeps_bind; [count|]. intros c.
    do 2 (apply keeps_bind; [count|intros ?]).
    apply keeps_bind; [destruct (pixman_region_not_empty _); count|]. intros ?. count.
  - simpl have_cursor. destruct (have_cursor self); [|now apply returns_ret].
    do 5 (apply returns_then; intros ?). now apply returns_ret.
  - intros s Hs. apply tally_emit. simpl. apply tally_ret. split; [reflexivity|].
    right. exists s. auto.
Qed.

Lemma ready_tally (self : ext_screencopy) :
  tally (surface_handle_ready self) (ends_capture self).
Proof.
  unfold surface_handle_ready, ends_capture.
  apply (tally_after _ _ (fun b => buffer self = Some b));
    [count|apply returns_deref|auto|]. intros b Hb.
  apply (tally_after _ _ (fun _ => True)); [count|easy|auto|]. intros buf _.
  apply (tally_after _ _ (fun _ => True)); [count|easy|auto|]. intros _ _.
  apply (tally_after _ _ (fun _ => True)); [count|easy|auto|]. intros _ _.
  apply tally_emit. simpl. apply tally_ret. split; [reflexivity|].
  right. eexists. split; [reflexivity|]. unfold in_flight. simpl. now rewrite Hb.
Qed.

Lemma failed_tally (self : ext_screencopy) (reason : failure_reason) :
  tally (surface_handle_failed self reason) (ends_capture self).
Proof.
  unfold surface_handle_failed, ends_capture.
  apply (tally_after _ _ (fun b => buffer self = Some b));
    [count|apply returns_deref|auto|]. intros b Hb.
  apply (tally_after _ _ (fun _ => True)); [count|easy|auto|]. intros _ _.
  apply (tally_after _ _ (fun s => in_flight s = 0%nat)); [| |auto|].
  - destruct reason; [|count].
    apply keeps_bind; [apply counts_init_surface|]. intros ?. count.
  - destruct reason; [|now apply returns_ret].
    apply (returns_bind _ _ (fun r => in_flight (fst r) = 0%nat)).
    + now apply (returns_init_surface _ (fun s => in_flight s = 0%nat)).
    + intros r Hr. now apply returns_ret.
  - intros s Hs. apply tally_emit. simpl. apply tally_ret. split; [reflexivity|].
    right. exists s. unfold in_flight at 2. now rewrite Hb.
Qed.

(** What every call and event does to the balance of completions against
    commits. *)
Lemma step_tally (self : ext_screencopy) (a : action) :
  tally (step cfg self a)
    (fun r dk dc => (dc + in_flight_after r <= dk + in_flight self)%nat).
Proof.
  assert (Hquiet : forall m : M world ext_screencopy,
            keeps counts m -> returns m (fun s => buffer s = buffer self) ->
            tally m (fun r dk dc => (dc + in_flight_after r <= dk + in_flight self)%nat)).
  { intros m Hm Hr w r w' E.
    destruct (tally_of_keeps m _ Hm Hr _ _ _ E) as (dk & dc & ? & ? & -> & -> & Hb).
    exists 0%nat, 0%nat. repeat split; try assumption.
    destruct r as [s|]; simpl; [|lia]. unfold in_flight. rewrite (Hb s eq_refl). lia. }
  assert (Hcap : forall (s0 : ext_screencopy) (imm : bool) (g : ext_screencopy -> ext_screencopy),
            (forall s, in_flight (g s) = in_flight s) ->
            tally (bind (ext_screencopy_schedule_capture cfg s0 imm) (fun s => ret (g s)))
              (fun r dk dc => (dc + in_flight_after r <= dk + in_flight self)%nat)).
  { intros s0 imm g Hg. eapply tally_map; [apply schedule_capture_tally| |].
    - intros s dk dc (-> & [[? _]|(s' & [= <-] & Hs & ->)]); [discriminate|].
      simpl. rewrite Hg, Hs. lia.
    - intros dk dc (-> & _). simpl. lia. }
  assert (Hend : forall m : M world ext_screencopy,
            tally m (ends_capture self) ->
            tally m (fun r dk dc => (dc + in_flight_after r <= dk + in_flight self)%nat)).
  { intros m Hm w r w' E. destruct (Hm _ _ _ E) as (dk & dc & ? & ? & -> & H).
    exists 0%nat, dc. repeat split; try assumption.
    destruct H as [[-> ->]|(s & -> & Hs & -> & Hself)]; simpl; lia. }
  destruct a; simpl; try (apply Hquiet; [apply keeps_ret|now apply returns_ret]).
  - (* start *)
    unfold ext_screencopy_start. destruct (negb (have_buffer_info self)).
    + apply Hquiet; [count|].
      apply (returns_bind _ _ (fun r => buffer (fst r) = buffer self));
        [now apply returns_ret|]. intros r Hr. now apply returns_ret.
    + intros w r w' E.
      apply (Hcap self immediate (fun s => s) (fun s => eq_refl) w r w').
      rewrite <- E. unfold bind, ret.
      destruct (ext_screencopy_schedule_capture cfg self immediate w) as [[s|] w1];
        reflexivity.
  - (* init_done *)
    unfold surface_handle_init_done, resize_to.
    apply (tally_after _ _ (fun _ => True));
      [destruct (_ && _); apply counts_resize|easy|simpl; lia|]. intros _ _.
    apply (tally_after _ _ (fun _ => True));
      [destruct (_ && _); apply counts_resize|easy|simpl; lia|]. intros _ _.
    destruct (should_start self).
    + intros w r w' E.
      apply (Hcap self (shall_be_immediate self)
               (fun s => set_have_buffer_info true
                           (set_shall_be_immediate false (set_should_start false s)))
               (fun s => eq_refl) w r w').
      rewrite <- E. unfold bind, ret.
      destruct (ext_screencopy_schedule_capture cfg self (shall_be_immediate self) w)
        as [[s|] w1]; reflexivity.
    + apply Hquiet; [count|].
      apply (returns_bind _ _ (fun s => buffer s = buffer self));
        [now apply returns_ret|]. intros s Hs. now apply returns_ret.
  - (* damage *)
    apply Hquiet; [unfold surface_handle_damage; count|].
    unfold surface_handle_damage. apply returns_then. intros _. now apply returns_ret.
  - (* cursor_info *)
    apply Hquiet.
    + unfold surface_handle_cursor_info.
      apply keeps_bind; [destruct (has_damage =? 0); count|]. intros _. count.
    + unfold surface_handle_cursor_info. do 6 (apply returns_then; intros ?).
      now apply returns_ret.
  - (* transform *)
    apply Hquiet; [unfold surface_handle_transform; count|].
    unfold surface_handle_transform. do 2 (apply returns_then; intros ?).
    now apply returns_ret.
  - (* ready *)
    apply Hend. apply ready_tally.
  - (* failed *)
    apply Hend. apply failed_tally.
Qed.

(** X2.  A session never calls the completion callback more often than it
    has committed captures: through any calls and events, whether the run
    returns or aborts, the completions it adds, plus one if it still holds a
    buffer, are at most the commits it adds, plus one if it held a buffer at
    the start. *)
Theorem completions_never_exceed_commits (self : ext_screencopy)
    (acts : list action) (w : world) :
  let after := run cfg self acts w in
  (length (completions (requests (snd after))) + length (commits (requests w))
   + in_flight_after (fst after)
   <= length (completions (requests w)) + length (commits (requests (snd after)))
      + in_flight self)%nat.
Proof.
  revert self w. induction acts as [|a rest IH]; intros self w; simpl.
  - lia.
  - unfold bind. destruct (step cfg self a w) as [[s1|] w1] eqn:E.
    + destruct (step_tally self a _ _ _ E) as (dk & dc & Hk & Hc & Hstep).
      specialize (IH s1 w1). simpl in IH, Hstep. lia.
    + destruct (step_tally self a _ _ _ E) as (dk & dc & Hk & Hc & Hstep).
      simpl in *. lia.
Qed.

End CountingHandlers.

(** ** Negotiated geometry *)
Section Geometry.

Variable cfg : build.

(** What the handlers other than reconfig and the two buffer_info handlers
    leave alone: everything that does not read the fields they set. *)
Lemma step_frame {Y : Type} (g : ext_screencopy -> Y) (self : ext_screencopy) (a : action) :
  (forall v s, g (set_buffer v s) = g s) ->
  (forall v s, g (set_cursor_buffer v s) = g s) ->
  (forall v s, g (set_surface v s) = g s) ->
  (forall v s, g (set_should_start v s) = g s) ->
  (forall v s, g (set_shall_be_immediate v s) = g s) ->
  (forall v s, g (set_have_buffer_info v s) = g s) ->
  (forall v s, g (set_have_cursor v s) = g s) ->
  match a with
  | Reconfig | Buffer_info _ _ _ _ _ | Cursor_buffer_info _ _ _ _ _ _ => False
  | _ => True
  end ->
  returns (step cfg self a) (fun s => g s = g self).
Proof.
  intros Hb Hcb Hsf Hss Hsi Hbi Hhc Ha.
  assert (Hcap : forall s0 imm, g s0 = g self ->
            returns (ext_screencopy_schedule_capture cfg s0 imm) (fun s => g s = g self)).
  { intros s0 imm H0. apply returns_schedule_capture; intros; now rewrite ?Hcb, Hb. }
  destruct a; simpl; try contradiction; try (now apply returns_ret).
  - apply (returns_bind _ _ (fun r => g (fst r) = g self)).
    + unfold ext_screencopy_start. destruct (negb (have_buffer_info self)).
      * apply returns_ret. simpl. now rewrite Hsi, Hss.
      * eapply returns_bind; [now apply Hcap|]. intros s Hs. now apply returns_ret.
    + intros r Hr. now apply returns_ret.
  - apply returns_ret. unfold surface_handle_cursor_enter. apply Hhc.
  - apply returns_ret. unfold surface_handle_cursor_leave. apply Hhc.
  - unfold surface_handle_init_done. do 2 (apply returns_then; intros ?).
    apply (returns_bind _ _ (fun s => g s = g self)).
    + destruct (should_start self); [|now apply returns_ret].
      eapply returns_bind; [now apply Hcap|]. intros s Hs. apply returns_ret.
      now rewrite Hsi, Hss.
    + intros s Hs. apply returns_ret. now rewrite Hbi.
  - unfold surface_handle_damage. apply returns_then. intros _. now apply returns_ret.
  - unfold surface_handle_cursor_info. do 6 (apply returns_then; intros ?).
    now apply returns_ret.
  - unfold surface_handle_transform. do 2 (apply returns_then; intros ?).
    now apply returns_ret.
  - unfold surface_handle_ready. do 5 (apply returns_then; intros ?).
    apply returns_ret. apply Hb.
  - unfold surface_handle_failed. do 2 (apply returns_then; intros ?).
    apply (returns_bind _ _ (fun s => g s = g self)).
    + destruct reason; [|apply returns_ret; apply Hb].
      apply (returns_bind _ _ (fun r => g (fst r) = g self)).
      * apply (returns_init_surface _ (fun s => g s = g self)). intros v.
        now rewrite Hsf, Hb.
      * intros r Hr. now apply returns_ret.
    + intros s Hs. apply returns_then. intros _. now apply returns_ret.
Qed.

Lemma step_negotiation_view (self : ext_screencopy) (a : action) :
  have_linux_dmabuf (output self) = false ->
  have_linux_dmabuf (cursor self) = false ->
  returns (step cfg self a)
    (fun s => negotiation_view s
              = (pool self, cursor_pool self, false, false,
                 last_output_shm (shm_geometry (output self)) [a],
                 last_cursor_shm (shm_geometry (cursor self)) [a])).
Proof.
  intros Ho Hc.
  assert (Hself : negotiation_view self
                  = (pool self, cursor_pool self, false, false,
                     shm_geometry (output self), shm_geometry (cursor self)))
    by (unfold negotiation_view; now rewrite Ho, Hc).
  destruct a;
    try (simpl last_output_shm; simpl last_cursor_shm; rewrite <- Hself;
         apply (step_frame negotiation_view); try reflexivity; exact I).
  - (* reconfig *)
    simpl. apply returns_ret. unfold negotiation_view. simpl. now rewrite Hc.
  - (* buffer_info *)
    simpl step. apply returns_ret. unfold negotiation_view. simpl.
    destruct ty; simpl; rewrite ?Ho, ?Hc; [reflexivity|].
    destruct (ENABLE_SCREENCOPY_DMABUF cfg); simpl; now rewrite ?Ho, ?Hc.
  - (* cursor_buffer_info *)
    simpl step. apply returns_ret. unfold negotiation_view. simpl.
    destruct ty; simpl; rewrite ?Ho, ?Hc; [reflexivity|].
    destruct (ENABLE_SCREENCOPY_DMABUF cfg); simpl; now rewrite ?Ho, ?Hc.
Qed.

Lemma last_output_shm_cons (before : wv_buffer_type * Z * Z * Z * Z) (a : action)
    (rest : list action) :
  last_output_shm before (a :: rest) = last_output_shm (last_output_shm before [a]) rest.
Proof. destruct a; try reflexivity. now destruct ty. Qed.

Lemma last_cursor_shm_cons (before : wv_buffer_type * Z * Z * Z * Z) (a : action)
    (rest : list action) :
  last_cursor_shm before (a :: rest) = last_cursor_shm (last_cursor_shm before [a]) rest.
Proof. destruct a; try reflexivity. now destruct ty. Qed.

Lemma run_negotiation_view (acts : list action) (self : ext_screencopy) :
  have_linux_dmabuf (output self) = false ->
  have_linux_dmabuf (cursor self) = false ->
  returns (run cfg self acts)
    (fun s => negotiation_view s
              = (pool self, cursor_pool self, false, false,
                 last_output_shm (shm_geometry (output self)) acts,
                 last_cursor_shm (shm_geometry (cursor self)) acts)).
Proof.
  revert self. induction acts as [|a rest IH]; intros self Ho Hc; simpl run.
  - apply returns_ret. unfold negotiation_view. now rewrite Ho, Hc.
  - eapply returns_bind; [now apply step_negotiation_view|].
    intros s Hs. rewrite last_output_shm_cons, last_cursor_shm_cons.
    remember (last_output_shm (shm_geometry (output self)) [a]) as go.
    remember (last_cursor_shm (shm_geometry (cursor self)) [a]) as gc.
    unfold negotiation_view in Hs. injection Hs as Hp Hcp Hdo Hdc Hgo Hgc.
    rewrite <- Hgo, <- Hgc, <- Hp, <- Hcp. now apply IH.
Qed.

Lemma resize_to_shm (ph : handle) (d : domain_info) (w w' : world) :
  have_linux_dmabuf d = false ->
  resize_to cfg (Some ph) d w = (Ok tt, w') ->
  templates w' = <[ph := shm_geometry d]> (templates w).
Proof.
  intros Hd. unfold resize_to. rewrite Hd, andb_false_r.
  unfold wv_buffer_pool_resize, deref, bind, ret, load_pool, modify.
  destruct (pools w !! ph) as [pl|]; [|discriminate]. intros [= <-].
  unfold templates. simpl. now rewrite fmap_insert.
Qed.

(** X3.  No handler ever sets [have_linux_dmabuf].  So for a session that
    starts with both flags clear, as creation leaves them, whatever calls
    and events came before, and whether or not the build enables dmabuf:
    when the negotiation-complete signal has been handled, the output pool's
    template is the shared-memory geometry of the last wl_shm [buffer_info]
    event, the cursor pool's that of the last wl_shm [cursor_buffer_info]
    event (a dmabuf geometry never reaches a pool), and negotiation counts
    as complete. *)
Theorem negotiation_resizes_to_shm (self : ext_screencopy) (acts : list action)
    (w : world) (s2 : ext_screencopy) (w2 : world) (p c : handle) :
  have_linux_dmabuf (output self) = false ->
  have_linux_dmabuf (cursor self) = false ->
  pool self = Some p ->
  cursor_pool self = Some c ->
  p <> c ->
  run cfg self (acts ++ [Init_done]) w = (Ok s2, w2) ->
  templates w2 !! p = Some (last_output_shm (shm_geometry (output self)) acts)
  /\ templates w2 !! c = Some (last_cursor_shm (shm_geometry (cursor self)) acts)
  /\ have_linux_dmabuf (output s2) = false
  /\ have_linux_dmabuf (cursor s2) = false
  /\ have_buffer_info s2 = true.
Proof.
  intros Ho Hc Hp Hcp Hne Hrun. rewrite run_app in Hrun.
  apply bind_ok_inv in Hrun as (s1 & w1 & E1 & Hrun).
  assert (Hview := run_negotiation_view acts self Ho Hc _ _ _ E1).
  remember (last_output_shm (shm_geometry (output self)) acts) as go.
  remember (last_cursor_shm (shm_geometry (cursor self)) acts) as gc.
  unfold negotiation_view in Hview. injection Hview as Hp1 Hcp1 Ho1 Hc1 Hgo Hgc.
  simpl run in Hrun. apply bind_ok_inv in Hrun as (s' & w' & Einit & Hret).
  injection Hret as <- <-. unfold step, surface_handle_init_done in Einit.
  rewrite Hp1, Hcp1, Hp, Hcp in Einit.
  apply bind_ok_inv in Einit as ([] & wa & Ea & Einit).
  apply bind_ok_inv in Einit as ([] & wb & Eb & Einit).
  apply bind_ok_inv in Einit as (s3 & wc & Eblock & Hret).
  injection Hret as <- <-.
  assert (Hta := resize_to_shm p _ _ _ Ho1 Ea).
  assert (Htb := resize_to_shm c _ _ _ Hc1 Eb).
  assert (Htc : templates wc = templates wb).
  { destruct (should_start s1).
    - apply bind_ok_inv in Eblock as (s4 & wd & Ecap & Hret). injection Hret as _ <-.
      eapply (keeps_schedule_capture templates); [..|exact Ecap]; pool_side.
    - now injection Eblock as _ <-. }
  assert (Hs3 : have_linux_dmabuf (output s3) = false
                /\ have_linux_dmabuf (cursor s3) = false).
  { destruct (should_start s1).
    - apply bind_ok_inv in Eblock as (s4 & wd & Ecap & Hret). injection Hret as <- _.
      simpl. refine (returns_schedule_capture cfg s1 _
                       (fun s => have_linux_dmabuf (output s) = false
                                 /\ have_linux_dmabuf (cursor s) = false) _ _ _ _ _ Ecap);
        intros; simpl; auto.
    - injection Eblock as <- _. auto. }
  rewrite Htc, Htb, Hta, Hgo, Hgc. split; [|split; [|split; [|split]]].
  - rewrite lookup_insert_ne by congruence. apply lookup_insert_eq.
  - apply lookup_insert_eq.
  - simpl. apply Hs3.
  - simpl. apply Hs3.
  - reflexivity.
Qed.

End Geometry.

Lemma negotiation_resizes_to_shm_witness :
  let dmabuf := {| ENABLE_SCREENCOPY_DMABUF := true; OPTIONS_NONE := 0;
                   OPTIONS_IMMEDIATE := 1; OPTIONS_RENDER_CURSORS := 2 |} in
  let acts := [Buffer_info BUFFER_TYPE_DMABUF 7 1920 1080 0;
               Buffer_info BUFFER_TYPE_WL_SHM 1 80 60 320; Start true;
               Cursor_buffer_info "default" BUFFER_TYPE_WL_SHM 1 24 24 96] in
  let after := run dmabuf Examples.awaiting (acts ++ [Init_done]) Examples.world1 in
  templates (snd after) !! 1%positive = Some (WV_BUFFER_SHM, 80, 60, 320, 1)
  /\ templates (snd after) !! 2%positive = Some (WV_BUFFER_SHM, 24, 24, 96, 1).
Proof.
  intros dmabuf acts after.
  destruct (run dmabuf Examples.awaiting (acts ++ [Init_done]) Examples.world1)
    as [r w2] eqn:E.
  assert (Hr : exists s2, r = Ok s2).
  { assert (H := f_equal fst E). vm_compute in H. rewrite <- H. eauto. }
  destruct Hr as [s2 ->].
  destruct (negotiation_resizes_to_shm dmabuf Examples.awaiting acts Examples.world1
              s2 w2 1 2) as (H1 & H2 & _); try reflexivity; try discriminate.
  - exact E.
  - unfold after. simpl snd. split; [exact H1|exact H2].
Defined.

(** ** One capture cycle *)
Section Cycle.

Variable cfg : build.

Lemma ready_ok (self : ext_screencopy) (w : world) (b : handle) (buf : wv_buffer) :
  buffer self = Some b ->
  registry w !! b = Some buf ->
  surface_handle_ready self w
  = (Ok (set_buffer None self),
     sent [On_done (on_done self) SCREENCOPY_DONE (Some b) (userdata self)]
       (set_registry
          (fun m => <[b := set_buffer_damage pixman_region_clear buf]>
                      (merged (frame_damage buf) WV_BUFFER_DOMAIN_OUTPUT <$> m)) w)).
Proof.
  intros Hb Hbuf.
  set (w2 := set_registry
               (fun m => merged (frame_damage buf) WV_BUFFER_DOMAIN_OUTPUT <$> m) w).
  assert (H2 : registry w2 !! b
               = Some (merged (frame_damage buf) WV_BUFFER_DOMAIN_OUTPUT buf)).
  { unfold w2. simpl. now rewrite lookup_fmap, Hbuf. }
  unfold surface_handle_ready. rewrite Hb. unfold deref at 1.
  rewrite (bind_ok _ _ w w b) by reflexivity.
  rewrite (bind_ok _ _ _ _ _ (load_buffer_ok _ _ _ Hbuf)).
  rewrite (bind_ok _ _ w w2 tt) by reflexivity.
  rewrite (bind_ok _ _ _ _ _ (update_buffer_ok _ _ _ _ H2)).
  rewrite (bind_ok _ _ _ _ _ (emit_sent _ _)). unfold ret. do 2 f_equal.
  unfold w2, set_registry. simpl. do 2 f_equal. unfold merged.
  now destruct (domain_eqb _ _).
Qed.

(** The events of a cycle change the buffer in flight and nothing else:
    damage rectangles join its frame damage in order, and it has the
    orientation of the last transform. *)
Lemma cycle_events_accumulate (acts : list action) (self : ext_screencopy)
    (w : world) (b : handle) (buf : wv_buffer) :
  forallb is_cycle_event acts = true ->
  buffer self = Some b ->
  registry w !! b = Some buf ->
  exists w1,
    run cfg self acts w = (Ok self, w1)
    /\ registry w1
       = <[b := set_transform (last_transform (nvnc_fb_transform buf) acts)
                  (set_frame_damage (frame_damage buf ++ reported acts) buf)]>
           (registry w)
    /\ requests w1 = requests w /\ pools w1 = pools w /\ proxies w1 = proxies w.
Proof.
  intros Hacts Hb. revert w buf. induction acts as [|a acts IH]; intros w buf Hbuf.
  - exists w. split; [reflexivity|]. simpl. rewrite app_nil_r. split; [|auto].
    symmetry. apply insert_id. rewrite Hbuf. now destruct buf.
  - simpl in Hacts. apply andb_prop in Hacts as [Ha Hrest].
    assert (Hstep : exists buf1,
              step cfg self a w = (Ok self, set_registry (fun m => <[b := buf1]> m) w)
              /\ buf1 = set_transform (last_transform (nvnc_fb_transform buf) [a])
                          (set_frame_damage (frame_damage buf ++ reported [a]) buf)).
    { destruct a; try discriminate; simpl step.
      - eexists. split; [|reflexivity].
        unfold surface_handle_damage, wv_buffer_damage_rect. rewrite Hb.
        unfold deref at 1.
        erewrite (bind_ok _ _ w _ tt); [reflexivity|].
        rewrite (bind_ok _ _ w w b) by reflexivity.
        rewrite (update_buffer_ok _ _ _ _ Hbuf). reflexivity.
      - exists buf. split.
        + unfold ret, surface_handle_commit_time. f_equal.
          destruct w. unfold set_registry. simpl. f_equal.
          symmetry. now apply insert_id.
        + simpl. rewrite app_nil_r. now destruct buf.
      - eexists. split.
        + unfold surface_handle_transform. rewrite Hb. unfold deref at 1.
          rewrite (bind_ok _ _ w w b) by reflexivity.
          rewrite (bind_ok _ _ _ _ _ (update_buffer_ok _ _ _ _ Hbuf)). reflexivity.
        + simpl. rewrite app_nil_r. now destruct buf. }
    destruct Hstep as (buf1 & Estep & Hbuf1).
    set (w0 := set_registry (fun m => <[b := buf1]> m) w) in *.
    assert (H0 : registry w0 !! b = Some buf1) by (unfold w0; simpl; apply lookup_insert_eq).
    destruct (IH Hrest w0 buf1 H0) as (w1 & E & Hreg & Hreq & Hpools & Hprox).
    exists w1. split.
    + simpl run. now rewrite (bind_ok _ _ _ _ _ Estep).
    + split; [|auto]. rewrite Hreg. unfold w0. simpl. rewrite insert_insert_eq.
      f_equal. rewrite Hbuf1. destruct a; try discriminate; simpl;
        rewrite ?app_nil_r, <- ?app_assoc; reflexivity.
Qed.

(** X4.  Between the commit and the ready signal, transform events set the
    orientation of the buffer in flight and damage events add to its frame
    damage, in any interleaving.  The buffer the ready signal delivers has
    the orientation of the last transform event of the cycle (its old one if
    there was none) and the reported rectangles in its frame damage; no other
    buffer has its orientation changed, and the callback is called once. *)
Theorem ready_delivers_last_transform (self : ext_screencopy) (acts : list action)
    (w : world) (b : handle) (buf : wv_buffer) :
  forallb is_cycle_event acts = true ->
  buffer self = Some b ->
  registry w !! b = Some buf ->
  exists w' delivered,
    run cfg self (acts ++ [Ready]) w = (Ok (set_buffer None self), w')
    /\ requests w'
       = requests w ++ [On_done (on_done self) SCREENCOPY_DONE (Some b) (userdata self)]
    /\ registry w' !! b = Some delivered
    /\ nvnc_fb_transform delivered = last_transform (nvnc_fb_transform buf) acts
    /\ frame_damage delivered = frame_damage buf ++ reported acts
    /\ buffer_damage delivered = []
    /\ forall b' other,
         b' <> b -> registry w !! b' = Some other ->
         exists other',
           registry w' !! b' = Some other'
           /\ nvnc_fb_transform other' = nvnc_fb_transform other
           /\ frame_damage other' = frame_damage other.
Proof.
  intros Hacts Hb Hbuf.
  destruct (cycle_events_accumulate acts self w b buf Hacts Hb Hbuf)
    as (w1 & E1 & Hreg & Hreq & _).
  set (buf1 := set_transform _ _) in Hreg.
  assert (H1 : registry w1 !! b = Some buf1) by (rewrite Hreg; apply lookup_insert_eq).
  eexists _, _. split.
  - rewrite run_app, (bind_ok _ _ _ _ _ E1). simpl run. unfold step.
    now rewrite (bind_ok _ _ _ _ _ (ready_ok self w1 b buf1 Hb H1)).
  - simpl. rewrite Hreq. split; [reflexivity|]. rewrite lookup_insert_eq.
    split; [reflexivity|]. split; [reflexivity|]. split; [reflexivity|].
    split; [reflexivity|].
    intros b' other Hne Hother. rewrite lookup_insert_ne by congruence.
    rewrite lookup_fmap, Hreg, lookup_insert_ne by congruence. rewrite Hother. simpl.
    eexists. split; [reflexivity|]. unfold merged.
    destruct (domain_eqb _ _); split; reflexivity.
Qed.

End Cycle.

Lemma ready_delivers_last_transform_witness :
  exists w' delivered,
    run Examples.cfg0 Examples.committed
      ([Transform 1; Damage 0 0 4 4; Transform 3; Damage 8 8 2 2] ++ [Ready])
      Examples.world_committed = (Ok (set_buffer None Examples.committed), w')
    /\ requests w'
       = requests Examples.world_committed
         ++ [On_done 102 SCREENCOPY_DONE (Some 5%positive) 103]
    /\ registry w' !! 5%positive = Some delivered
    /\ nvnc_fb_transform delivered = 3
    /\ frame_damage delivered = [] ++ [Box 0 0 4 4; Box 8 8 10 10]
    /\ buffer_damage delivered = []
    /\ forall b' other,
         b' <> 5%positive -> registry Examples.world_committed !! b' = Some other ->
         exists other',
           registry w' !! b' = Some other'
           /\ nvnc_fb_transform other' = nvnc_fb_transform other
           /\ frame_damage other' = frame_damage other.
Proof.
  apply (ready_delivers_last_transform Examples.cfg0 Examples.committed
           [Transform 1; Damage 0 0 4 4; Transform 3; Damage 8 8 2 2]
           Examples.world_committed 5 Examples.stale_buffer); reflexivity.
Defined.
(** ** The requests of one capture *)
Section Hints.

Variable cfg : build.








End Hints.


(** ** From one capture to the next *)
Section NextCapture.

Variable cfg : build.





End NextCapture.


(** ** The cursor buffer *)
Section CursorInfo.

Lemma cursor_info_ok (self : ext_screencopy) (name : string)
    (has_damage px py hx hy : Z) (w : world) (c cp : handle) (cbuf : wv_buffer)
    (cpl : wv_buffer_pool) :
  cursor_buffer self = Some c ->
  registry w !! c = Some cbuf ->
  cursor_pool self = Some cp ->
  pools w !! cp = Some cpl ->
  let frame := if has_damage =? 0 then frame_damage cbuf
               else pixman_region_union_rect (frame_damage cbuf) 0 0
                      (width cbuf) (height cbuf) in
  exists w',
    surface_handle_cursor_info self name has_damage px py hx hy w = (Ok self, w')
    /\ requests w' = requests w
    /\ proxies w' = proxies w
    /\ pools w' = <[cp := set_queue (queue cpl ++ [c]) cpl]> (pools w)
    /\ registry w' !! c
       = Some (set_buffer_damage pixman_region_clear (set_frame_damage frame cbuf))
    /\ forall b', b' <> c ->
         registry w' !! b' = merged frame WV_BUFFER_DOMAIN_CURSOR <$> registry w !! b'.
Proof.
  intros Hc Hcbuf Hcp Hcpl frame.
  set (cbuf1 := set_frame_damage frame cbuf).
  assert (Hfirst : exists w1,
            (if has_damage =? 0 then ret tt else wv_buffer_damage_whole (cursor_buffer self)) w
            = (Ok tt, w1)
            /\ registry w1 = <[c := cbuf1]> (registry w)
            /\ requests w1 = requests w /\ pools w1 = pools w /\ proxies w1 = proxies w).
  { unfold cbuf1, frame. destruct (has_damage =? 0).
    - exists w. split; [reflexivity|]. split; [|auto].
      symmetry. apply insert_id. rewrite Hcbuf. now destruct cbuf.
    - eexists. split.
      + unfold wv_buffer_damage_whole. rewrite Hc. unfold deref at 1.
        rewrite (bind_ok _ _ w w c) by reflexivity.
        now rewrite (update_buffer_ok _ _ _ _ Hcbuf).
      + simpl. auto. }
  destruct Hfirst as (w1 & E1 & Hreg1 & Hreq1 & Hpools1 & Hprox1).
  assert (H1 : registry w1 !! c = Some cbuf1) by (rewrite Hreg1; apply lookup_insert_eq).
  set (w2 := set_registry
               (fun m => merged (frame_damage cbuf1) WV_BUFFER_DOMAIN_CURSOR <$> m) w1).
  assert (H2 : registry w2 !! c
               = Some (merged (frame_damage cbuf1) WV_BUFFER_DOMAIN_CURSOR cbuf1)).
  { unfold w2. simpl. now rewrite lookup_fmap, H1. }
  set (w3 := set_registry
               (fun m => <[c := set_buffer_damage pixman_region_clear
                                  (merged (frame_damage cbuf1) WV_BUFFER_DOMAIN_CURSOR cbuf1)]> m)
               w2).
  assert (H3 : pools w3 !! cp = Some cpl) by (unfold w3, w2; simpl; now rewrite Hpools1).
  eexists. split.
  - unfold surface_handle_cursor_info.
    rewrite (bind_ok _ _ _ _ _ E1). rewrite Hc. unfold deref at 1.
    rewrite (bind_ok _ _ w1 w1 c) by reflexivity.
    rewrite (bind_ok _ _ _ _ _ (load_buffer_ok _ _ _ H1)).
    rewrite (bind_ok _ _ w1 w2 tt) by reflexivity.
    rewrite (bind_ok _ _ _ _ _ (update_buffer_ok _ _ _ _ H2)).
    fold w3. rewrite Hcp. rewrite (bind_ok _ _ _ _ _ (release_ok cp c cpl w3 H3)).
    reflexivity.
  - simpl. rewrite Hreq1, Hprox1, Hpools1. do 3 (split; [reflexivity|]). split.
    + rewrite lookup_insert_eq. f_equal. unfold merged.
      now destruct (domain_eqb _ _).
    + intros b' Hne. rewrite lookup_insert_ne by congruence.
      rewrite lookup_fmap, Hreg1. rewrite lookup_insert_ne by congruence. reflexivity.
Qed.

(** X6.  The cursor_info event ends the life of a cursor buffer in the
    session: if the event reports damage, the whole buffer joins its frame
    damage; that frame damage is added to the pending damage of the other
    CURSOR buffers; the buffer's own pending damage is emptied and the
    buffer goes to the end of the cursor pool's queue.  Nothing is sent, and
    the session's [cursor_buffer] field still names the released buffer, so
    that a second cursor_info event releases it a second time. *)
Theorem cursor_info_releases_cursor_buffer (self : ext_screencopy) (name : string)
    (has_damage px py hx hy : Z) (w : world) (c cp : handle) (cbuf : wv_buffer)
    (cpl : wv_buffer_pool) :
  cursor_buffer self = Some c ->
  registry w !! c = Some cbuf ->
  cursor_pool self = Some cp ->
  pools w !! cp = Some cpl ->
  let frame := if has_damage =? 0 then frame_damage cbuf
               else frame_damage cbuf ++ [Box 0 0 (width cbuf) (height cbuf)] in
  exists w' w'',
    surface_handle_cursor_info self name has_damage px py hx hy w = (Ok self, w')
    /\ requests w' = requests w
    /\ queue <$> pools w' !! cp = Some (queue cpl ++ [c])
    /\ template <$> pools w' !! cp = Some (template cpl)
    /\ (forall q, q <> cp -> pools w' !! q = pools w !! q)
    /\ registry w' !! c
       = Some (set_buffer_damage [] (set_frame_damage frame cbuf))
    /\ (forall b', b' <> c ->
          registry w' !! b' = merged frame WV_BUFFER_DOMAIN_CURSOR <$> registry w !! b')
    /\ surface_handle_cursor_info self name 0 px py hx hy w' = (Ok self, w'')
    /\ queue <$> pools w'' !! cp = Some (queue cpl ++ [c; c]).
Proof.
  intros Hc Hcbuf Hcp Hcpl frame.
  destruct (cursor_info_ok self name has_damage px py hx hy w c cp cbuf cpl
              Hc Hcbuf Hcp Hcpl) as (w' & E & Hreq & _ & Hpools & Hreg & Hothers).
  assert (Hcpl' : pools w' !! cp = Some (set_queue (queue cpl ++ [c]) cpl))
    by (rewrite Hpools; apply lookup_insert_eq).
  destruct (cursor_info_ok self name 0 px py hx hy w' c cp _ _ Hc Hreg Hcp Hcpl')
    as (w'' & E' & _ & _ & Hpools' & _).
  exists w', w''. split; [exact E|]. split; [exact Hreq|].
  rewrite Hpools', Hpools, !lookup_insert_eq. simpl.
  split; [reflexivity|]. split; [reflexivity|].
  split; [intros q Hq; now rewrite lookup_insert_ne by congruence|].
  split; [rewrite Hreg; unfold frame, pixman_region_union_rect, pixman_region_union,
            rect_box; simpl; now destruct (has_damage =? 0)|].
  split.
  - intros b' Hne. rewrite (Hothers b' Hne).
    unfold frame, pixman_region_union_rect, pixman_region_union, rect_box. simpl.
    now destruct (has_damage =? 0).
  - split; [exact E'|]. now rewrite <- app_assoc.
Qed.

End CursorInfo.

Lemma cursor_info_releases_cursor_buffer_witness :
  let self := set_cursor_buffer (Some 5%positive) Examples.negotiated in
  let frame := [] ++ [Box 0 0 64 48] in
  exists w' w'',
    surface_handle_cursor_info self "default" 1 0 0 0 0 Examples.world_committed
      = (Ok self, w')
    /\ requests w' = requests Examples.world_committed
    /\ queue <$> pools w' !! 2%positive = Some ([] ++ [5%positive])
    /\ template <$> pools w' !! 2%positive = Some (template (Examples.shm_pool [] 16 16 64))
    /\ (forall q, q <> 2%positive -> pools w' !! q = pools Examples.world_committed !! q)
    /\ registry w' !! 5%positive
       = Some (set_buffer_damage [] (set_frame_damage frame Examples.stale_buffer))
    /\ (forall b', b' <> 5%positive ->
          registry w' !! b'
          = merged frame WV_BUFFER_DOMAIN_CURSOR <$> registry Examples.world_committed !! b')
    /\ surface_handle_cursor_info self "default" 0 0 0 0 0 w' = (Ok self, w'')
    /\ queue <$> pools w'' !! 2%positive = Some ([] ++ [5%positive; 5%positive]).
Proof.
  apply (cursor_info_releases_cursor_buffer
           (set_cursor_buffer (Some 5%positive) Examples.negotiated) "default" 1 0 0 0 0
           Examples.world_committed 5 2 Examples.stale_buffer
           (Examples.shm_pool [] 16 16 64)); reflexivity.
Defined.

(** ** The cursor-rendering option *)
Section CursorOption.

Variable cfg : build.
Hypothesis bits : bitfield cfg.

Lemma only_plain_keeps {A : Type} (m : M world A) :
  keeps (fun w => commits (requests w)) m -> only_plain cfg m.
Proof.
  intros Hm w r w' E. exists []. rewrite app_nil_r. split; [exact (Hm _ _ _ E)|constructor].
Qed.

Lemma only_plain_bind {A B : Type} (m : M world A) (k : A -> M world B) (R : A -> Prop) :
  only_plain cfg m -> returns m R -> (forall a, R a -> only_plain cfg (k a)) ->
  only_plain cfg (bind m k).
Proof.
  intros Hm HR Hk w r w' H.
  destruct (bind_cases _ _ _ _ _ H) as [(a & w1 & E1 & E2)|[E _]].
  - destruct (Hm _ _ _ E1) as (cs1 & H1 & F1).
    destruct (Hk a (HR _ _ _ E1) _ _ _ E2) as (cs2 & H2 & F2).
    exists (cs1 ++ cs2). rewrite H2, H1, app_assoc. split; [reflexivity|].
    apply Forall_app. now split.
  - exact (Hm _ _ _ E).
Qed.

Lemma only_plain_commit (surf : handle) (flags : Z) :
  plain cfg (surf, flags) -> only_plain cfg (emit (Commit surf flags)).
Proof.
  intros Hp w r w' [= _ <-]. exists [(surf, flags)]. simpl. rewrite commits_app.
  split; [reflexivity|]. now constructor.
Qed.

Lemma plain_flags (surf : handle) (immediate : bool) :
  plain cfg (surf, commit_flags cfg immediate false).
Proof.
  destruct bits as (Hnone & Himm & Hrc & Hdisjoint).
  unfold plain, commit_flags, flag_set. simpl. rewrite Hnone.
  destruct immediate; cbn [snd]; rewrite ?Z.lor_0_l.
  - split; [now right|]. rewrite Hdisjoint. lia.
  - split; [now left|]. rewrite Z.land_0_l. lia.
Qed.

Lemma commits_registry (g : gmap handle wv_buffer -> gmap handle wv_buffer) (w : world) :
  commits (requests (set_registry g w)) = commits (requests w).
Proof. reflexivity. Qed.

Lemma commits_fresh (w : world) :
  commits (requests (snd (fresh w))) = commits (requests w).
Proof. reflexivity. Qed.

Lemma commits_queue (w : world) (ph : handle) (pl : wv_buffer_pool) (q : list handle) :
  pools w !! ph = Some pl ->
  commits (requests (set_pools (fun m => <[ph := set_queue q pl]> m) w))
  = commits (requests w).
Proof. reflexivity. Qed.

Lemma silent_keeps {A : Type} (m : M world A) :
  silent m -> keeps (fun w => commits (requests w)) m.
Proof. intros Hm w r w' E. exact (Hm _ _ _ E). Qed.

Lemma hints_keep_commits (surf : handle) (boxes : list pixman_box16) :
  keeps (fun w => commits (requests w))
    (for_each (fun box => emit (damage_hint surf box)) boxes).
Proof.
  intros w r w' E. rewrite for_each_emit in E. injection E as _ <-.
  simpl. rewrite commits_app, commits_hints by reflexivity. apply app_nil_r.
Qed.

Ltac hush :=
  repeat first
    [ apply keeps_ret | apply keeps_abort | apply keeps_deref
    | apply keeps_load_buffer | apply keeps_load_pool
    | apply keeps_update_buffer; exact commits_registry
    | apply keeps_release; exact commits_queue
    | apply keeps_acquire; [exact commits_registry|exact commits_fresh|exact commits_queue]
    | apply hints_keep_commits
    | apply silent_keeps; apply silent_emit; reflexivity
    | apply keeps_bind; [|intros ?] ].

Lemma schedule_capture_plain (self : ext_screencopy) (immediate : bool) :
  render_cursors self = false ->
  only_plain cfg (ext_screencopy_schedule_capture cfg self immediate).
Proof.
  intros Hrc. unfold ext_screencopy_schedule_capture.
  do 6 (apply (only_plain_bind _ _ (fun _ => True));
        [apply only_plain_keeps; hush|easy|intros ? _]).
  apply (only_plain_bind _ _ (fun _ => True)); [|easy|].
  - apply only_plain_keeps. simpl have_cursor. destruct (have_cursor self); [|hush].
    apply keeps_bind; [hush|]. intros c.
    do 2 (apply keeps_bind; [hush|intros ?]).
    apply keeps_bind; [destruct (pixman_region_not_empty _); hush|]. intros ?. hush.
  - intros s _. apply (only_plain_bind _ _ (fun _ => True)); [|easy|].
    + apply only_plain_commit. simpl render_cursors. rewrite Hrc. apply plain_flags.
    + intros _ _. apply only_plain_keeps. apply keeps_ret.
Qed.

(** No call and no event writes [render_cursors]. *)
Lemma step_render_cursors (self : ext_screencopy) (a : action) :
  returns (step cfg self a) (fun s => render_cursors s = render_cursors self).
Proof.
  destruct a; simpl; try (apply returns_ret; reflexivity).
  - (* start *)
    apply (returns_bind _ _ (fun r => render_cursors (fst r) = render_cursors self)).
    + unfold ext_screencopy_start. destruct (negb (have_buffer_info self)).
      * now apply returns_ret.
      * apply (returns_bind _ _ (fun s => render_cursors s = render_cursors self)).
        -- now apply returns_schedule_capture.
        -- intros s Hs. now apply returns_ret.
    + intros r Hr. now apply returns_ret.
  - (* init_done *)
    unfold surface_handle_init_done. do 2 (apply returns_then; intros ?).
    apply (returns_bind _ _ (fun s => render_cursors s = render_cursors self)).
    + destruct (should_start self); [|now apply returns_ret].
      apply (returns_bind _ _ (fun s => render_cursors s = render_cursors self)).
      * now apply returns_schedule_capture.
      * intros s Hs. now apply returns_ret.
    + intros s Hs. now apply returns_ret.
  - (* damage *)
    unfold surface_handle_damage. apply returns_then. intros _. now apply returns_ret.
  - (* cursor_info *)
    unfold surface_handle_cursor_info. do 6 (apply returns_then; intros ?).
    now apply returns_ret.
  - (* transform *)
    unfold surface_handle_transform. do 2 (apply returns_then; intros ?).
    now apply returns_ret.
  - (* ready *)
    unfold surface_handle_ready. do 5 (apply returns_then; intros ?).
    now apply returns_ret.
  - (* failed *)
    unfold surface_handle_failed. do 2 (apply returns_then; intros ?).
    apply (returns_bind _ _ (fun s => render_cursors s = render_cursors self)).
    + destruct reason; [|now apply returns_ret].
      apply (returns_bind _ _ (fun r => render_cursors (fst r) = render_cursors self)).
      * now apply (returns_init_surface _ (fun s => render_cursors s = render_cursors self)).
      * intros r Hr. now apply returns_ret.
    + intros s Hs. apply returns_then. intros _. now apply returns_ret.
Qed.

Lemma step_plain (self : ext_screencopy) (a : action) :
  render_cursors self = false -> only_plain cfg (step cfg self a).
Proof.
  intros Hrc.
  destruct a; simpl; try (apply only_plain_keeps; apply keeps_ret).
  - (* start *)
    unfold ext_screencopy_start. destruct (negb (have_buffer_info self)).
    + apply only_plain_keeps. hush.
    + apply (only_plain_bind _ _ (fun _ => True)); [|easy|].
      * apply (only_plain_bind _ _ (fun _ => True));
          [now apply schedule_capture_plain|easy|].
        intros s _. apply only_plain_keeps. apply keeps_ret.
      * intros r _. apply only_plain_keeps. apply keeps_ret.
  - (* init_done *)
    unfold surface_handle_init_done, resize_to, wv_buffer_pool_resize.
    do 2 (apply (only_plain_bind _ _ (fun _ => True));
          [apply only_plain_keeps; destruct (_ && _);
           (apply keeps_bind; [apply keeps_deref|]; intros ph;
            apply keeps_bind; [apply keeps_load_pool|]; intros pl;
            now apply keeps_modify)
          |easy|intros ? _]).
    apply (only_plain_bind _ _ (fun _ => True)); [|easy|].
    + destruct (should_start self); [|apply only_plain_keeps; apply keeps_ret].
      apply (only_plain_bind _ _ (fun _ => True));
        [now apply schedule_capture_plain|easy|].
      intros s _. apply only_plain_keeps. apply keeps_ret.
    + intros s _. apply only_plain_keeps. apply keeps_ret.
  - (* damage *)
    apply only_plain_keeps, silent_keeps. unfold surface_handle_damage. quiet.
  - (* cursor_info *)
    apply only_plain_keeps, silent_keeps. unfold surface_handle_cursor_info.
    apply silent_bind; [destruct (has_damage =? 0); quiet|]. intros _. quiet.
  - (* transform *)
    apply only_plain_keeps, silent_keeps. unfold surface_handle_transform. quiet.
  - (* ready *)
    apply only_plain_keeps, silent_keeps. unfold surface_handle_ready. quiet.
  - (* failed *)
    apply only_plain_keeps, silent_keeps. unfold surface_handle_failed.
    apply silent_bind; [quiet|]. intros b. apply silent_bind; [quiet|]. intros _.
    apply silent_bind; [destruct reason; quiet|]. intros s. quiet.
Qed.

Lemma run_plain (acts : list action) (self : ext_screencopy) :
  render_cursors self = false -> only_plain cfg (run cfg self acts).
Proof.
  revert self. induction acts as [|a rest IH]; intros self Hrc; simpl run.
  - apply only_plain_keeps. apply keeps_ret.
  - apply (only_plain_bind _ _ (fun s => render_cursors s = false)).
    + now apply step_plain.
    + intros w s w' E. rewrite <- Hrc. exact (step_render_cursors self a _ _ _ E).
    + intros s Hs. now apply IH.
Qed.

(** Creation sends no commit, and the session it returns has
    [render_cursors] clear, whatever its [render_cursor] argument. *)
Lemma create_render_cursors (mgr out done_fn data : handle) (render_cursor : bool) :
  silent (ext_screencopy_create mgr out render_cursor done_fn data)
  /\ returns (ext_screencopy_create mgr out render_cursor done_fn data)
       (fun r => forall s, r = Some s -> render_cursors s = false).
Proof.
  unfold ext_screencopy_create, wv_buffer_pool_create, wv_buffer_pool_destroy. split.
  - apply silent_bind; [apply silent_alloc|]. intros [|]; simpl; [|apply silent_ret].
    apply silent_bind.
    { apply silent_bind; [apply silent_alloc|]. intros [|]; [|apply silent_ret].
      apply silent_bind; [apply silent_fresh|]. intros ?.
      apply silent_bind; [now apply silent_modify|]. intros ?. apply silent_ret. }
    intros [p|]; [|apply silent_ret].
    apply silent_bind.
    { apply silent_bind; [apply silent_alloc|]. intros [|]; [|apply silent_ret].
      apply silent_bind; [apply silent_fresh|]. intros ?.
      apply silent_bind; [now apply silent_modify|]. intros ?. apply silent_ret. }
    intros c. apply silent_bind; [apply silent_init_surface|]. intros r.
    destruct (snd r <? 0); [|apply silent_ret].
    do 2 (apply silent_bind;
          [apply silent_bind; [apply silent_deref|]; intros ?;
           apply silent_bind; [apply silent_load_pool|]; intros ?;
           apply silent_bind; [now apply silent_modify|]; intros ?;
           now apply silent_modify
          |intros ?]).
    apply silent_ret.
  - apply returns_then. intros [|]; simpl; [|now apply returns_ret].
    apply returns_then. intros [p|]; [|now apply returns_ret].
    apply returns_then. intros c.
    apply (returns_bind _ _ (fun r => render_cursors (fst r) = false)).
    + now apply (returns_init_surface _ (fun s => render_cursors s = false)).
    + intros r Hr. destruct (snd r <? 0).
      * do 2 (apply returns_then; intros ?). now apply returns_ret.
      * apply returns_ret. now intros s [= <-].
Qed.

(** X7.  The [render_cursor] argument of [ext_screencopy_create] has no
    effect: the session it returns has its [render_cursors] field clear,
    no call and no event sets it, and so every commit the session ever
    sends asks for no option or for IMMEDIATE alone, never for
    RENDER_CURSORS, through any calls and events and also when the run
    aborts. *)
Theorem created_session_never_renders_cursors (mgr out done_fn data : handle)
    (render_cursor : bool) (w w0 : world) (self : ext_screencopy)
    (acts : list action) :
  ext_screencopy_create mgr out render_cursor done_fn data w = (Ok (Some self), w0) ->
  let after := run cfg self acts w0 in
  render_cursors self = false
  /\ (forall s, fst after = Ok s -> render_cursors s = false)
  /\ exists cs,
       commits (requests (snd after)) = commits (requests w) ++ cs
       /\ Forall (plain cfg) cs.
Proof.
  intros Hcreate after.
  destruct (create_render_cursors mgr out done_fn data render_cursor) as [Hsilent Hret].
  assert (Hrc : render_cursors self = false) by exact (Hret _ _ _ Hcreate self eq_refl).
  split; [exact Hrc|]. split.
  - intros s Hs. unfold after in Hs.
    destruct (run cfg self acts w0) as [r w1] eqn:E. simpl in Hs. subst r.
    clear after Hcreate Hsilent Hret. revert self w0 Hrc E.
    induction acts as [|a rest IH]; intros self w0 Hrc E; simpl in E.
    + now injection E as <- _.
    + apply bind_ok_inv in E as (s1 & w2 & E1 & E2).
      apply (IH s1 w2); [|exact E2].
      rewrite <- Hrc. exact (step_render_cursors self a _ _ _ E1).
  - unfold after. destruct (run cfg self acts w0) as [r w1] eqn:E.
    destruct (run_plain acts self Hrc _ _ _ E) as (cs & Hcs & Hplain).
    exists cs. simpl. rewrite Hcs, (Hsilent _ _ _ Hcreate). now split.
Qed.

End CursorOption.

Lemma created_session_never_renders_cursors_witness :
  exists self w0,
    ext_screencopy_create 7 8 true 9 10 (Examples.empty_world []) = (Ok (Some self), w0)
    /\ let after := run Examples.cfg0 self
                      [Buffer_info BUFFER_TYPE_WL_SHM 1 64 48 256; Init_done; Start true;
                       Ready; Start false] w0 in
       render_cursors self = false
       /\ (forall s, fst after = Ok s -> render_cursors s = false)
       /\ exists cs,
            commits (requests (snd after)) = commits (requests (Examples.empty_world [])) ++ cs
            /\ Forall (plain Examples.cfg0) cs.
Proof.
  eexists _, _. split; [vm_compute; reflexivity|].
  apply (created_session_never_renders_cursors Examples.cfg0
           ltac:(repeat split; reflexivity) 7 8 9 10 true (Examples.empty_world [])).
  vm_compute. reflexivity.
Defined.

(** ** Creating a session, in every case *)
Section Creating.



End Creating.


(** ** A session that lost its surface *)
Section LostSurface.

Variable cfg : build.

(** Without a surface a capture ends the process before it sends
    anything. *)
Lemma schedule_capture_without_surface (self : ext_screencopy) (immediate : bool)
    (w w' : world) (r : res ext_screencopy) :
  surface self = None ->
  ext_screencopy_schedule_capture cfg self immediate w = (r, w') ->
  r = Abort /\ requests w' = requests w.
Proof.
  intros Hs H. unfold ext_screencopy_schedule_capture in H.
  destruct (bind_cases _ _ _ _ _ H) as [(b & w1 & E1 & E2)|[E ->]].
  - assert (H1 : requests w1 = requests w)
      by (apply (keeps_acquire requests) in E1; auto).
    destruct (bind_cases _ _ _ _ _ E2) as [(u & w2 & E3 & E4)|[E3 ->]].
    + assert (H2 : requests w2 = requests w1)
        by (apply (keeps_update_buffer requests) in E3; auto).
      cbn [surface set_buffer] in E4. rewrite Hs in E4. injection E4 as <- <-.
      split; [reflexivity|congruence].
    + apply (keeps_update_buffer requests) in E3; [|auto]. split; [reflexivity|congruence].
  - apply (keeps_acquire requests) in E; auto.
Qed.

Lemma step_without_surface (self : ext_screencopy) (a : action) :
  surface self = None -> is_failed a = false ->
  silent (step cfg self a)
  /\ returns (step cfg self a) (fun s => surface s = None).
Proof.
  intros Hs Ha.
  assert (Hcap : forall (B : Type) (imm : bool) (g : ext_screencopy -> B)
                   (Q : B -> Prop),
            silent (bind (ext_screencopy_schedule_capture cfg self imm)
                      (fun s => ret (g s)))
            /\ returns (bind (ext_screencopy_schedule_capture cfg self imm)
                          (fun s => ret (g s))) Q).
  { intros B imm g Q. split.
    - intros w r w' H. unfold bind in H.
      destruct (ext_screencopy_schedule_capture cfg self imm w) as [r1 w1] eqn:E.
      destruct (schedule_capture_without_surface self imm w w1 r1 Hs E) as [-> Hreq].
      injection H as _ <-. now rewrite Hreq.
    - intros w s w' H. unfold bind in H.
      destruct (ext_screencopy_schedule_capture cfg self imm w) as [r1 w1] eqn:E.
      destruct (schedule_capture_without_surface self imm w w1 r1 Hs E) as [-> _].
      discriminate. }
  destruct a; simpl; try discriminate;
    try (split; [apply silent_ret|now apply returns_ret]).
  - (* start *)
    unfold ext_screencopy_start. destruct (negb (have_buffer_info self)).
    + split; [quiet|].
      apply (returns_bind _ _ (fun r => surface (fst r) = None));
        [now apply returns_ret|]. intros r Hr. now apply returns_ret.
    + destruct (Hcap _ immediate (fun s => (s, 0))
                  (fun r => surface (fst r) = None)) as [Hsilent Hret]. split.
      * apply silent_bind; [exact Hsilent|]. intros r. apply silent_ret.
      * apply (returns_bind _ _ (fun r => surface (fst r) = None));
          [exact Hret|intros r Hr; now apply returns_ret].
  - (* init_done *)
    unfold surface_handle_init_done, resize_to, wv_buffer_pool_resize.
    assert (Hresize : forall (q : option handle) (d : domain_info),
              silent (if ENABLE_SCREENCOPY_DMABUF cfg && have_linux_dmabuf d
                      then ph <- deref q ;; pl <- load_pool ph ;;
                           modify (set_pools (fun m =>
                             <[ph := {| queue := queue pl; pool_type := WV_BUFFER_DMABUF;
                                        pool_width := dmabuf_width d;
                                        pool_height := dmabuf_height d;
                                        pool_stride := 0;
                                        pool_format := dmabuf_format d |}]> m))
                      else ph <- deref q ;; pl <- load_pool ph ;;
                           modify (set_pools (fun m =>
                             <[ph := {| queue := queue pl; pool_type := WV_BUFFER_SHM;
                                        pool_width := wl_shm_width d;
                                        pool_height := wl_shm_height d;
                                        pool_stride := wl_shm_stride d;
                                        pool_format := wl_shm_format d |}]> m)))).
    { intros q d. destruct (_ && _);
        (apply silent_bind; [apply silent_deref|]); intros ph;
        (apply silent_bind; [apply silent_load_pool|]); intros pl;
        now apply silent_modify. }
    split.
    + apply silent_bind; [apply Hresize|]. intros _.
      apply silent_bind; [apply Hresize|]. intros _.
      apply silent_bind; [|intros s; apply silent_ret].
      destruct (should_start self); [|apply silent_ret].
      apply (Hcap _ (shall_be_immediate self)
               (fun s => set_shall_be_immediate false (set_should_start false s))
               (fun _ => True)).
    + do 2 (apply returns_then; intros ?).
      apply (returns_bind _ _ (fun s => surface s = None));
        [|intros s Hs'; now apply returns_ret].
      destruct (should_start self); [|now apply returns_ret].
      apply (Hcap _ (shall_be_immediate self)
               (fun s => set_shall_be_immediate false (set_should_start false s))).
  - (* damage *)
    unfold surface_handle_damage. split; [quiet|].
    apply returns_then. intros _. now apply returns_ret.
  - (* cursor_info *)
    unfold surface_handle_cursor_info. split.
    + apply silent_bind; [destruct (has_damage =? 0); quiet|]. intros _. quiet.
    + do 6 (apply returns_then; intros ?). now apply returns_ret.
  - (* transform *)
    unfold surface_handle_transform. split; [quiet|].
    do 2 (apply returns_then; intros ?). now apply returns_ret.
  - (* ready *)
    unfold surface_handle_ready. split; [quiet|].
    do 5 (apply returns_then; intros ?). now apply returns_ret.
Qed.

Lemma run_without_surface (acts : list action) (self : ext_screencopy) :
  surface self = None ->
  forallb (fun a => negb (is_failed a)) acts = true ->
  silent (run cfg self acts)
  /\ returns (run cfg self acts) (fun s => surface s = None).
Proof.
  revert self. induction acts as [|a rest IH]; intros self Hs Hacts; simpl run.
  - split; [apply silent_ret|now apply returns_ret].
  - simpl in Hacts. apply andb_prop in Hacts as [Ha Hrest].
    apply negb_true_iff in Ha.
    destruct (step_without_surface self a Hs Ha) as [Hsilent Hret]. split.
    + intros w r w' H. destruct (bind_cases _ _ _ _ _ H) as [(s & w1 & E1 & E2)|[E _]].
      * destruct (IH s (Hret _ _ _ E1) Hrest) as [Hs' _].
        rewrite (Hs' _ _ _ E2). exact (Hsilent _ _ _ E1).
      * exact (Hsilent _ _ _ E).
    + eapply returns_bind; [exact Hret|]. intros s Hs'. now apply IH.
Qed.

(** X18.  A session whose surface could not be made again stops
    capturing.  The failed event with the reason "invalid buffer" destroys
    the surface and asks for a new one; if the compositor gives none, the
    handler ignores it: the failure is reported as any other and the
    session is left without a surface.  From then on, until another failed
    event, no call and no event sends a commit, the surface stays NULL,
    and a start after negotiation ends the process at the first request on
    the surface, with nothing sent. *)
Theorem lost_surface_ends_capturing (self : ext_screencopy) (w : world)
    (b p : handle) (pl : wv_buffer_pool) :
  buffer self = Some b ->
  pool self = Some p ->
  pools w !! p = Some pl ->
  next_alloc w = false ->
  exists s1 w1,
    surface_handle_failed self FAILURE_REASON_INVALID_BUFFER w = (Ok s1, w1)
    /\ surface s1 = None
    /\ completions (requests w1)
       = completions (requests w) ++ [(SCREENCOPY_FAILED, None)]
    /\ proxies w1 = match surface self with
                    | Some old => proxies w ∖ {[old]}
                    | None => proxies w
                    end
    /\ (forall acts, forallb (fun a => negb (is_failed a)) acts = true ->
          let after := run cfg s1 acts w1 in
          commits (requests (snd after)) = commits (requests w1)
          /\ forall s, fst after = Ok s -> surface s = None)
    /\ (have_buffer_info self = true ->
        forall immediate,
          let after := step cfg s1 (Start immediate) w1 in
          fst after = Abort /\ requests (snd after) = requests w1).
Proof.
  intros Hb Hp Hpl Halloc. unfold surface_handle_failed. rewrite Hb, Hp.
  unfold deref at 1. rewrite (bind_ok _ _ w w b) by reflexivity.
  rewrite (bind_ok _ _ _ _ _ (release_ok p b pl w Hpl)).
  set (w1 := set_pools _ w).
  assert (Hplan : exists plan, alloc_plan w = false :: plan).
  { unfold next_alloc in Halloc.
    destruct (alloc_plan w) as [|[|] plan]; try discriminate. eauto. }
  destruct Hplan as (plan & Hplan).
  set (s1 := set_surface None (set_buffer None self)).
  assert (E : exists w2,
            ext_screencopy_init_surface (set_buffer None self) w1 = (Ok (s1, -1), w2)
            /\ requests w2 = requests w ++ old_surface_requests self
            /\ proxies w2 = match surface self with
                            | Some old => proxies w ∖ {[old]}
                            | None => proxies w
                            end).
  { unfold ext_screencopy_init_surface, old_surface_requests, bind, ret, emit, modify,
      alloc_succeeds. cbn [surface set_buffer].
    destruct (surface self) as [old|]; unfold w1; simpl; rewrite Hplan; simpl;
      (eexists; split; [reflexivity|]); simpl; rewrite ?app_nil_r; split; reflexivity. }
  destruct E as (w2 & E & Hreq2 & Hprox2).
  rewrite (bind_ok _ _ _ _ _ (bind_ok _ _ _ _ _ E)).
  unfold ret at 1. simpl fst.
  rewrite (bind_ok _ _ _ _ _ (emit_sent _ _)).
  eexists _, _. split; [reflexivity|]. split; [reflexivity|].
  split.
  { cbn [requests sent]. rewrite Hreq2. unfold completions. rewrite !flat_map_app.
    unfold old_surface_requests. destruct (surface self); simpl;
      now rewrite ?app_nil_r. }
  split; [exact Hprox2|]. split.
  - intros acts Hacts.
    destruct (run_without_surface acts s1 eq_refl Hacts) as [Hsilent Hret].
    destruct (run cfg s1 acts _) as [r w3] eqn:Erun. simpl. split.
    + exact (Hsilent _ _ _ Erun).
    + intros s ->. exact (Hret _ _ _ Erun).
  - intros Hinfo immediate.
    set (w3 := sent [On_done (on_done s1) SCREENCOPY_FAILED None (userdata s1)] w2).
    change (fst (step cfg s1 (Start immediate) w3) = Abort
            /\ requests (snd (step cfg s1 (Start immediate) w3)) = requests w3).
    destruct (ext_screencopy_schedule_capture cfg s1 immediate w3) as [r w4] eqn:Ecap.
    destruct (schedule_capture_without_surface s1 immediate _ _ _ eq_refl Ecap)
      as [-> Hreq].
    assert (Estep : step cfg s1 (Start immediate) w3 = (Abort, w4)).
    { simpl step. unfold ext_screencopy_start.
      cbn [have_buffer_info s1 set_surface set_buffer]. rewrite Hinfo. cbn [negb].
      unfold bind. now rewrite Ecap. }
    rewrite Estep. split; [reflexivity|exact Hreq].
Qed.

End LostSurface.

Lemma lost_surface_ends_capturing_witness :
  let self := Examples.committed in
  let w := {| next_handle := 10; alloc_plan := [false];
              registry := registry Examples.world_committed;
              pools := pools Examples.world_committed;
              proxies := proxies Examples.world_committed; requests := [] |} in
  exists s1 w1,
    surface_handle_failed self FAILURE_REASON_INVALID_BUFFER w = (Ok s1, w1)
    /\ surface s1 = None
    /\ completions (requests w1)
       = completions (requests w) ++ [(SCREENCOPY_FAILED, None)]
    /\ proxies w1 = match surface self with
                    | Some old => proxies w ∖ {[old]}
                    | None => proxies w
                    end
    /\ (forall acts, forallb (fun a => negb (is_failed a)) acts = true ->
          let after := run Examples.cfg0 s1 acts w1 in
          commits (requests (snd after)) = commits (requests w1)
          /\ forall s, fst after = Ok s -> surface s = None)
    /\ (have_buffer_info self = true ->
        forall immediate,
          let after := step Examples.cfg0 s1 (Start immediate) w1 in
          fst after = Abort /\ requests (snd after) = requests w1).
Proof.
  apply (lost_surface_ends_capturing Examples.cfg0 Examples.committed
           {| next_handle := 10; alloc_plan := [false];
              registry := registry Examples.world_committed;
              pools := pools Examples.world_committed;
              proxies := proxies Examples.world_committed; requests := [] |}
           5 1 (Examples.shm_pool [] 64 48 256)); reflexivity.
Defined.

(** ** The clipboard source, in every case *)
Section ClipboardSource.

Import DataControl.

Lemma to_int_small (z : Z) : -1 <= z < 2 ^ 31 -> Int.to_int z = z.
Proof.
  intros Hz. unfold Int.to_int.
  destruct (Z.eq_dec z (-1)) as [->|Hne]; [reflexivity|].
  rewrite !Z.mod_small by lia. lia.
Qed.

Lemma sys_write_answer (fd len : Z) (w : os) :
  0 <= len ->
  exists answer,
    sys_write fd len w
    = (Ok answer,
       {| os_next_handle := os_next_handle w; os_alloc_plan := os_alloc_plan w;
          os_write_plan := tl (os_write_plan w);
          events := events w ++ [Sys_write fd len answer] |})
    /\ -1 <= answer <= len.
Proof.
  intros Hlen. unfold sys_write. eexists. split; [reflexivity|].
  destruct (os_write_plan w) as [|r rest]; [lia|].
  destruct (r <? 0) eqn:Hr; [lia|]. apply Z.ltb_ge in Hr. lia.
Qed.

(** X9.  A request to send the clipboard, for a stored clipboard shorter
    than 2 GiB: write(2) is called exactly once, with the stored length; a
    line is logged exactly when the kernel took fewer bytes than that or
    answered -1; the descriptor is closed exactly once, after the write;
    the state is unchanged.  Without stored data the assertion fails
    before anything is written or closed. *)
Theorem source_send_writes_once (self : data_control) (source : handle)
    (mime : string) (fd : Z) (w : os) :
  0 <= cb_len self < 2 ^ 31 ->
  match cb_data self with
  | None => data_control_source_send self source mime fd w = (Abort, w)
  | Some _ =>
      exists written w',
        data_control_source_send self source mime fd w = (Ok self, w')
        /\ -1 <= written <= cb_len self
        /\ events w'
           = events w ++ [Sys_write fd (cb_len self) written]
               ++ (if written <? cb_len self
                   then [Log_error "write from clipboard incomplete"] else [])
               ++ [Sys_close fd]
        /\ os_write_plan w' = tl (os_write_plan w)
        /\ os_alloc_plan w' = os_alloc_plan w
        /\ os_next_handle w' = os_next_handle w
  end.
Proof.
  intros Hlen. unfold data_control_source_send.
  destruct (cb_data self) as [d|]; [|reflexivity].
  destruct (sys_write_answer fd (cb_len self) w) as (written & E & Hw); [lia|].
  exists written. unfold deref at 1. rewrite (bind_ok _ _ w w d) by reflexivity.
  rewrite (bind_ok _ _ _ _ _ E).
  rewrite (to_int_small written), (to_int_small (cb_len self)) by lia.
  destruct (written <? cb_len self); eexists; (split; [reflexivity|]); simpl;
    rewrite <- ?app_assoc; simpl; repeat split; lia.
Qed.

Lemma source_send_writes_once_witness :
  exists written w',
    data_control_source_send
      (set_cb_len 5 (set_cb_data (Some [Byte.x68; Byte.x65; Byte.x6c; Byte.x6c; Byte.x6f])
         {| wl_display := 1; server := 2; manager := Some 3%positive; device := 4;
            selection := None; primary_selection := None; cb_data := None; cb_len := 0;
            mime_type := "text/plain;charset=utf-8"; offer := None |}))
      9 "text/plain;charset=utf-8" 7
      {| os_next_handle := 10; os_alloc_plan := []; os_write_plan := [3]; events := [] |}
    = (Ok (set_cb_len 5 (set_cb_data (Some [Byte.x68; Byte.x65; Byte.x6c; Byte.x6c; Byte.x6f])
         {| wl_display := 1; server := 2; manager := Some 3%positive; device := 4;
            selection := None; primary_selection := None; cb_data := None; cb_len := 0;
            mime_type := "text/plain;charset=utf-8"; offer := None |})), w')
    /\ -1 <= written <= 5
    /\ events w'
       = [] ++ [Sys_write 7 5 written]
            ++ (if written <? 5
                then [Log_error "write from clipboard incomplete"] else [])
            ++ [Sys_close 7]
    /\ os_write_plan w' = tl [3]
    /\ os_alloc_plan w' = []
    /\ os_next_handle w' = 10%positive.
Proof.
  apply (source_send_writes_once
           (set_cb_len 5 (set_cb_data (Some [Byte.x68; Byte.x65; Byte.x6c; Byte.x6c; Byte.x6f])
              {| wl_display := 1; server := 2; manager := Some 3%positive; device := 4;
                 selection := None; primary_selection := None; cb_data := None; cb_len := 0;
                 mime_type := "text/plain;charset=utf-8"; offer := None |}))
           9 "text/plain;charset=utf-8" 7
           {| os_next_handle := 10; os_alloc_plan := []; os_write_plan := [3]; events := [] |}).
  simpl. lia.
Defined.

End ClipboardSource.

(** ** Publishing a clipboard *)
Section Publishing.

Import DataControl.

Lemma set_selection_outcome (self : data_control) (primary : bool) (mgr : handle)
    (w : os) :
  manager self = Some mgr ->
  let ok := nth 0 (os_alloc_plan w) true in
  let new := os_next_handle w in
  set_selection self primary w
  = (Ok (if ok then self else set_cb_data None self,
         if ok then Some new else None),
     {| os_next_handle := if ok then Pos.succ new else new;
        os_alloc_plan := tl (os_alloc_plan w);
        os_write_plan := os_write_plan w;
        events := events w
                  ++ (if ok
                      then [Create_data_source mgr new; Source_add_listener new;
                            Source_offer new (mime_type self);
                            if primary
                            then Device_set_primary_selection (device self) new
                            else Device_set_selection (device self) new]
                      else [Log_error
                              "zwlr_data_control_manager_v1_create_data_source() failed"])
     |}).
Proof.
  intros Hmgr. unfold set_selection. rewrite Hmgr.
  unfold bind, os_alloc_succeeds, os_fresh, send, log_error, modify, ret.
  destruct w as [next plan writes evs]. simpl.
  destruct plan as [|[|] rest]; simpl.
  - destruct primary; simpl; now rewrite <- !app_assoc.
  - destruct primary; simpl; now rewrite <- !app_assoc.
  - reflexivity.
Qed.

(** X10.  What [data_control_to_clipboard] leaves behind, for a length other
    than zero and a manager that is bound, after the outcomes [a] of
    [malloc] and [b], [c] of the two source creations.  If [malloc] fails
    the stored pointer is NULL and the old sources stay announced.
    Otherwise both creations are tried, also when the first has failed;
    each one that succeeds is announced as selection or as primary
    selection, and each one that fails frees the stored data.  The data
    are stored (the first [len] bytes of the text, with their length) only
    if all three succeed; in every other case a request to send on a
    source that is still announced fails the assertion of
    [data_control_source_send]. *)
Theorem to_clipboard_outcomes (self : data_control) (text : list Byte.byte)
    (len : Z) (mgr : handle) (w : os) :
  len <> 0 ->
  manager self = Some mgr ->
  let a := nth 0 (os_alloc_plan w) true in
  let b := nth 1 (os_alloc_plan w) true in
  let c := nth 2 (os_alloc_plan w) true in
  let s1 := os_next_handle w in
  let s2 := if b then Pos.succ s1 else s1 in
  exists self' w',
    data_control_to_clipboard self text len w = (Ok self', w')
    /\ cb_data self'
       = (if a && b && c then Some (firstn (Z.to_nat len) text) else None)
    /\ (a = true ->
        cb_len self' = len
        /\ selection self' = (if b then Some s1 else None)
        /\ primary_selection self' = (if c then Some s2 else None)
        /\ events w'
           = events w
             ++ (if b
                 then [Create_data_source mgr s1; Source_add_listener s1;
                       Source_offer s1 (mime_type self);
                       Device_set_selection (device self) s1]
                 else [Log_error
                         "zwlr_data_control_manager_v1_create_data_source() failed"])
             ++ (if c
                 then [Create_data_source mgr s2; Source_add_listener s2;
                       Source_offer s2 (mime_type self);
                       Device_set_primary_selection (device self) s2]
                 else [Log_error
                         "zwlr_data_control_manager_v1_create_data_source() failed"]))
    /\ (a = false ->
        selection self' = selection self
        /\ primary_selection self' = primary_selection self
        /\ cb_len self' = cb_len self
        /\ events w' = events w ++ [Log_error "OOM: %m"])
    /\ (a && b && c = false ->
        forall source mime fd w2,
          data_control_source_send self' source mime fd w2 = (Abort, w2)).
Proof.
  intros Hlen Hmgr a b c s1 s2.
  assert (Hz : (len =? 0) = false) by now apply Z.eqb_neq.
  unfold data_control_to_clipboard. rewrite Hz.
  destruct w as [next plan writes evs].
  destruct plan as [|[|] rest].
  - (* every allocation succeeds *)
    unfold os_alloc_succeeds at 1. unfold bind at 1. cbn [os_alloc_plan negb].
    erewrite bind_ok by (apply (set_selection_outcome _ false mgr); exact Hmgr).
    cbn [nth os_alloc_plan fst snd].
    erewrite bind_ok by (apply (set_selection_outcome _ true mgr); exact Hmgr).
    eexists _, _. split; [reflexivity|]. subst a b c s1 s2. simpl.
    split; [reflexivity|]. split; [|split; [discriminate|discriminate]].
    intros _. rewrite <- !app_assoc. repeat split.
  - (* malloc succeeds *)
    unfold os_alloc_succeeds at 1. unfold bind at 1. cbn [os_alloc_plan negb].
    erewrite bind_ok by (apply (set_selection_outcome _ false mgr); exact Hmgr).
    cbn [os_alloc_plan os_next_handle events os_write_plan fst snd].
    erewrite bind_ok by
      (apply (set_selection_outcome _ true mgr);
       destruct (nth 0 rest true); exact Hmgr).
    eexists _, _. split; [reflexivity|]. subst a b c s1 s2.
    cbn [nth os_alloc_plan os_next_handle events os_write_plan fst snd tl].
    assert (Hc : nth 0 (tl rest) true = nth 1 rest true) by now destruct rest.
    rewrite Hc.
    destruct (nth 0 rest true), (nth 1 rest true); simpl;
      (split; [reflexivity|]);
      (split; [intros _; rewrite <- ?app_assoc; repeat split|]);
      (split; [discriminate|]); try discriminate; intros _ ? ? ? ?; reflexivity.
  - (* malloc fails *)
    eexists _, _. split; [reflexivity|]. subst a b c. simpl.
    split; [reflexivity|]. split; [discriminate|]. split; [repeat split|].
    intros _ ? ? ? ?. reflexivity.
Qed.

End Publishing.

Lemma to_clipboard_outcomes_witness :
  let self :=
    {| DataControl.wl_display := 1; DataControl.server := 2;
       DataControl.manager := Some 3%positive; DataControl.device := 4;
       DataControl.selection := None; DataControl.primary_selection := None;
       DataControl.cb_data := None; DataControl.cb_len := 0;
       DataControl.mime_type := "text/plain;charset=utf-8";
       DataControl.offer := None |} in
  let w := {| DataControl.os_next_handle := 10; DataControl.os_alloc_plan := [true; false];
              DataControl.os_write_plan := []; DataControl.events := [] |} in
  exists self' w',
    DataControl.data_control_to_clipboard self [Byte.x68; Byte.x69] 2 w = (Ok self', w')
    /\ DataControl.cb_data self' = None
    /\ DataControl.selection self' = None
    /\ DataControl.primary_selection self' = Some 10%positive
    /\ forall source mime fd w2,
         DataControl.data_control_source_send self' source mime fd w2 = (Abort, w2).
Proof.
  intros self w.
  destruct (to_clipboard_outcomes self [Byte.x68; Byte.x69] 2 3 w)
    as (self' & w' & E & Hdata & Hok & _ & Hsend); [lia|reflexivity|].
  exists self', w'. split; [exact E|]. split; [exact Hdata|].
  destruct (Hok eq_refl) as (_ & Hsel & Hprim & _).
  split; [exact Hsel|]. split; [exact Hprim|]. exact (Hsend eq_refl).
Defined.

(** ** Asking for the data of an offer *)
Section Receiving.

Import DataControl DataDevice Ledger.

Lemma occurrences_app (p : effect -> bool) (t u : list effect) :
  occurrences p (t ++ u) = (occurrences p t + occurrences p u)%nat.
Proof. unfold occurrences. now rewrite List.filter_app, length_app. Qed.

Lemma fd_apart (fd : Z) : (fd + 1 =? fd) = false /\ (fd =? fd + 1) = false.
Proof. split; apply Z.eqb_neq; lia. Qed.

Ltac walk :=
  unfold receive_data, sys_pipe, calloc_context, open_memstream, aml_handler_new,
    update_context, load_context, free_context, perform, lift, bind, ret, modify, gets,
    os_alloc_succeeds, os_fresh, log_error, sys_close, send;
  repeat (cbn -[lookup insert delete]; rewrite ?lookup_insert_eq).

Ltac settle :=
  walk; (eexists; split; [reflexivity|]); (split; [reflexivity|]);
  cbn -[lookup insert delete];
  rewrite <- ?app_assoc, ?delete_insert_eq, ?insert_insert_eq; repeat split.

(** What [receive_data] does on each of its five paths, after the
    outcomes of [pipe], [calloc], [open_memstream] and [aml_handler_new]. *)
Lemma receive_data_paths (self : data_control) (o : handle) (h : host) :
  let fd0 := next_fd h in
  let fd1 := fd0 + 1 in
  let c := h_next_handle h in
  let s := Pos.succ c in
  let a := Pos.succ s in
  let asked := [Sys_pipe fd0 fd1; Offer_receive o (mime_type self) fd1;
                Display_flush (wl_display self); Os (Sys_close fd1)] in
  exists h',
    receive_data self o h = (Ok tt, h')
    /\ read_plan h' = read_plan h
    /\ if negb (outcome 0 h) then
         trace h' = trace h ++ [Os (Log_error "pipe() failed: %m")]
         /\ contexts h' = contexts h /\ streams h' = streams h
         /\ handlers h' = handlers h
       else if negb (outcome 1 h) then
         trace h' = trace h ++ [Sys_pipe fd0 fd1; Os (Log_error "OOM");
                                Os (Sys_close fd0); Os (Sys_close fd1)]
         /\ contexts h' = contexts h /\ streams h' = streams h
         /\ handlers h' = handlers h
       else if negb (outcome 2 h) then
         trace h' = trace h ++ asked
                      ++ [Os (Sys_close fd0);
                          Os (Log_error "open_memstream() failed: %m")]
         /\ contexts h' = delete c (contexts h) /\ streams h' = streams h
         /\ handlers h' = handlers h
       else if negb (outcome 3 h) then
         trace h' = trace h ++ asked ++ [Os (Sys_close fd0)]
         /\ contexts h' = delete c (contexts h)
         /\ streams h' = <[s := {| target := c; written := [] |}]> (streams h)
         /\ handlers h' = handlers h
       else
         trace h' = trace h ++ asked
                      ++ [Handler_new a fd0 c; Loop_start a; Handler_unref a]
         /\ contexts h'
            = <[c := {| ctx_offer := Some o; ctx_fd := fd0; mem_fp := Some s;
                        mem_size := 0; mem_data := None |}]> (contexts h)
         /\ streams h' = <[s := {| target := c; written := [] |}]> (streams h)
         /\ handlers h' = <[a := (fd0, c)]> (handlers h).
Proof.
  destruct h as [next plan writes fd rplan ctxs strs hds tr]. unfold outcome.
  cbn [h_alloc_plan next_fd h_next_handle].
  destruct plan as [|[|] plan]; [settle| |settle].
  destruct plan as [|[|] plan]; [settle| |settle].
  destruct plan as [|[|] plan]; [settle| |settle].
  destruct plan as [|[|] plan]; settle.
Qed.

Lemma receive_data_returns (self : data_control) (o : handle) (h : host) :
  exists h', receive_data self o h = (Ok tt, h').
Proof. destruct (receive_data_paths self o h) as (h' & E & _). eauto. Qed.

(** X11.  [receive_data] in every case, after the outcomes of its four
    fallible calls ([pipe], [calloc], [open_memstream], [aml_handler_new]
    in this order): it always returns; once [pipe] has succeeded, the
    write end is closed exactly once; the read end is closed exactly once
    if a later call fails and stays open for the handler, which is started
    exactly then, if all succeed; no context stays allocated after a
    failure.  On no path is the offer destroyed, and if the handler cannot
    be made the stream stays open, pointing into the context that was
    freed. *)
Theorem receive_data_accounts_for_descriptors (self : data_control) (o : handle)
    (h : host) :
  let fd0 := next_fd h in
  let fd1 := fd0 + 1 in
  let c := h_next_handle h in
  let s := Pos.succ c in
  let a := Pos.succ s in
  let piped := outcome 0 h in
  let made := outcome 0 h && outcome 1 h && outcome 2 h in
  let started := made && outcome 3 h in
  exists h' added,
    receive_data self o h = (Ok tt, h')
    /\ trace h' = trace h ++ added
    /\ occurrences is_pipe added = (if piped then 1 else 0)%nat
    /\ occurrences (is_close fd1) added = (if piped then 1 else 0)%nat
    /\ occurrences (is_close fd0) added = (if piped && negb started then 1 else 0)%nat
    /\ occurrences is_receive added = (if outcome 0 h && outcome 1 h then 1 else 0)%nat
    /\ occurrences is_loop_start added = (if started then 1 else 0)%nat
    /\ occurrences (is_offer_destroy o) added = 0%nat
    /\ (started = true -> in_transfer h' a c s o fd0 [])
    /\ (started = false -> contexts h' ⊆ contexts h /\ handlers h' = handlers h)
    /\ (made = false -> streams h' = streams h)
    /\ (made && negb (outcome 3 h) = true ->
        streams h' !! s = Some {| target := c; written := [] |}
        /\ contexts h' !! c = None).
Proof.
  intros fd0 fd1 c s a piped made started.
  destruct (receive_data_paths self o h) as (h' & E & _ & Hpaths).
  fold fd0 fd1 c s a in Hpaths.
  subst piped made started.
  destruct (outcome 0 h); [destruct (outcome 1 h); [destruct (outcome 2 h);
    [destruct (outcome 3 h)|]|]|];
    cbn [negb andb] in Hpaths |- *;
    destruct Hpaths as (Htr & Hctx & Hstr & Hhd);
    eexists _, _; (split; [exact E|]); (split; [exact Htr|]);
    unfold occurrences, is_close; cbn -[lookup insert delete];
    unfold fd1;
    rewrite ?Z.eqb_refl, ?(proj1 (fd_apart fd0)), ?(proj2 (fd_apart fd0)), ?Pos.eqb_refl;
    cbn -[lookup insert delete];
    rewrite ?Hctx, ?Hstr, ?Hhd;
    repeat match goal with
           | |- _ /\ _ => split
           | |- true = true -> _ => intros _
           | |- false = true -> _ => discriminate
           | |- true = false -> _ => discriminate
           | |- false = false -> _ => intros _
           end;
    try reflexivity;
    try apply delete_subseteq; try apply lookup_delete_eq;
    try apply lookup_insert_eq.
  unfold in_transfer. rewrite Hhd, Hctx, Hstr, !lookup_insert_eq. eauto.
Qed.

End Receiving.

(** ** A transfer, from the first chunk to the release of its context *)
Section Transfer.

Import DataControl DataDevice Ledger.

Ltac run_handler :=
  unfold on_receive, destroy_receive_context, fclose, fwrite, sys_read, update_context,
    load_context, load_handler, free_context, perform, lift, bind, ret, modify, gets,
    deref, abort, sys_close, send.

(** One chunk arrives: it is appended to the stream, and nothing else
    changes. *)
Lemma on_receive_chunk (self : data_control) (h : host) (a c s o : handle) (fd : Z)
    (got d : list Byte.byte) (rest : list read_result) :
  in_transfer h a c s o fd got ->
  0 < Z.of_nat (length d) <= 4096 ->
  read_plan h = Read_chunk d :: rest ->
  exists h',
    on_receive self a h = (Ok tt, h')
    /\ in_transfer h' a c s o fd (got ++ d)
    /\ trace h' = trace h ++ [Sys_read fd (Z.of_nat (length d))]
    /\ read_plan h' = rest
    /\ delete c (contexts h') = delete c (contexts h)
    /\ delete s (streams h') = delete s (streams h)
    /\ handlers h' = handlers h.
Proof.
  destruct h as [next plan writes nfd rplan ctxs strs hds tr].
  unfold in_transfer. cbn [handlers contexts streams read_plan trace].
  intros (Ha & (size & data & Hc) & Hs) Hd ->.
  assert (Hall : firstn (Z.to_nat 4096) d = d) by (apply firstn_all2; lia).
  assert (Hpos : (Z.of_nat (length d) >? 0) = true) by (apply Z.gtb_lt; lia).
  run_handler. cbn -[lookup insert delete Z.to_nat firstn Z.gtb].
  rewrite Ha. cbn -[lookup insert delete Z.to_nat firstn Z.gtb].
  rewrite Hc. cbn -[lookup insert delete Z.to_nat firstn Z.gtb].
  rewrite Z.eqb_refl. cbn -[lookup insert delete Z.to_nat firstn Z.gtb].
  rewrite Hall, Hpos. cbn -[lookup insert delete Z.to_nat firstn Z.gtb].
  rewrite Hs. cbn -[lookup insert delete Z.to_nat firstn Z.gtb].
  eexists. split; [reflexivity|]. cbn -[lookup insert delete].
  rewrite lookup_insert_eq, delete_insert_eq. repeat split; eauto.
Qed.

(** The end of the data: the stream is closed, the text goes to the VNC
    server if there is any, and the handler is stopped; releasing the
    context then destroys the offer and closes the descriptor. *)
Lemma on_receive_end (self : data_control) (h : host) (a c s o : handle) (fd : Z)
    (got : list Byte.byte) (final : read_result) (rest : list read_result) :
  in_transfer h a c s o fd got ->
  final = Read_eof \/ final = Read_error ->
  read_plan h = final :: rest ->
  exists h',
    serve self [Readable a; Released c] h = (Ok self, h')
    /\ trace h' = trace h ++ [Sys_read fd (final_answer final)]
                   ++ cut_text (server self) got
                   ++ [Loop_stop a; Offer_destroy o; Os (Sys_close fd)]
    /\ read_plan h' = rest
    /\ contexts h' = delete c (contexts h)
    /\ streams h' = delete s (streams h)
    /\ handlers h' = handlers h.
Proof.
  destruct h as [next plan writes nfd rplan ctxs strs hds tr].
  unfold in_transfer. cbn [handlers contexts streams read_plan trace].
  intros (Ha & (size & data & Hc) & Hs) Hfinal ->.
  cbn [serve react].
  assert (Hgo : forall t : list Byte.byte,
            t = got -> (Z.of_nat (length t) =? 0) = match t with [] => true | _ => false end).
  { intros [|b t] _; [reflexivity|]. apply Z.eqb_neq. simpl length. lia. }
  destruct Hfinal as [-> | ->];
    run_handler; cbn -[lookup insert delete Z.of_nat length];
    rewrite Ha; cbn -[lookup insert delete Z.of_nat length];
    rewrite Hc; cbn -[lookup insert delete Z.of_nat length];
    rewrite Z.eqb_refl; cbn -[lookup insert delete Z.of_nat length];
    rewrite Hs; cbn -[lookup insert delete Z.of_nat length];
    rewrite Hc; cbn -[lookup insert delete Z.of_nat length];
    rewrite !lookup_insert_eq; cbn -[lookup insert delete Z.of_nat length];
    rewrite !lookup_insert_eq; cbn -[lookup insert delete Z.of_nat length];
    rewrite (Hgo got eq_refl);
    destruct got as [|b got];
    cbn -[lookup insert delete Z.of_nat length];
    rewrite ?lookup_insert_eq; cbn -[lookup insert delete Z.of_nat length];
    rewrite ?lookup_insert_eq; cbn -[lookup insert delete Z.of_nat length];
    (eexists; split; [reflexivity|]); cbn -[lookup insert delete Z.of_nat length];
    rewrite <- !app_assoc, !delete_insert_eq; repeat split.
Qed.

(** A transfer in flight runs to its end: one call of [on_receive] for
    every chunk, one more at the end of the data, and the release of the
    context. *)
Lemma transfer_completes (self : data_control) (h : host)
    (a c s o : handle) (fd : Z) (got : list Byte.byte)
    (chunks : list (list Byte.byte)) (final : read_result) (rest : list read_result) :
  in_transfer h a c s o fd got ->
  Forall (fun d => 0 < Z.of_nat (length d) <= 4096) chunks ->
  final = Read_eof \/ final = Read_error ->
  read_plan h = map Read_chunk chunks ++ final :: rest ->
  exists h',
    serve self (map (fun _ => Readable a) chunks ++ [Readable a; Released c]) h
    = (Ok self, h')
    /\ trace h' = trace h ++ reads fd chunks ++ [Sys_read fd (final_answer final)]
                   ++ cut_text (server self) (got ++ concat chunks)
                   ++ [Loop_stop a; Offer_destroy o; Os (Sys_close fd)]
    /\ read_plan h' = rest
    /\ contexts h' = delete c (contexts h)
    /\ streams h' = delete s (streams h)
    /\ handlers h' = handlers h.
Proof.
  intros Hin Hchunks Hfinal. revert h got Hin.
  induction Hchunks as [|d chunks Hd Hchunks IH]; intros h got Hin Hplan.
  - simpl app in *. rewrite app_nil_r.
    exact (on_receive_end self h a c s o fd got final rest Hin Hfinal Hplan).
  - destruct (on_receive_chunk self h a c s o fd got d
                (map Read_chunk chunks ++ final :: rest) Hin Hd Hplan)
      as (h1 & E1 & Hin1 & Htr1 & Hplan1 & Hctx1 & Hstr1 & Hhd1).
    destruct (IH h1 (got ++ d) Hin1 Hplan1) as (h' & E & Htr & Hp & Hctx & Hstr & Hhd).
    exists h'. split.
    + cbn [map app serve react]. unfold bind at 1. unfold bind at 1.
      rewrite E1. exact E.
    + rewrite Htr, Htr1, Hp, Hctx, Hstr, Hhd, Hctx1, Hstr1, Hhd1.
      cbn [reads map concat]. rewrite <- !app_assoc. repeat split.
Qed.

(** X12.  A transfer in flight, to its end.  The event loop calls
    [on_receive] once for every chunk that arrives (each no longer than
    the 4096 bytes of the buffer) and once more at the end of the data or
    on a read error, and then, the handler being stopped and no longer
    referenced, [destroy_receive_context].  The VNC server is handed the
    bytes read, all of them and in their order, in one call, or is not
    called at all if no byte was read; after that the handler is stopped,
    the offer is destroyed, the descriptor is closed, each exactly once,
    and the stream and the context are gone. *)
Theorem transfer_delivers_what_was_read (self : data_control) (h : host)
    (a c s o : handle) (fd : Z) (got : list Byte.byte)
    (chunks : list (list Byte.byte)) (final : read_result) (rest : list read_result) :
  in_transfer h a c s o fd got ->
  Forall (fun d => 0 < Z.of_nat (length d) <= 4096) chunks ->
  final = Read_eof \/ final = Read_error ->
  read_plan h = map Read_chunk chunks ++ final :: rest ->
  exists h',
    serve self (map (fun _ => Readable a) chunks ++ [Readable a; Released c]) h
    = (Ok self, h')
    /\ trace h' = trace h ++ reads fd chunks ++ [Sys_read fd (final_answer final)]
                   ++ cut_text (server self) (got ++ concat chunks)
                   ++ [Loop_stop a; Offer_destroy o; Os (Sys_close fd)]
    /\ read_plan h' = rest
    /\ contexts h' = delete c (contexts h)
    /\ streams h' = delete s (streams h)
    /\ handlers h' = handlers h.
Proof.
  intros Hin Hchunks Hfinal Hplan.
  exact (transfer_completes self h a c s o fd got chunks final rest
           Hin Hchunks Hfinal Hplan).
Qed.

End Transfer.

Lemma transfer_delivers_what_was_read_witness :
  exists h',
    DataDevice.serve ClipboardExamples.clip0
      (map (fun _ => DataDevice.Readable 12) [[Byte.x68; Byte.x69]; [Byte.x21]]
       ++ [DataDevice.Readable 12; DataDevice.Released 10])
      ClipboardExamples.host_in_transfer
    = (Ok ClipboardExamples.clip0, h')
    /\ DataDevice.trace h'
       = DataDevice.trace ClipboardExamples.host_in_transfer
         ++ Ledger.reads 5 [[Byte.x68; Byte.x69]; [Byte.x21]]
         ++ [DataDevice.Sys_read 5 (Ledger.final_answer DataDevice.Read_eof)]
         ++ Ledger.cut_text (DataControl.server ClipboardExamples.clip0)
              ([] ++ concat [[Byte.x68; Byte.x69]; [Byte.x21]])
         ++ [DataDevice.Loop_stop 12; DataDevice.Offer_destroy 20;
             DataDevice.Os (DataControl.Sys_close 5)]
    /\ DataDevice.read_plan h' = []
    /\ DataDevice.contexts h'
       = delete 10%positive (DataDevice.contexts ClipboardExamples.host_in_transfer)
    /\ DataDevice.streams h'
       = delete 11%positive (DataDevice.streams ClipboardExamples.host_in_transfer)
    /\ DataDevice.handlers h' = DataDevice.handlers ClipboardExamples.host_in_transfer.
Proof.
  apply (transfer_delivers_what_was_read ClipboardExamples.clip0
           ClipboardExamples.host_in_transfer 12 10 11 20 5 []
           [[Byte.x68; Byte.x69]; [Byte.x21]] DataDevice.Read_eof []).
  - split; [vm_compute; reflexivity|].
    split; [eexists _, _; vm_compute; reflexivity|vm_compute; reflexivity].
  - repeat constructor; simpl; lia.
  - now left.
  - reflexivity.
Defined.

(** ** What the clipboard code can cause *)
Section Confinement.

Import DataControl DataDevice Ledger.

Context (p : effect -> bool).

Lemma confined_ret {A : Type} (a : A) : confined p (ret a).
Proof. intros h r h' [= _ <-]. exists []. now rewrite app_nil_r. Qed.

Lemma confined_abort {A : Type} : confined p (@abort host A).
Proof. intros h r h' [= _ <-]. exists []. now rewrite app_nil_r. Qed.

Lemma confined_bind {A B : Type} (m : M host A) (k : A -> M host B) :
  confined p m -> (forall a, confined p (k a)) -> confined p (bind m k).
Proof.
  intros Hm Hk h r h' H. unfold bind in H.
  destruct (m h) as [[a|] h1] eqn:E1.
  - destruct (Hm _ _ _ E1) as (t1 & H1 & F1).
    destruct (Hk a _ _ _ H) as (t2 & H2 & F2).
    exists (t1 ++ t2). rewrite H2, H1, app_assoc. split; [reflexivity|].
    now rewrite forallb_app, F1, F2.
  - injection H as <- <-. exact (Hm _ _ _ E1).
Qed.

Lemma confined_deref {A : Type} (x : option A) : confined p (@deref host A x).
Proof. destruct x; [apply confined_ret|apply confined_abort]. Qed.

Lemma confined_modify (f : host -> host) :
  (forall h, trace (f h) = trace h) -> confined p (modify f).
Proof. intros Hf h r h' [= _ <-]. exists []. now rewrite app_nil_r, Hf. Qed.

Lemma confined_perform (e : effect) : p e = true -> confined p (perform e).
Proof. intros He h r h' [= _ <-]. exists [e]. simpl. now rewrite He. Qed.

Lemma confined_load_context (c : handle) : confined p (load_context c).
Proof.
  intros h r h'. unfold load_context.
  destruct (contexts h !! c); intros [= _ <-]; exists []; now rewrite app_nil_r.
Qed.

Lemma confined_load_handler (a : handle) : confined p (load_handler a).
Proof.
  intros h r h'. unfold load_handler.
  destruct (handlers h !! a); intros [= _ <-]; exists []; now rewrite app_nil_r.
Qed.

Lemma confined_update_context (c : handle) (f : receive_context -> receive_context) :
  confined p (update_context c f).
Proof.
  apply confined_bind; [apply confined_load_context|]. intros ctx.
  now apply confined_modify.
Qed.

Lemma confined_free_context (c : handle) : confined p (free_context c).
Proof. now apply confined_modify. Qed.

Lemma confined_fwrite (s : handle) (d : list Byte.byte) : confined p (fwrite s d).
Proof.
  intros h r h'. unfold fwrite.
  destruct (streams h !! s); intros [= _ <-]; exists []; now rewrite app_nil_r.
Qed.

Lemma confined_fclose (s : handle) : confined p (fclose s).
Proof.
  intros h r h'. unfold fclose. destruct (streams h !! s) as [st|].
  - apply confined_bind; [apply confined_update_context|]. intros _.
    now apply confined_modify.
  - intros [= _ <-]. exists []. now rewrite app_nil_r.
Qed.

(** The source code of [DataControl] causes system calls, log lines and
    requests on sources only. *)
Hypothesis p_os : forall e, p (Os e) = true.

Lemma confined_lift {A : Type} (m : M os A) : confined p (lift m).
Proof.
  intros h r h'. unfold lift. destruct (m _) as [r0 out]. intros [= _ <-].
  eexists. split; [reflexivity|]. simpl.
  induction (events out) as [|e es IH]; [reflexivity|]. simpl. now rewrite p_os.
Qed.

Lemma confined_cancelled (self : data_control) (x : handle) :
  p (Source_destroy x) = true -> confined p (data_control_source_cancelled self x).
Proof.
  intros Hx. unfold data_control_source_cancelled.
  apply confined_bind; [now apply confined_perform|]. intros _. apply confined_ret.
Qed.

Hypothesis p_read : forall fd n, p (Sys_read fd n) = true.
Hypothesis p_cut : forall srv text n, p (Send_cut_text srv text n) = true.
Hypothesis p_stop : forall a, p (Loop_stop a) = true.
Hypothesis p_offer_destroy : forall o, p (Offer_destroy o) = true.
Hypothesis p_listen : forall o, p (Offer_add_listener o) = true.

Lemma confined_sys_read (fd size : Z) : confined p (sys_read fd size).
Proof. intros h r h' [= _ <-]. eexists. split; [reflexivity|]. simpl. now rewrite p_read. Qed.

Lemma confined_on_receive (self : data_control) (a : handle) :
  confined p (on_receive self a).
Proof.
  unfold on_receive.
  apply confined_bind; [apply confined_load_handler|]. intros hd.
  apply confined_bind; [apply confined_load_context|]. intros ctx.
  destruct (negb _); [apply confined_abort|].
  apply confined_bind; [apply confined_sys_read|]. intros r.
  destruct (fst r >? 0).
  - apply confined_bind; [apply confined_deref|]. intros s. apply confined_fwrite.
  - apply confined_bind; [apply confined_deref|]. intros s.
    apply confined_bind; [apply confined_fclose|]. intros _.
    apply confined_bind; [apply confined_update_context|]. intros _.
    apply confined_bind; [apply confined_load_context|]. intros ctx'.
    apply confined_bind.
    + destruct (negb _); [|apply confined_ret].
      apply confined_bind; [apply confined_deref|]. intros text.
      now apply confined_perform.
    + intros _. now apply confined_perform.
Qed.

Lemma confined_destroy_context (c : handle) : confined p (destroy_receive_context c).
Proof.
  unfold destroy_receive_context.
  apply confined_bind; [apply confined_load_context|]. intros ctx.
  apply confined_bind; [destruct (mem_fp ctx); [apply confined_fclose|apply confined_ret]|].
  intros _. apply confined_bind; [apply confined_load_context|]. intros ctx'.
  apply confined_bind; [apply confined_deref|]. intros o.
  apply confined_bind; [now apply confined_perform|]. intros _.
  apply confined_bind; [apply confined_lift|]. intros _. apply confined_free_context.
Qed.

Lemma confined_device_offer (self : data_control) (id : option handle) :
  confined p (data_control_device_offer self id).
Proof. destruct id; [now apply confined_perform|apply confined_ret]. Qed.

Hypothesis p_pipe : forall r w, p (Sys_pipe r w) = true.
Hypothesis p_receive : forall o mime fd, p (Offer_receive o mime fd) = true.
Hypothesis p_flush : forall d, p (Display_flush d) = true.
Hypothesis p_handler : forall a fd c, p (Handler_new a fd c) = true.
Hypothesis p_start : forall a, p (Loop_start a) = true.
Hypothesis p_unref : forall a, p (Handler_unref a) = true.

Lemma confined_receive_data (self : data_control) (o : handle) :
  confined p (receive_data self o).
Proof.
  unfold receive_data, sys_pipe, calloc_context, open_memstream, aml_handler_new.
  apply confined_bind.
  { apply confined_bind; [now apply confined_lift|]. intros [|]; [|apply confined_ret].
    apply confined_bind; [intros h r h' [= _ <-]; exists []; now rewrite app_nil_r|].
    intros fd. apply confined_bind; [now apply confined_modify|]. intros _.
    apply confined_bind; [now apply confined_perform|]. intros _. apply confined_ret. }
  intros [[fd0 fd1]|]; [|now apply confined_lift].
  apply confined_bind.
  { apply confined_bind; [now apply confined_lift|]. intros [|]; [|apply confined_ret].
    apply confined_bind; [now apply confined_lift|]. intros c.
    apply confined_bind; [now apply confined_modify|]. intros _. apply confined_ret. }
  intros [c|].
  - apply confined_bind; [now apply confined_perform|]. intros _.
    apply confined_bind; [now apply confined_perform|]. intros _.
    apply confined_bind; [now apply confined_lift|]. intros _.
    apply confined_bind; [apply confined_update_context|]. intros _.
    apply confined_bind.
    { apply confined_bind; [now apply confined_lift|]. intros [|]; [|apply confined_ret].
      apply confined_bind; [now apply confined_lift|]. intros s.
      apply confined_bind; [now apply confined_modify|]. intros _. apply confined_ret. }
    intros s. apply confined_bind; [apply confined_update_context|]. intros _.
    destruct s as [s|].
    + apply confined_bind; [apply confined_load_context|]. intros ctx.
      apply confined_bind.
      { apply confined_bind; [now apply confined_lift|]. intros [|]; [|apply confined_ret].
        apply confined_bind; [now apply confined_lift|]. intros a.
        apply confined_bind; [now apply confined_modify|]. intros _.
        apply confined_bind; [now apply confined_perform|]. intros _. apply confined_ret. }
      intros [a|].
      * apply confined_bind; [now apply confined_perform|]. intros _.
        now apply confined_perform.
      * apply confined_bind; [apply confined_load_context|]. intros ctx'.
        apply confined_bind; [now apply confined_lift|]. intros _.
        apply confined_free_context.
    + apply confined_bind; [apply confined_load_context|]. intros ctx.
      apply confined_bind; [now apply confined_lift|]. intros _.
      apply confined_bind; [apply confined_free_context|]. intros _.
      now apply confined_lift.
  - apply confined_bind; [now apply confined_lift|]. intros _.
    apply confined_bind; [now apply confined_lift|]. intros _. now apply confined_lift.
Qed.

Lemma confined_selection (self : data_control) (id : option handle) :
  confined p (data_control_device_selection self id)
  /\ confined p (data_control_device_primary_selection self id).
Proof.
  unfold data_control_device_selection, data_control_device_primary_selection.
  destruct id as [o|]; [|split; apply confined_ret].
  destruct (is_pending_offer self (Some o)); [|split; apply confined_ret].
  split; (apply confined_bind; [apply confined_receive_data|]); intros _;
    apply confined_ret.
Qed.

(** Every signal but the two that can ask for data. *)
Lemma confined_react (self : data_control) (sig : signal) :
  (forall d, sig = Finished d -> p (Device_destroy d) = true) ->
  (forall x, sig = Cancelled x -> p (Source_destroy x) = true) ->
  match sig with
  | Selection _ | Primary_selection _ => True
  | _ => confined p (react self sig)
  end.
Proof.
  intros Hd Hx. destruct sig; try exact I; cbn [react].
  - apply confined_bind; [apply confined_device_offer|]. intros _. apply confined_ret.
  - apply confined_ret.
  - apply confined_bind; [|intros _; apply confined_ret].
    apply confined_perform. now apply Hd.
  - now apply confined_lift.
  - apply confined_cancelled. now apply Hx.
  - apply confined_bind; [apply confined_on_receive|]. intros _. apply confined_ret.
  - apply confined_bind; [apply confined_destroy_context|]. intros _. apply confined_ret.
  - now apply confined_lift.
Qed.

End Confinement.

Section Counting.

Import DataControl DataDevice Ledger.

Lemma occurrences_none (q : effect -> bool) (t : list effect) :
  forallb (fun e => negb (q e)) t = true -> occurrences q t = 0%nat.
Proof.
  unfold occurrences. induction t as [|e t IH]; [reflexivity|]. simpl.
  intros H. apply andb_prop in H as [He Ht]. apply negb_true_iff in He.
  rewrite He. now apply IH.
Qed.

End Counting.

(** ** What the handlers leave of the state *)
Section Steadiness.

Import DataControl DataDevice Ledger.

Lemma lift_inv {A : Type} (m : M os A) (h h' : host) (r : res A) :
  lift m h = (r, h') -> exists w w', m w = (r, w').
Proof.
  unfold lift. destruct (m _) as [r0 out] eqn:E. intros [= <- _]. eauto.
Qed.

(** [data_control_to_clipboard] writes the stored data, their length and
    the two selection fields, and no other field. *)
Lemma to_clipboard_fields (self s : data_control) (text : list Byte.byte) (len : Z)
    (w w' : os) :
  data_control_to_clipboard self text len w = (Ok s, w') ->
  exists d l sel prim,
    s = set_primary_selection_field prim
          (set_selection_field sel (set_cb_len l (set_cb_data d self))).
Proof.
  destruct self as [dpy srv mgr dev sel0 prim0 data0 len0 mime off].
  destruct w as [next plan writes evs].
  unfold data_control_to_clipboard, set_selection.
  destruct (len =? 0); [intros [= <- _]; eexists _, _, _, _;
    unfold set_primary_selection_field, set_selection_field, set_cb_len, set_cb_data;
    cbn; reflexivity|].
  destruct mgr as [mgr|];
    destruct plan as [|[|] [|[|] [|[|] rest]]]; cbn; intros [= <- _];
    eexists _, _, _, _;
    unfold set_primary_selection_field, set_selection_field, set_cb_len, set_cb_data;
    cbn; reflexivity.
Qed.

Lemma source_send_self (self s : data_control) (x : handle) (mime : string) (fd : Z)
    (w w' : os) :
  data_control_source_send self x mime fd w = (Ok s, w') -> s = self.
Proof.
  unfold data_control_source_send. destruct (cb_data self); [|discriminate].
  unfold deref, bind, ret, sys_write, sys_close, send, log_error, modify. cbn.
  destruct (_ <? _); now intros [= <- _].
Qed.

Context {X : Type} (f : data_control -> X).

(** [f] reads none of the fields that the clipboard source code and the
    cancel handler write. *)
Hypothesis f_source : forall d l sel prim self,
  f (set_primary_selection_field prim
       (set_selection_field sel (set_cb_len l (set_cb_data d self)))) = f self.
Hypothesis f_selection : forall v self, f (set_selection_field v self) = f self.
Hypothesis f_primary : forall v self, f (set_primary_selection_field v self) = f self.

Lemma steady_then (self : data_control) (m : M host unit) :
  steady f self (m ;;; ret self).
Proof.
  intros h s h' H. unfold bind in H. destruct (m h) as [[[]|] h1]; [|discriminate].
  now injection H as <- _.
Qed.

Lemma steady_source (self : data_control) (sig : signal) :
  match sig with
  | Send _ _ _ | To_clipboard _ _ | Cancelled _ | Data_offer _ | Finished _
  | Readable _ | Released _ => steady f self (react self sig)
  | _ => True
  end.
Proof.
  destruct sig; try exact I; cbn [react]; try apply steady_then.
  - intros h s h' H. apply lift_inv in H as (w & w' & H).
    now rewrite (source_send_self _ _ _ _ _ _ _ H).
  - intros h s h' H. unfold data_control_source_cancelled in H.
    injection H as <- _.
    destruct (names (selection self) source); destruct (names _ source);
      now rewrite ?f_primary, ?f_selection.
  - intros h s h' H. apply lift_inv in H as (w & w' & H).
    apply to_clipboard_fields in H as (d & l & sel & prim & ->). apply f_source.
Qed.

End Steadiness.

(** ** Offers and selections *)
Section Offers.

Import DataControl DataDevice Ledger.

Lemma not_pending (self : data_control) (a : handle) (id : option handle) :
  offer self = Some a ->
  (forall o, id = Some o -> Pos.eqb o a = false) ->
  is_pending_offer self id = false.
Proof.
  intros Ha Hid. unfold is_pending_offer. rewrite Ha. destruct id as [o|]; [|reflexivity].
  rewrite Pos.eqb_sym. now apply Hid.
Qed.

(** A signal that does not ask for the pending offer leaves it pending and
    asks for no data. *)
Lemma react_blocked (self : data_control) (a : handle) (sig : signal) :
  offer self = Some a ->
  selects a sig = false ->
  confined (fun e => negb (is_receive e)) (react self sig)
  /\ steady offer self (react self sig).
Proof.
  intros Ha Hsig.
  assert (Hquiet := confined_react (fun e => negb (is_receive e))
                      ltac:(reflexivity) ltac:(reflexivity) ltac:(reflexivity)
                      ltac:(reflexivity) ltac:(reflexivity) ltac:(reflexivity)
                      self sig ltac:(reflexivity) ltac:(reflexivity)).
  assert (Hsteady := steady_source offer ltac:(reflexivity) ltac:(reflexivity)
                       ltac:(reflexivity) self sig).
  destruct sig; try (split; [exact Hquiet|exact Hsteady]).
  - (* offer *)
    split; [exact Hquiet|]. intros h s h' [= <- _].
    unfold data_control_offer. now rewrite Ha.
  - (* selection *)
    cbn [react]. unfold data_control_device_selection.
    rewrite (not_pending self a id Ha)
      by (intros o ->; exact Hsig).
    destruct id; (split; [apply confined_ret|now intros h s h' [= <- _]]).
  - (* primary selection *)
    cbn [react]. unfold data_control_device_primary_selection.
    rewrite (not_pending self a id Ha)
      by (intros o ->; exact Hsig).
    destruct id; (split; [apply confined_ret|now intros h s h' [= <- _]]).
Qed.

(** X13.  An offer that is pending blocks the clipboard until it is
    selected: while [self->offer] names the offer [a], no sequence of
    signals without a selection or primary selection of [a] asks any offer
    for its data, whatever later offers advertise and whichever of them
    are selected; [a] stays pending throughout. *)
Theorem unselected_offer_blocks_later_offers (self : data_control) (a : handle)
    (signals : list signal) (h : host) :
  offer self = Some a ->
  forallb (fun s => negb (selects a s)) signals = true ->
  let after := serve self signals h in
  (exists added,
     trace (snd after) = trace h ++ added
     /\ occurrences is_receive added = 0%nat)
  /\ (forall s, fst after = Ok s -> offer s = Some a).
Proof.
  intros Ha Hsignals. cbn zeta. revert self h Ha.
  induction signals as [|sig signals IH]; intros self h Ha.
  - simpl. split; [exists []; now rewrite app_nil_r|]. now intros s [= <-].
  - simpl in Hsignals. apply andb_prop in Hsignals as [Hsig Hrest].
    apply negb_true_iff in Hsig.
    destruct (react_blocked self a sig Ha Hsig) as [Hquiet Hsteady].
    cbn [serve]. unfold bind. destruct (react self sig h) as [[s1|] h1] eqn:E.
    + destruct (Hquiet _ _ _ E) as (t1 & Ht1 & F1).
      assert (Ha1 : offer s1 = Some a) by (rewrite (Hsteady _ _ _ E); exact Ha).
      destruct (IH Hrest s1 h1 Ha1) as [(t2 & Ht2 & F2) Hfinal].
      split; [|exact Hfinal].
      exists (t1 ++ t2). rewrite Ht2, Ht1, app_assoc. split; [reflexivity|].
      rewrite occurrences_app, F2, (occurrences_none _ _ F1). reflexivity.
    + destruct (Hquiet _ _ _ E) as (t1 & Ht1 & F1). simpl.
      split; [|discriminate]. exists t1. split; [exact Ht1|].
      exact (occurrences_none _ _ F1).
Qed.

Lemma offers_fold (self : data_control) (offers : list (handle * string)) (h : host) :
  serve self (map advertise offers) h
  = (Ok (set_offer_field
           (match offer self with
            | Some a => Some a
            | None => first_offer (mime_type self) offers
            end) self), h).
Proof.
  revert self. induction offers as [|[o m] offers IH]; intros self.
  - simpl. destruct self as [? ? ? ? ? ? ? ? ? [?|]]; reflexivity.
  - cbn [map advertise serve react fst snd]. unfold bind, ret. rewrite IH.
    unfold data_control_offer. destruct (offer self) as [a|] eqn:Ha.
    + rewrite Ha. reflexivity.
    + cbn [first_offer]. destruct (String.eqb m (mime_type self)); simpl.
      * reflexivity.
      * rewrite Ha. reflexivity.
Qed.

(** X14.  Which offer is asked for its data.  Of the offers advertised
    while none is pending, the first that advertises exactly the MIME type
    of the state becomes pending, and no later one replaces it.  A
    selection (or primary selection) of the pending offer runs
    [receive_data] on it and clears [self->offer], also when
    [receive_data] has failed, so that the other of the two signals for
    the same offer does nothing; a selection of any other offer, or of
    none, does nothing at all. *)
Theorem first_matching_offer_is_kept (self : data_control)
    (offers : list (handle * string)) (h : host) :
  let kept := match offer self with
              | Some a => Some a
              | None => first_offer (mime_type self) offers
              end in
  let self1 := set_offer_field kept self in
  serve self (map advertise offers) h = (Ok self1, h)
  /\ (forall o, kept = Some o ->
        exists h1,
          receive_data self1 o h = (Ok tt, h1)
          /\ react self1 (Selection (Some o)) h = (Ok (set_offer_field None self1), h1)
          /\ react self1 (Primary_selection (Some o)) h
             = (Ok (set_offer_field None self1), h1)
          /\ serve self1 [Selection (Some o); Primary_selection (Some o)] h
             = (Ok (set_offer_field None self1), h1)
          /\ serve self1 [Primary_selection (Some o); Selection (Some o)] h
             = (Ok (set_offer_field None self1), h1))
  /\ (forall id, id <> kept ->
        react self1 (Selection id) h = (Ok self1, h)
        /\ react self1 (Primary_selection id) h = (Ok self1, h)).
Proof.
  intros kept self1. split; [apply offers_fold|]. split.
  - intros o Ho. destruct (receive_data_returns self1 o h) as (h1 & E).
    exists h1. split; [exact E|].
    assert (Hpending : is_pending_offer self1 (Some o) = true).
    { unfold is_pending_offer, self1. cbn [offer set_offer_field]. rewrite Ho.
      apply Pos.eqb_refl. }
    assert (Hsel : react self1 (Selection (Some o)) h
                   = (Ok (set_offer_field None self1), h1)).
    { cbn [react]. unfold data_control_device_selection. rewrite Hpending.
      unfold bind. now rewrite E. }
    assert (Hprim : react self1 (Primary_selection (Some o)) h
                    = (Ok (set_offer_field None self1), h1)).
    { cbn [react]. unfold data_control_device_primary_selection. rewrite Hpending.
      unfold bind. now rewrite E. }
    split; [exact Hsel|]. split; [exact Hprim|].
    split; cbn [serve]; unfold bind at 1; rewrite ?Hsel, ?Hprim; reflexivity.
  - intros id Hid.
    assert (Hpending : is_pending_offer self1 id = false).
    { unfold is_pending_offer, self1. cbn [offer set_offer_field].
      destruct id as [o|]; [|reflexivity]. destruct kept as [a|]; [|reflexivity].
      apply Pos.eqb_neq. congruence. }
    cbn [react]. unfold data_control_device_selection,
      data_control_device_primary_selection. rewrite Hpending.
    now destruct id.
Qed.

End Offers.

Lemma unselected_offer_blocks_later_offers_witness :
  let self := DataDevice.set_offer_field (Some 20%positive) ClipboardExamples.clip0 in
  let h := ClipboardExamples.host0 [] [] in
  let after := DataDevice.serve self
                 [DataDevice.Data_offer (Some 21%positive);
                  DataDevice.Offer 21 "text/plain;charset=utf-8";
                  DataDevice.Selection (Some 21%positive);
                  DataDevice.Primary_selection (Some 21%positive)] h in
  (exists added,
     DataDevice.trace (snd after) = DataDevice.trace h ++ added
     /\ Ledger.occurrences Ledger.is_receive added = 0%nat)
  /\ (forall s, fst after = Ok s -> DataControl.offer s = Some 20%positive).
Proof.
  apply (unselected_offer_blocks_later_offers
           (DataDevice.set_offer_field (Some 20%positive) ClipboardExamples.clip0) 20
           [DataDevice.Data_offer (Some 21%positive);
            DataDevice.Offer 21 "text/plain;charset=utf-8";
            DataDevice.Selection (Some 21%positive);
            DataDevice.Primary_selection (Some 21%positive)]
           (ClipboardExamples.host0 [] [])); reflexivity.
Defined.

(** ** The end of sources and of the device *)
Section Destroying.

Import DataControl DataDevice Ledger.

Lemma names_spec (v : option handle) (x : handle) :
  names v x = true <-> v = Some x.
Proof.
  unfold names. destruct v as [y|]; [|split; discriminate].
  rewrite Pos.eqb_eq. split; congruence.
Qed.

Lemma cancelled_spec (self : data_control) (y : handle) (h : host) :
  let s1 := if names (primary_selection self) y
            then set_primary_selection_field None
                   (if names (selection self) y then set_selection_field None self else self)
            else if names (selection self) y then set_selection_field None self else self in
  data_control_source_cancelled self y h
  = (Ok s1, set_trace (fun t => t ++ [Source_destroy y]) h).
Proof.
  unfold data_control_source_cancelled.
  destruct (names (selection self) y); reflexivity.
Qed.

Lemma destroy_spec (self : data_control) (h : host) :
  exists s2 h2,
    data_control_destroy self h = (Ok s2, h2)
    /\ trace h2 = trace h
                  ++ match selection self with Some s => [Source_destroy s] | None => [] end
                  ++ match primary_selection self with
                     | Some s => [Source_destroy s]
                     | None => []
                     end
                  ++ [Device_destroy (device self)]
    /\ selection s2 = None /\ primary_selection s2 = None
    /\ device s2 = device self.
Proof.
  unfold data_control_destroy, perform, bind, ret, modify.
  destruct (selection self) as [s|] eqn:Hs;
    cbn [primary_selection set_selection_field];
    destruct (primary_selection self) as [q|] eqn:Hq;
    eexists _, _; (split; [reflexivity|]); cbn; rewrite <- ?app_assoc, ?Hs;
    repeat split; assumption.
Qed.

(** X15.  Every source is destroyed exactly once.  The compositor cancels
    some sources, each once and in any order, and then the clipboard is
    destroyed: each source that was cancelled or that the state held as
    selection or primary selection is destroyed exactly once, and no
    other; no field names a source afterwards.  This needs the two fields
    to hold different sources, as they do after
    [data_control_to_clipboard]. *)
Theorem every_source_is_destroyed_once (self : data_control)
    (cancelled : list handle) (h : host) :
  NoDup cancelled ->
  selection self = None \/ selection self <> primary_selection self ->
  exists s1 h1 s2 h2 added,
    serve self (map Cancelled cancelled) h = (Ok s1, h1)
    /\ data_control_destroy s1 h1 = (Ok s2, h2)
    /\ trace h2 = trace h ++ added
    /\ (forall x,
          occurrences (is_source_destroy x) added
          = if existsb (Pos.eqb x) cancelled || holds self x then 1%nat else 0%nat)
    /\ selection s2 = None /\ primary_selection s2 = None
    /\ occurrences (is_device_destroy (device self)) added = 1%nat.
Proof.
  intros Hnodup. revert self h.
  induction Hnodup as [|y rest Hy Hnodup IH]; intros self h Hdistinct.
  - destruct (destroy_spec self h) as (s2 & h2 & E & Htr & Hsel & Hprim & _).
    exists self, h, s2, h2. eexists. split; [reflexivity|]. split; [exact E|].
    split; [exact Htr|]. split; [|split; [exact Hsel|split; [exact Hprim|]]].
    + intros x. unfold holds, names. cbn [existsb orb].
      destruct (selection self) as [s|]; destruct (primary_selection self) as [q|];
        unfold occurrences; cbn; rewrite ?(Pos.eqb_sym x);
        try destruct (Pos.eqb s x) eqn:Es; try destruct (Pos.eqb q x) eqn:Eq;
        try reflexivity.
      apply Pos.eqb_eq in Es, Eq. subst. destruct Hdistinct; congruence.
    + destruct (selection self); destruct (primary_selection self);
        unfold occurrences; cbn; now rewrite Pos.eqb_refl.
  - cbn [map serve react]. unfold bind at 1. rewrite cancelled_spec.
    set (s' := if names (primary_selection self) y then _ else _).
    assert (Hfields : selection s' = (if names (selection self) y then None
                                      else selection self)
                      /\ primary_selection s' = (if names (primary_selection self) y
                                                 then None else primary_selection self)
                      /\ device s' = device self).
    { unfold s'. destruct (names (primary_selection self) y);
        destruct (names (selection self) y); repeat split. }
    destruct Hfields as (Hsel' & Hprim' & Hdev').
    assert (Hdistinct' : selection s' = None \/ selection s' <> primary_selection s').
    { rewrite Hsel', Hprim'. destruct (names (selection self) y); [now left|].
      destruct Hdistinct as [Hnone|Hne]; [now left|].
      destruct (names (primary_selection self) y); [|now right].
      destruct (selection self); [right; discriminate|now left]. }
    destruct (IH s' (set_trace (fun t => t ++ [Source_destroy y]) h) Hdistinct')
      as (s1 & h1 & s2 & h2 & added & E1 & E2 & Htr & Hcount & Hs & Hp & Hdevice).
    exists s1, h1, s2, h2, (Source_destroy y :: added).
    split; [exact E1|]. split; [exact E2|].
    split; [rewrite Htr; cbn [trace set_trace]; now rewrite <- app_assoc|].
    split; [|split; [exact Hs|split; [exact Hp|]]].
    + intros x. unfold occurrences in *. cbn [List.filter is_source_destroy existsb].
      specialize (Hcount x). rewrite (Pos.eqb_sym x y).
      destruct (Pos.eqb y x) eqn:Eyx.
      * apply Pos.eqb_eq in Eyx. subst x. cbn [length orb]. rewrite Hcount.
        assert (Hrest : existsb (Pos.eqb y) rest = false).
        { apply not_true_is_false. intros Hin. apply existsb_exists in Hin as (z & Hz & Ez).
          apply Pos.eqb_eq in Ez. subst z. apply Hy. now apply list_elem_of_In. }
        assert (Hheld : holds s' y = false).
        { unfold holds. rewrite Hsel', Hprim'.
          destruct (names (selection self) y) eqn:E3;
            destruct (names (primary_selection self) y) eqn:E4; cbn; rewrite ?E3, ?E4;
            reflexivity. }
        now rewrite Hrest, Hheld.
      * cbn [orb]. rewrite Hcount.
        assert (Hheld : holds s' x = holds self x).
        { unfold holds. rewrite Hsel', Hprim'.
          assert (Hclear : forall v, (if names v y then None else v) = v
                                     \/ (v = Some y /\ names v y = true)).
          { intros v. destruct (names v y) eqn:E3; [right|now left].
            split; [now apply names_spec|reflexivity]. }
          destruct (Hclear (selection self)) as [-> | [Hv ->]];
            destruct (Hclear (primary_selection self)) as [-> | [Hq ->]];
            rewrite ?Hv, ?Hq; unfold names; rewrite ?Eyx; reflexivity. }
        now rewrite Hheld.
    + unfold occurrences in *. cbn [List.filter is_device_destroy].
      rewrite <- Hdev'. exact Hdevice.
Qed.

(** The device of the state and what a signal destroys of it. *)
Lemma react_device (self : data_control) (sig : signal) (h h' : host)
    (r : res data_control) :
  react self sig h = (r, h') ->
  (forall s, r = Ok s -> device s = device self)
  /\ exists added,
       trace h' = trace h ++ added
       /\ occurrences (is_device_destroy (device self)) added
          = (if is_finished (device self) sig then 1%nat else 0%nat).
Proof.
  intros E.
  set (p := fun e => negb (is_device_destroy (device self) e)).
  assert (Hquiet : is_finished (device self) sig = false -> confined p (react self sig)).
  { intros Hfin.
    assert (H := confined_react p ltac:(reflexivity) ltac:(reflexivity)
                   ltac:(reflexivity) ltac:(reflexivity) ltac:(reflexivity)
                   ltac:(reflexivity) self sig).
    destruct sig; try (apply H; [intros d [= <-]|intros x [= <-]]; try reflexivity;
                       try discriminate).
    - apply (confined_selection p); reflexivity.
    - apply (confined_selection p); reflexivity.
    - unfold p. cbn [is_device_destroy is_finished] in *. now rewrite Hfin. }
  assert (Hsteady : forall s, r = Ok s -> device s = device self).
  { intros s ->.
    assert (H := steady_source device ltac:(reflexivity) ltac:(reflexivity)
                   ltac:(reflexivity) self sig).
    destruct sig; try exact (H _ _ _ E); cbn [react] in E.
    - injection E as <- _. unfold data_control_offer.
      destruct (offer self); [|destruct (negb _)]; reflexivity.
    - unfold data_control_device_selection in E. destruct id as [o|].
      + destruct (is_pending_offer self (Some o)).
        * unfold bind in E. destruct (receive_data self o h) as [[[]|] h1];
            [|discriminate]. now injection E as <- _.
        * now injection E as <- _.
      + now injection E as <- _.
    - unfold data_control_device_primary_selection in E. destruct id as [o|].
      + destruct (is_pending_offer self (Some o)).
        * unfold bind in E. destruct (receive_data self o h) as [[[]|] h1];
            [|discriminate]. now injection E as <- _.
        * now injection E as <- _.
      + now injection E as <- _. }
  split; [exact Hsteady|].
  destruct (is_finished (device self) sig) eqn:Hfin.
  - destruct sig; try discriminate. cbn [is_finished] in Hfin.
    apply Pos.eqb_eq in Hfin. subst dev. cbn in E. injection E as _ <-.
    eexists. split; [reflexivity|]. unfold occurrences. cbn. now rewrite Pos.eqb_refl.
  - destruct (Hquiet eq_refl _ _ _ E) as (added & Htr & F).
    exists added. split; [exact Htr|]. exact (occurrences_none _ _ F).
Qed.

(** X16.  The device is destroyed again after the compositor has finished
    it: the handler of the finished event destroys the device and leaves
    its pointer in the state, no other handler touches it, and
    [data_control_destroy] destroys the device of the state without
    looking; after any signals the device has been destroyed once for
    [data_control_destroy] and once more for every finished event it
    got. *)
Theorem destroy_after_finished_destroys_device_again (self : data_control)
    (signals : list signal) (h : host) (s1 : data_control) (h1 : host) :
  serve self signals h = (Ok s1, h1) ->
  exists s2 h2 added,
    data_control_destroy s1 h1 = (Ok s2, h2)
    /\ trace h2 = trace h ++ added
    /\ device s1 = device self
    /\ occurrences (is_device_destroy (device self)) added
       = (signalled (is_finished (device self)) signals + 1)%nat.
Proof.
  revert self h. induction signals as [|sig signals IH]; intros self h E.
  - injection E as <- <-.
    destruct (destroy_spec self h) as (s2 & h2 & E & Htr & _ & _ & _).
    exists s2, h2. eexists. split; [exact E|]. split; [exact Htr|].
    split; [reflexivity|].
    rewrite !occurrences_app.
    assert (Hsrc : forall v : option handle,
              occurrences (is_device_destroy (device self))
                match v with Some s => [Source_destroy s] | None => [] end = 0%nat)
      by (intros [s|]; reflexivity).
    rewrite !Hsrc. unfold occurrences. cbn. now rewrite Pos.eqb_refl.
  - cbn [serve] in E. unfold bind in E.
    destruct (react self sig h) as [[s0|] h0] eqn:E0; [|discriminate].
    destruct (react_device self sig h h0 (Ok s0) E0) as (Hdev & t0 & Ht0 & Hc0).
    specialize (Hdev s0 eq_refl).
    destruct (IH s0 h0 E) as (s2 & h2 & added & E2 & Htr & Hdev1 & Hcount).
    exists s2, h2, (t0 ++ added). split; [exact E2|].
    split; [rewrite Htr, Ht0; now rewrite app_assoc|].
    split; [congruence|].
    rewrite occurrences_app, Hc0. rewrite Hdev in Hcount. rewrite Hcount.
    unfold signalled. cbn [List.filter].
    destruct (is_finished (device self) sig); cbn [length]; lia.
Qed.

End Destroying.

Lemma every_source_is_destroyed_once_witness :
  let self :=
    DataControl.set_primary_selection_field (Some 31%positive)
      (DataControl.set_selection_field (Some 30%positive) ClipboardExamples.clip0) in
  let h := ClipboardExamples.host0 [] [] in
  exists s1 h1 s2 h2 added,
    DataDevice.serve self (map DataDevice.Cancelled [31%positive; 40%positive]) h
    = (Ok s1, h1)
    /\ DataDevice.data_control_destroy s1 h1 = (Ok s2, h2)
    /\ DataDevice.trace h2 = DataDevice.trace h ++ added
    /\ (forall x,
          Ledger.occurrences (Ledger.is_source_destroy x) added
          = if existsb (Pos.eqb x) [31%positive; 40%positive] || Ledger.holds self x
            then 1%nat else 0%nat)
    /\ DataControl.selection s2 = None /\ DataControl.primary_selection s2 = None
    /\ Ledger.occurrences (Ledger.is_device_destroy (DataControl.device self)) added
       = 1%nat.
Proof.
  apply (every_source_is_destroyed_once
           (DataControl.set_primary_selection_field (Some 31%positive)
              (DataControl.set_selection_field (Some 30%positive)
                 ClipboardExamples.clip0))
           [31%positive; 40%positive] (ClipboardExamples.host0 [] [])).
  - repeat constructor; rewrite ?list_elem_of_In; simpl; intuition congruence.
  - right. discriminate.
Defined.

Lemma destroy_after_finished_destroys_device_again_witness :
  exists s2 h2 added,
    DataDevice.data_control_destroy ClipboardExamples.clip0
      (DataDevice.set_trace (fun t => t ++ [DataDevice.Device_destroy 4])
         (ClipboardExamples.host0 [] []))
    = (Ok s2, h2)
    /\ DataDevice.trace h2 = DataDevice.trace (ClipboardExamples.host0 [] []) ++ added
    /\ DataControl.device ClipboardExamples.clip0
       = DataControl.device ClipboardExamples.clip0
    /\ Ledger.occurrences
         (Ledger.is_device_destroy (DataControl.device ClipboardExamples.clip0)) added
       = (Ledger.signalled
            (Ledger.is_finished (DataControl.device ClipboardExamples.clip0))
            [DataDevice.Finished 4] + 1)%nat.
Proof.
  apply (destroy_after_finished_destroys_device_again ClipboardExamples.clip0
           [DataDevice.Finished 4] (ClipboardExamples.host0 [] [])
           ClipboardExamples.clip0
           (DataDevice.set_trace (fun t => t ++ [DataDevice.Device_destroy 4])
              (ClipboardExamples.host0 [] []))).
  reflexivity.
Defined.

(** ** From a selection in the compositor to the VNC server *)
Section EndToEnd.

Import DataControl DataDevice Ledger.

(** X17.  A selection made in the compositor reaches the VNC server.  The
    clipboard is initialised with a bound manager, every allocation
    succeeds; the compositor introduces an offer, the offer advertises
    "text/plain;charset=utf-8", and the offer is selected; the data
    arrive in chunks and end.  Then the VNC server is handed the bytes
    that were read in one call of [nvnc_send_cut_text] (none if no byte
    came), and everything the transfer took is given back: both ends of
    the pipe are closed once, the offer is destroyed once, the handler is
    stopped, and no context or stream of the transfer is left. *)
Theorem selection_reaches_vnc_server (self : data_control) (dpy srv seat mgr o : handle)
    (chunks : list (list Byte.byte)) (final : read_result) (h : host) :
  manager self = Some mgr ->
  offer self = None ->
  h_alloc_plan h = [] ->
  Forall (fun d => 0 < Z.of_nat (length d) <= 4096) chunks ->
  final = Read_eof \/ final = Read_error ->
  read_plan h = map Read_chunk chunks ++ [final] ->
  let dev := h_next_handle h in
  let c := Pos.succ dev in
  let s := Pos.succ c in
  let a := Pos.succ s in
  let fd0 := next_fd h in
  let fd1 := fd0 + 1 in
  let mime := "text/plain;charset=utf-8"%string in
  exists s0 h0 s1 h1,
    data_control_init self dpy srv seat h = (Ok s0, h0)
    /\ serve s0
         ([Data_offer (Some o); Offer o mime; Selection (Some o)]
          ++ map (fun _ => Readable a) chunks ++ [Readable a; Released c]) h0
       = (Ok s1, h1)
    /\ trace h1
       = trace h
         ++ [Get_data_device mgr seat dev; Device_add_listener dev;
             Offer_add_listener o; Sys_pipe fd0 fd1; Offer_receive o mime fd1;
             Display_flush dpy; Os (Sys_close fd1); Handler_new a fd0 c;
             Loop_start a; Handler_unref a]
         ++ reads fd0 chunks ++ [Sys_read fd0 (final_answer final)]
         ++ cut_text srv (concat chunks)
         ++ [Loop_stop a; Offer_destroy o; Os (Sys_close fd0)]
    /\ offer s1 = None
    /\ contexts h1 = delete c (contexts h)
    /\ streams h1 = delete s (streams h)
    /\ read_plan h1 = [].
Proof.
  intros Hmgr Hoffer Hplan Hchunks Hfinal Hreads dev c s a fd0 fd1 mime.
  destruct h as [next plan writes fd rplan ctxs strs hds tr].
  cbn [h_alloc_plan read_plan h_next_handle next_fd] in *. subst plan rplan.
  set (s0 := {| wl_display := dpy; server := srv; manager := manager self;
                device := dev; selection := None; primary_selection := None;
                cb_data := None; cb_len := 0; mime_type := mime;
                offer := offer self |}).
  set (h0 := {| h_next_handle := c; h_alloc_plan := []; h_write_plan := writes;
                next_fd := fd; read_plan := map Read_chunk chunks ++ [final];
                contexts := ctxs; streams := strs; handlers := hds;
                trace := tr ++ [Get_data_device mgr seat dev; Device_add_listener dev] |}).
  assert (E0 : data_control_init self dpy srv seat
                 {| h_next_handle := next; h_alloc_plan := []; h_write_plan := writes;
                    next_fd := fd; read_plan := map Read_chunk chunks ++ [final];
                    contexts := ctxs; streams := strs; handlers := hds; trace := tr |}
               = (Ok s0, h0)).
  { unfold data_control_init. rewrite Hmgr. unfold s0, h0. cbn.
    rewrite ?Hmgr, ?app_nil_r. unfold ret, set_trace. cbn.
    rewrite <- ?app_assoc. reflexivity. }
  set (s2 := set_offer_field (Some o) s0).
  set (h2 := set_trace (fun t => t ++ [Offer_add_listener o]) h0).
  destruct (receive_data_paths s2 o h2) as (h3 & E3 & Hreads3 & Hpaths).
  cbn -[lookup insert delete] in Hpaths.
  destruct Hpaths as (Htr3 & Hctx3 & Hstr3 & Hhd3).
  assert (Hin : in_transfer h3 a c s o fd []).
  { unfold in_transfer. rewrite Hhd3, Hctx3, Hstr3, !lookup_insert_eq. eauto. }
  destruct (transfer_completes (set_offer_field None s2) h3 a c s o fd [] chunks final []
              Hin Hchunks Hfinal Hreads3)
    as (h1 & E1 & Htr1 & Hrest1 & Hctx1 & Hstr1 & _).
  exists s0, h0, (set_offer_field None s2), h1.
  split; [exact E0|]. split.
  - cbn [app serve react]. unfold data_control_device_offer, perform, modify.
    unfold bind at 1. unfold bind at 1. cbn [ret].
    unfold bind at 1. cbn [ret]. fold h2.
    assert (Hkept : data_control_offer s0 o mime = s2).
    { unfold data_control_offer, s0. cbn [offer mime_type]. rewrite Hoffer.
      now rewrite String.eqb_refl. }
    rewrite Hkept. unfold bind at 1. unfold data_control_device_selection.
    assert (Hpending : is_pending_offer s2 (Some o) = true)
      by (unfold is_pending_offer; cbn; apply Pos.eqb_refl).
    rewrite Hpending. unfold bind at 1. rewrite E3. cbn [ret]. exact E1.
  - rewrite Htr1, Htr3, Hctx1, Hstr1, Hctx3, Hstr3, Hrest1. cbn [trace set_trace h2 h0].
    rewrite !delete_insert_eq, <- !app_assoc.
    repeat split.
Qed.

End EndToEnd.

Lemma selection_reaches_vnc_server_witness :
  let h := ClipboardExamples.host0 []
             [DataDevice.Read_chunk [Byte.x68; Byte.x69]; DataDevice.Read_eof] in
  exists s0 h0 s1 h1,
    DataDevice.data_control_init ClipboardExamples.clip0 1 2 6 h = (Ok s0, h0)
    /\ DataDevice.serve s0
         ([DataDevice.Data_offer (Some 20%positive);
           DataDevice.Offer 20 "text/plain;charset=utf-8";
           DataDevice.Selection (Some 20%positive)]
          ++ map (fun _ => DataDevice.Readable 13) [[Byte.x68; Byte.x69]]
          ++ [DataDevice.Readable 13; DataDevice.Released 11]) h0
       = (Ok s1, h1)
    /\ DataDevice.trace h1
       = DataDevice.trace h
         ++ [DataDevice.Get_data_device 3 6 10; DataDevice.Device_add_listener 10;
             DataDevice.Offer_add_listener 20; DataDevice.Sys_pipe 5 (5 + 1);
             DataDevice.Offer_receive 20 "text/plain;charset=utf-8" (5 + 1);
             DataDevice.Display_flush 1; DataDevice.Os (DataControl.Sys_close (5 + 1));
             DataDevice.Handler_new 13 5 11; DataDevice.Loop_start 13;
             DataDevice.Handler_unref 13]
         ++ Ledger.reads 5 [[Byte.x68; Byte.x69]]
         ++ [DataDevice.Sys_read 5 (Ledger.final_answer DataDevice.Read_eof)]
         ++ Ledger.cut_text 2 (concat [[Byte.x68; Byte.x69]])
         ++ [DataDevice.Loop_stop 13; DataDevice.Offer_destroy 20;
             DataDevice.Os (DataControl.Sys_close 5)]
    /\ DataControl.offer s1 = None
    /\ DataDevice.contexts h1 = delete 11%positive (DataDevice.contexts h)
    /\ DataDevice.streams h1 = delete 12%positive (DataDevice.streams h)
    /\ DataDevice.read_plan h1 = [].
Proof.
  apply (selection_reaches_vnc_server ClipboardExamples.clip0 1 2 6 3 20
           [[Byte.x68; Byte.x69]] DataDevice.Read_eof
           (ClipboardExamples.host0 []
              [DataDevice.Read_chunk [Byte.x68; Byte.x69]; DataDevice.Read_eof]));
    try reflexivity.
  - repeat constructor; simpl; lia.
  - now left.
Defined.
